(** * Forum-Project: session and identity core

    A shallow embedding of the session manager ([datahandlers.GetSession],
    [homehandlers.createSession]), of the OAuth callbacks and of the local
    registration and login handlers of the forum, with the properties the
    specification states about them.

    Conventions of the embedding.
    - Instants ([time.Time]) are integers: nanoseconds since the Unix epoch,
      as [UnixNano] reports them.  [time.Now] reads a clock whose successive
      readings are given by the environment.
    - The SQLite store is a record of tables.  [sessions] is keyed by its
      primary key; statements fail only through the constraints of the
      schema (store I/O failures are outside the model), and through the
      package variable [DB] being nil.  Table [users] comes with the
      sequence of its AUTOINCREMENT key and with a record of the INSERT
      statements sent to it, so that a statement the store refuses can
      still be told from one that was never sent.
    - Go's [(value, error)] results are pairs whose second component is an
      [option]; a panic is a separate outcome that aborts the handler.
    - Library code (bcrypt, oauth2, encoding/json, strings.ToLower, the
      random sources) is an interface, [Externals], the handlers are
      parametric in. *)

From Stdlib Require Import ZArith String Ascii List Bool Lia DecimalString DecimalZ.
From stdpp Require Import gmap strings list fin_maps.

Open Scope Z_scope.
Open Scope string_scope.

(** ** Errors *)

(** The error values the code produces or tests for.  [ErrNoRows] is
    [sql.ErrNoRows]; [ErrConstraint] and [ErrNotNull] are the store refusing a
    row for a UNIQUE or a NOT NULL constraint of the schema; [Errorf] is an
    error made by [fmt.Errorf]; [ErrLib] is an error reported by a library
    call. *)
Inductive error_value : Type :=
| ErrNoRows
| ErrScanNull (column : string)
| ErrConstraint (what : string)
| ErrNotNull (column : string)
| Errorf (msg : string)
| ErrLib (msg : string).

(** A Go [error]: [None] is nil. *)
Definition error : Type := option error_value.

#[global] Instance error_value_eq_dec : EqDecision error_value.
Proof. solve_decision. Defined.

(** [err.Error()] *)
Definition Error (e : error_value) : string :=
  match e with
  | ErrNoRows => "sql: no rows in result set"
  | ErrScanNull c => "sql: Scan error on column " +:+ c +:+ ": converting NULL to string is unsupported"
  | ErrConstraint what => "UNIQUE constraint failed: " +:+ what
  | ErrNotNull column => "NOT NULL constraint failed: " +:+ column
  | Errorf msg => msg
  | ErrLib msg => msg
  end.

(** ** Time *)

Definition Minute : Z := (60 * 1000000000)%Z.

(** [t.Before(u)] *)
Definition Before (t u : Z) : bool := Z.ltb t u.

(** [t.Add(d)] *)
Definition Add (t d : Z) : Z := (t + d)%Z.

(** ** Tables *)

(** A row of [sessions(id TEXT PRIMARY KEY, user_id INTEGER, expiry TIMESTAMP)],
    without its key. *)
Record SessionRow : Type := { user_id : Z; expiry : Z }.

(** [datahandlers.Session] *)
Record Session : Type := { ID : string; UserID : Z; Expiry : Z }.

(** A row of [users]; [u_password] is the column [password], [None] for
    NULL.  The schema declares the column NOT NULL ([insert_user] refuses
    such a row), so that no row the handlers store has [None] there. *)
Record UserRow : Type := {
  u_id : Z;
  u_email : string;
  u_username : string;
  u_password : option string;
  u_role : string
}.

#[global] Instance SessionRow_eq_dec : EqDecision SessionRow.
Proof. solve_decision. Defined.
#[global] Instance Session_eq_dec : EqDecision Session.
Proof. solve_decision. Defined.
#[global] Instance UserRow_eq_dec : EqDecision UserRow.
Proof. solve_decision. Defined.

(** The values bound to [INSERT INTO users (email, username[, password])];
    [i_password] is [None] when the statement names no password or binds
    NULL to it. *)
Record UserInsert : Type := {
  i_email : string;
  i_username : string;
  i_password : option string
}.

#[global] Instance UserInsert_eq_dec : EqDecision UserInsert.
Proof. solve_decision. Defined.

(** ** Requests and responses *)

Record Request : Type := {
  Method : string;
  URL_Query : list (string * string);
  PostForm : list (string * string);
  Cookies : list (string * string)
}.

Fixpoint assoc_first (key : string) (l : list (string * string)) : option string :=
  match l with
  | [] => None
  | (k, v) :: l' => if String.eqb k key then Some v else assoc_first key l'
  end.

(** [r.Cookie(name)]: the first cookie of that name, [None] for
    [http.ErrNoCookie]. *)
Definition Cookie (r : Request) (name : string) : option string :=
  assoc_first name (Cookies r).

(** [r.URL.Query().Get(key)] *)
Definition Query_Get (r : Request) (key : string) : string :=
  default "" (assoc_first key (URL_Query r)).

(** [r.FormValue(key)]: body parameters take precedence over the query
    string. *)
Definition FormValue (r : Request) (key : string) : string :=
  default "" (assoc_first key (PostForm r ++ URL_Query r)).

Record HttpCookie : Type := {
  Name : string;
  Value : string;
  Path : string;
  Expires : option Z;
  HttpOnly : bool;
  Secure : bool
}.

Inductive Provider : Type := Google | GitHub | Facebook.

#[global] Instance Provider_eq_dec : EqDecision Provider.
Proof. solve_decision. Defined.

(** Outbound calls and credential checks, in the order they are made. *)
Inductive Event : Type :=
| EvExchange (p : Provider) (code : string)
| EvGet (p : Provider) (url : string)
| EvCompareHashAndPassword (hash password : string)
| EvGenerateFromPassword (password : string).

#[global] Instance Event_eq_dec : EqDecision Event.
Proof. solve_decision. Defined.

(** The data handed to a template. *)
Inductive TemplateData (P : Type) : Type :=
| NoData
| LoginData (Error_ : string)
| RegisterTemplateData (ErrorMessages : gmap string string) (Email Username : string)
| AdminTemplateData (Posts : list P) (LoggedIn IsAdmin : bool).

Arguments NoData {P}.
Arguments LoginData {P} Error_.
Arguments RegisterTemplateData {P} ErrorMessages Email Username.
Arguments AdminTemplateData {P} Posts LoggedIn IsAdmin.

(** What a handler does to its [http.ResponseWriter].  [ExecuteTemplate f d]
    stands for the block that parses the template file [f] and executes it on
    [d] (answering 500 through [utils.HandleErr] if either step fails);
    [HandleErr] is the call of [utils.HandleErr], whose package is not part
    of the sources at hand. *)
Inductive Action (P : Type) : Type :=
| SetCookie (c : HttpCookie)
| Redirect (url : string) (code : Z)
| http_Error (msg : string) (code : Z)
| HandleErr (e : error_value) (msg : string) (code : Z)
| ExecuteTemplate (file : string) (data : TemplateData P).

Arguments SetCookie {P} c.
Arguments Redirect {P} url code.
Arguments http_Error {P} msg code.
Arguments HandleErr {P} e msg code.
Arguments ExecuteTemplate {P} file data.

Definition StatusSeeOther : Z := 303.
Definition StatusTemporaryRedirect : Z := 307.
Definition StatusUnauthorized : Z := 401.
Definition StatusInternalServerError : Z := 500.

(** ** The environment: library code and sources of time and randomness *)

Record userInfo : Type := { Email : string; Name_ : string }.

Record emailEntry : Type := { e_Email : string; Primary : bool; Verified : bool }.

Class Externals : Type := {
  (** rows of the post listing, which is outside this development *)
  Post : Type;
  (** [time.Now().UnixNano()] at the k-th reading of the clock *)
  clock : nat -> Z;
  (** the k-th value of the [math/rand] stream *)
  rand_src : nat -> nat;
  (** the k-th value of [uuid.New().String()] *)
  uuid_src : nat -> string;
  (** [strings.ToLower] *)
  ToLower : string -> string;
  (** [base64.URLEncoding.EncodeToString] *)
  EncodeToString : list nat -> string;
  (** [cfg.AuthCodeURL(state, ...)] of the provider's OAuth configuration *)
  AuthCodeURL : Provider -> string -> string;
  (** [cfg.Exchange(ctx, code)] of the provider's OAuth configuration *)
  Exchange : Provider -> string -> string * error;
  (** [cfg.Client(ctx, token).Get(url)]: the body of the response *)
  client_Get : Provider -> string -> string -> string * error;
  (** [json.NewDecoder(body).Decode(&userInfo)] *)
  Decode_userInfo : string -> userInfo * error;
  (** [json.NewDecoder(body).Decode(&emails)] *)
  Decode_emails : string -> list emailEntry * error;
  (** [bcrypt.CompareHashAndPassword(hash, password)] *)
  CompareHashAndPassword : string -> string -> error;
  (** [bcrypt.GenerateFromPassword(password, bcrypt.DefaultCost)] *)
  GenerateFromPassword : string -> string * error;
  (** [validate.Var(password, "required,min=6")] *)
  validate_Var_password : string -> error;
  (** [getFilteredPosts(searchQuery, category, filter, nil)], a query over
      the post tables *)
  getFilteredPosts : string -> string -> string -> list Post * error
}.

(** How a call ends: it returns, or it panics. *)
Inductive Outcome (A : Type) : Type :=
| Ret (a : A)
| Panic (msg : string).

Arguments Ret {A} a.
Arguments Panic {A} msg.

(** ** The state a handler runs in *)

Section Handlers.

Context `{Ext : Externals}.

Record World : Type := {
  (** [datahandlers.DB == nil] *)
  DB_nil : bool;
  (** table [sessions], by primary key *)
  sessions : gmap string SessionRow;
  (** table [users], in insertion order *)
  users : list UserRow;
  (** the largest id ever given to a row of [users]: the row that
      [sqlite_sequence] keeps for a table whose key is AUTOINCREMENT *)
  users_seq : Z;
  (** the [INSERT INTO users (email, username[, password])] statements sent
      to the store so far, accepted or refused *)
  user_inserts : list UserInsert;
  (** table [banned_users] *)
  banned_users : list string;
  (** package variable [registering] *)
  registering : bool;
  (** package variable [oauthStateStringGoogle] *)
  oauthStateStringGoogle : string;
  (** number of clock readings, of [math/rand] draws and of UUIDs so far *)
  ticks : nat;
  rand_pos : nat;
  uuid_pos : nat;
  (** outbound calls and credential checks made so far *)
  calls : list Event;
  (** what has been written to the [http.ResponseWriter] of the request *)
  written : list (Action Post)
}.

Definition set_sessions (f : gmap string SessionRow -> gmap string SessionRow) (w : World) : World :=
  {| DB_nil := DB_nil w; sessions := f (sessions w); users := users w;
     users_seq := users_seq w; user_inserts := user_inserts w;
     banned_users := banned_users w; registering := registering w;
     oauthStateStringGoogle := oauthStateStringGoogle w; ticks := ticks w;
     rand_pos := rand_pos w; uuid_pos := uuid_pos w; calls := calls w;
     written := written w |}.

Definition set_users (f : list UserRow -> list UserRow) (w : World) : World :=
  {| DB_nil := DB_nil w; sessions := sessions w; users := f (users w);
     users_seq := users_seq w; user_inserts := user_inserts w;
     banned_users := banned_users w; registering := registering w;
     oauthStateStringGoogle := oauthStateStringGoogle w; ticks := ticks w;
     rand_pos := rand_pos w; uuid_pos := uuid_pos w; calls := calls w;
     written := written w |}.

Definition set_users_seq (n : Z) (w : World) : World :=
  {| DB_nil := DB_nil w; sessions := sessions w; users := users w;
     users_seq := n; user_inserts := user_inserts w;
     banned_users := banned_users w; registering := registering w;
     oauthStateStringGoogle := oauthStateStringGoogle w; ticks := ticks w;
     rand_pos := rand_pos w; uuid_pos := uuid_pos w; calls := calls w;
     written := written w |}.

Definition add_user_insert (i : UserInsert) (w : World) : World :=
  {| DB_nil := DB_nil w; sessions := sessions w; users := users w;
     users_seq := users_seq w; user_inserts := (user_inserts w ++ [i])%list;
     banned_users := banned_users w; registering := registering w;
     oauthStateStringGoogle := oauthStateStringGoogle w; ticks := ticks w;
     rand_pos := rand_pos w; uuid_pos := uuid_pos w; calls := calls w;
     written := written w |}.

Definition set_registering (b : bool) (w : World) : World :=
  {| DB_nil := DB_nil w; sessions := sessions w; users := users w;
     users_seq := users_seq w; user_inserts := user_inserts w;
     banned_users := banned_users w; registering := b;
     oauthStateStringGoogle := oauthStateStringGoogle w; ticks := ticks w;
     rand_pos := rand_pos w; uuid_pos := uuid_pos w; calls := calls w;
     written := written w |}.

Definition set_oauthStateStringGoogle (s : string) (w : World) : World :=
  {| DB_nil := DB_nil w; sessions := sessions w; users := users w;
     users_seq := users_seq w; user_inserts := user_inserts w;
     banned_users := banned_users w; registering := registering w;
     oauthStateStringGoogle := s; ticks := ticks w;
     rand_pos := rand_pos w; uuid_pos := uuid_pos w; calls := calls w;
     written := written w |}.

Definition set_ticks (n : nat) (w : World) : World :=
  {| DB_nil := DB_nil w; sessions := sessions w; users := users w;
     users_seq := users_seq w; user_inserts := user_inserts w;
     banned_users := banned_users w; registering := registering w;
     oauthStateStringGoogle := oauthStateStringGoogle w; ticks := n;
     rand_pos := rand_pos w; uuid_pos := uuid_pos w; calls := calls w;
     written := written w |}.

Definition set_rand_pos (n : nat) (w : World) : World :=
  {| DB_nil := DB_nil w; sessions := sessions w; users := users w;
     users_seq := users_seq w; user_inserts := user_inserts w;
     banned_users := banned_users w; registering := registering w;
     oauthStateStringGoogle := oauthStateStringGoogle w; ticks := ticks w;
     rand_pos := n; uuid_pos := uuid_pos w; calls := calls w;
     written := written w |}.

Definition set_uuid_pos (n : nat) (w : World) : World :=
  {| DB_nil := DB_nil w; sessions := sessions w; users := users w;
     users_seq := users_seq w; user_inserts := user_inserts w;
     banned_users := banned_users w; registering := registering w;
     oauthStateStringGoogle := oauthStateStringGoogle w; ticks := ticks w;
     rand_pos := rand_pos w; uuid_pos := n; calls := calls w;
     written := written w |}.

Definition add_call (e : Event) (w : World) : World :=
  {| DB_nil := DB_nil w; sessions := sessions w; users := users w;
     users_seq := users_seq w; user_inserts := user_inserts w;
     banned_users := banned_users w; registering := registering w;
     oauthStateStringGoogle := oauthStateStringGoogle w; ticks := ticks w;
     rand_pos := rand_pos w; uuid_pos := uuid_pos w; calls := calls w ++ [e];
     written := written w |}.

Definition add_written (a : Action Post) (w : World) : World :=
  {| DB_nil := DB_nil w; sessions := sessions w; users := users w;
     users_seq := users_seq w; user_inserts := user_inserts w;
     banned_users := banned_users w; registering := registering w;
     oauthStateStringGoogle := oauthStateStringGoogle w; ticks := ticks w;
     rand_pos := rand_pos w; uuid_pos := uuid_pos w; calls := calls w;
     written := written w ++ [a] |}.

(** ** The monad of handlers: state, and panics that abort *)

Definition Go (A : Type) : Type := World -> Outcome A * World.

Definition ret {A : Type} (a : A) : Go A := fun w => (Ret a, w).

Definition bind {A B : Type} (m : Go A) (k : A -> Go B) : Go B :=
  fun w => match m w with
           | (Ret a, w') => k a w'
           | (Panic msg, w') => (Panic msg, w')
           end.

Definition panic {A : Type} (msg : string) : Go A := fun w => (Panic msg, w).

Definition gets {A : Type} (f : World -> A) : Go A := fun w => (Ret (f w), w).

Definition modify (f : World -> World) : Go unit := fun w => (Ret tt, f w).

End Handlers.

Declare Scope go_scope.
Delimit Scope go_scope with go.
Notation "'let*' x ':=' m 'in' k" := (bind m (fun x => k))
  (at level 10, x pattern, m at level 100, k at level 200) : go_scope.
Notation "m ';;' k" := (bind m (fun _ => k))
  (at level 100, k at level 200, right associativity) : go_scope.

(** The rows that [DELETE FROM sessions WHERE user_id = ? AND id <> ?]
    keeps: those that do not satisfy its condition. *)
Definition keeps (uid : Z) (id : string) (kv : string * SessionRow) : Prop :=
  negb (bool_decide (user_id kv.2 = uid) && negb (String.eqb kv.1 id)) = true.

#[global] Instance keeps_dec (uid : Z) (id : string) (kv : string * SessionRow) :
  Decision (keeps uid id kv).
Proof. unfold keeps. apply _. Defined.

Section Program.

Context `{Ext : Externals}.

Local Open Scope go_scope.

(** ** Primitives *)

(** [time.Now()] *)
Definition time_Now : Go Z :=
  fun w => (Ret (clock (ticks w)), set_ticks (S (ticks w)) w).

(** [rand.Intn(n)] *)
Definition rand_Intn (n : nat) : Go nat :=
  fun w => (Ret (rand_src (rand_pos w) `mod` n)%nat, set_rand_pos (S (rand_pos w)) w).

(** [uuid.New().String()] *)
Definition uuid_New : Go string :=
  fun w => (Ret (uuid_src (uuid_pos w)), set_uuid_pos (S (uuid_pos w)) w).

(** A method call on [datahandlers.DB] dereferences the handle. *)
Definition DB_deref : Go unit :=
  fun w => if DB_nil w then (Panic "invalid memory address or nil pointer dereference", w)
           else (Ret tt, w).

(** [fmt.Sprintf("%d", n)] *)
Definition Sprintf_d (n : Z) : string := NilEmpty.string_of_int (Z.to_int n).

(** ** Statements on table [sessions] *)

(** [SELECT id, user_id, expiry FROM sessions WHERE id = ?], scanned into a
    [Session]. *)
Definition select_session (id : string) : Go (Session * error) :=
  DB_deref ;;
  let* row := gets (fun w => sessions w !! id) in
  match row with
  | Some row => ret ({| ID := id; UserID := user_id row; Expiry := expiry row |}, None)
  | None => ret ({| ID := ""; UserID := 0; Expiry := 0 |}, Some ErrNoRows)
  end.

(** [INSERT INTO sessions (id, user_id, expiry) VALUES (?, ?, ?)]; the
    primary key rejects a second row with the same id. *)
Definition insert_session (id : string) (uid exp : Z) : Go error :=
  DB_deref ;;
  let* row := gets (fun w => sessions w !! id) in
  match row with
  | Some _ => ret (Some (ErrConstraint "sessions.id"))
  | None =>
      modify (set_sessions (insert id {| user_id := uid; expiry := exp |})) ;;
      ret None
  end.

(** [DELETE FROM sessions WHERE user_id = ? AND id <> ?] *)
Definition delete_other_sessions (uid : Z) (id : string) : Go error :=
  DB_deref ;;
  modify (set_sessions (filter (keeps uid id))) ;;
  ret None.

(** [UPDATE sessions SET expiry = ? WHERE id = ?] *)
Definition update_session_expiry (exp : Z) (id : string) : Go error :=
  DB_deref ;;
  modify (set_sessions (alter (fun row => {| user_id := user_id row; expiry := exp |}) id)) ;;
  ret None.

(** [DELETE FROM sessions WHERE id = ?] *)
Definition delete_session (id : string) : Go error :=
  DB_deref ;;
  modify (set_sessions (delete id)) ;;
  ret None.

(** ** [homehandlers.createSession] *)

Definition sessionToken_of (userID nanos : Z) : string :=
  "session-" +:+ Sprintf_d userID +:+ "-" +:+ Sprintf_d nanos.

Definition createSession (userID : Z) : Go (string * error) :=
  let* now := time_Now in
  let sessionToken := sessionToken_of userID now in
  let* now' := time_Now in
  let expiry := Add now' (10 * Minute) in
  let* err := insert_session sessionToken userID expiry in
  match err with
  | Some e => ret ("", Some e)
  | None => ret (sessionToken, None)
  end.

(** ** [datahandlers.GetSession] *)

Definition GetSession (r : Request) : Go (option Session * error) :=
  let* isnil := gets DB_nil in
  if isnil then ret (None, Some (Errorf "database connection is not initialized")) else
  match Cookie r "session_token" with
  | None => ret (None, None)
  | Some sessionToken =>
      let* (session, err) := select_session sessionToken in
      match err with
      | Some e => ret (None, Some e)
      | None =>
          let* now := time_Now in
          if Before (Expiry session) now then ret (None, Some (Errorf "session expired")) else
          let* err := delete_other_sessions (UserID session) sessionToken in
          match err with
          | Some e => ret (None, Some e)
          | None =>
              let* now' := time_Now in
              let newExpiry := Add now' (10 * Minute) in
              let* err := update_session_expiry newExpiry sessionToken in
              match err with
              | Some e => ret (None, Some e)
              | None =>
                  ret (Some {| ID := ID session; UserID := UserID session; Expiry := newExpiry |}, None)
              end
          end
      end
  end.

(** ** Statements on tables [users] and [banned_users] *)

(** The first row of [users] with the given e-mail ([email] is UNIQUE). *)
Definition find_user_by_email (email : string) (l : list UserRow) : option UserRow :=
  List.find (fun u => String.eqb (u_email u) email) l.

Definition find_user_by_id (id : Z) (l : list UserRow) : option UserRow :=
  List.find (fun u => Z.eqb (u_id u) id) l.

(** [SELECT id FROM users WHERE email = ?], scanned into an [int]. *)
Definition select_user_id_by_email (email : string) : Go (Z * error) :=
  DB_deref ;;
  let* row := gets (fun w => find_user_by_email email (users w)) in
  match row with
  | Some u => ret (u_id u, None)
  | None => ret (0%Z, Some ErrNoRows)
  end.

(** [SELECT id FROM users WHERE email = ? AND password IS NULL] *)
Definition select_passwordless_id_by_email (email : string) : Go (Z * error) :=
  DB_deref ;;
  let* row := gets (fun w =>
    List.find (fun u => String.eqb (u_email u) email && negb (bool_decide (is_Some (u_password u))))
              (users w)) in
  match row with
  | Some u => ret (u_id u, None)
  | None => ret (0%Z, Some ErrNoRows)
  end.

(** [SELECT id, password FROM users WHERE email = ?], scanned into an [int]
    and a [string]: a NULL password does not scan. *)
Definition select_id_password_by_email (email : string) : Go (Z * string * error) :=
  DB_deref ;;
  let* row := gets (fun w => find_user_by_email email (users w)) in
  match row with
  | Some u =>
      match u_password u with
      | Some h => ret (u_id u, h, None)
      | None => ret (u_id u, "", Some (ErrScanNull "password"))
      end
  | None => ret (0%Z, "", Some ErrNoRows)
  end.

(** [SELECT COUNT( * ) FROM users WHERE username = ?] *)
Definition count_users_by_username (username : string) : Go (Z * error) :=
  DB_deref ;;
  let* n := gets (fun w =>
    List.length (List.filter (fun u => String.eqb (u_username u) username) (users w))) in
  ret (Z.of_nat n, None).

(** [SELECT role FROM users WHERE id = ?] *)
Definition select_role_by_id (id : Z) : Go (string * error) :=
  DB_deref ;;
  let* row := gets (fun w => find_user_by_id id (users w)) in
  match row with
  | Some u => ret (u_role u, None)
  | None => ret ("", Some ErrNoRows)
  end.

(** The id an AUTOINCREMENT key gives the next row: one more than the
    largest id the table has ever held.  [seq] is what [sqlite_sequence]
    remembers of it, so that the id of a deleted row is not given again. *)
Definition next_user_id (seq : Z) (l : list UserRow) : Z :=
  (1 + Z.max seq (List.fold_right (fun u m => Z.max (u_id u) m) 0 l))%Z.

(** [INSERT INTO users (email, username[, password]) VALUES (...)].
    [password] is NOT NULL and has no default: a statement that names no
    password, or binds NULL to it, is refused, before the UNIQUE indexes on
    [email] and [username] are looked at.  [role] defaults to ['user'].
    Returns the [LastInsertId]; a refused statement stores nothing and
    leaves the sequence of ids as it was. *)
Definition insert_user (email username : string) (password : option string) : Go (Z * error) :=
  DB_deref ;;
  modify (add_user_insert {| i_email := email; i_username := username; i_password := password |}) ;;
  match password with
  | None => ret (0%Z, Some (ErrNotNull "users.password"))
  | Some _ =>
      let* l := gets users in
      if List.existsb (fun u => String.eqb (u_email u) email) l
      then ret (0%Z, Some (ErrConstraint "users.email"))
      else if List.existsb (fun u => String.eqb (u_username u) username) l
      then ret (0%Z, Some (ErrConstraint "users.username"))
      else
        let* seq := gets users_seq in
        let id := next_user_id seq l in
        modify (set_users (fun l => (l ++ [{| u_id := id; u_email := email; u_username := username;
                                             u_password := password; u_role := "user" |}])%list)) ;;
        modify (set_users_seq id) ;;
        ret (id, None)
  end.

(** [homehandlers.checkIfBanned]:
    [SELECT EXISTS(SELECT 1 FROM banned_users WHERE email = ?)] *)
Definition checkIfBanned (email : string) : Go (bool * error) :=
  DB_deref ;;
  let* exists_ := gets (fun w => List.existsb (String.eqb email) (banned_users w)) in
  ret (exists_, None).

(** [homehandlers.getUserByEmail]; the role is not selected. *)
Definition getUserByEmail (email : string) : Go (option UserRow * error) :=
  DB_deref ;;
  let* row := gets (fun w => find_user_by_email email (users w)) in
  match row with
  | Some u => ret (Some {| u_id := u_id u; u_email := u_email u; u_username := u_username u;
                           u_password := u_password u; u_role := "" |}, None)
  | None => ret (None, None)
  end.

(** [homehandlers.getGoogleUserByEmail] *)
Definition getGoogleUserByEmail (email : string) : Go (Z * error) :=
  let* (userID, err) := select_passwordless_id_by_email email in
  match err with
  | Some e => if decide (e = ErrNoRows) then ret (0%Z, None) else ret (0%Z, Some e)
  | None => ret (userID, None)
  end.

(** [homehandlers.saveUser] *)
Definition saveUser (email username : string) (password : option string) : Go error :=
  let* (_, err) := insert_user email username password in
  ret err.

(** [homehandlers.getOrCreateUser] *)
Definition getOrCreateUser (email username : string) : Go (Z * error) :=
  let* (userID, err) := select_user_id_by_email email in
  match err with
  | Some e =>
      if decide (e = ErrNoRows) then
        let* (userID, err) := insert_user email username None in
        match err with
        | Some e => ret (0%Z, Some e)
        | None => ret (userID, None)
        end
      else ret (0%Z, Some e)
  | None => ret (userID, None)
  end.

(** [homehandlers.CheckIfAdmin] *)
Definition CheckIfAdmin (userID : Z) : Go (bool * error) :=
  let* (role, err) := select_role_by_id userID in
  match err with
  | Some e => if decide (e = ErrNoRows) then ret (false, None) else ret (false, Some e)
  | None => ret (String.eqb role "admin", None)
  end.

(** ** Strings and random tags *)

(** [strings.ReplaceAll(s, old, new)] for a one-byte [old]. *)
Fixpoint ReplaceAll (s : string) (old : ascii) (new : string) : string :=
  match s with
  | EmptyString => EmptyString
  | String c s' =>
      if Ascii.eqb c old then new +:+ ReplaceAll s' old new
      else String c (ReplaceAll s' old new)
  end.

Definition charset : string :=
  "abcdefghijklmnopqrstuvwxyzABCDEFGHIJKLMNOPQRSTUVWXYZ0123456789".

(** [homehandlers.generateRandomString] *)
Fixpoint generateRandomString (length : nat) : Go string :=
  match length with
  | O => ret ""
  | S n =>
      let* i := rand_Intn (String.length charset) in
      match String.get i charset with
      | Some c =>
          let* rest := generateRandomString n in
          ret (String c rest)
      | None => panic "index out of range"
      end
  end.

Fixpoint rand_Read (n : nat) : Go (list nat) :=
  match n with
  | O => ret []
  | S n' =>
      let* b := rand_Intn 256 in
      let* rest := rand_Read n' in
      ret (b :: rest)
  end.

(** [homehandlers.generateNonce]; [math/rand]'s [Read] never fails. *)
Definition generateNonce : Go string :=
  let* b := rand_Read 32 in
  ret (EncodeToString b).

(** The user name the callbacks derive from a display name and a tag. *)
Definition username_of (name tag : string) : string :=
  ToLower (ReplaceAll name " "%char "") +:+ "_" +:+ tag.

(** ** Outbound calls *)

Definition write (a : Action Post) : Go unit := modify (add_written a).

Definition emit (e : Event) : Go unit := modify (add_call e).

(** [cfg.Exchange(r.Context(), code)] *)
Definition oauth_Exchange (p : Provider) (code : string) : Go (string * error) :=
  emit (EvExchange p code) ;;
  ret (Exchange p code).

(** [client.Get(url)] with the client of the provider's configuration *)
Definition http_Get (p : Provider) (token url : string) : Go (string * error) :=
  emit (EvGet p url) ;;
  ret (client_Get p token url).

(** [homehandlers.getEmailAndNameFromGoogle] *)
Definition getEmailAndNameFromGoogle (token : string) : Go (string * string * error) :=
  let* (body, err) := http_Get Google token "https://www.googleapis.com/oauth2/v2/userinfo" in
  match err with
  | Some e => ret ("", "", Some e)
  | None =>
      let (userInfo, err) := Decode_userInfo body in
      match err with
      | Some e => ret ("", "", Some e)
      | None => ret (Email userInfo, Name_ userInfo, None)
      end
  end.

(** [homehandlers.getEmailAndNameFromFacebook] *)
Definition getEmailAndNameFromFacebook (token : string) : Go (string * string * error) :=
  let* (body, err) := http_Get Facebook token "https://graph.facebook.com/me?fields=id,name,email" in
  match err with
  | Some e => ret ("", "", Some e)
  | None =>
      let (userInfo, err) := Decode_userInfo body in
      match err with
      | Some e => ret ("", "", Some e)
      | None => ret (Email userInfo, Name_ userInfo, None)
      end
  end.

(** The loop of [getEmailAndNameFromGitHub] over the e-mail list: the first
    entry that is primary and verified replaces the e-mail, and the loop
    stops there. *)
Fixpoint range_emails (emails : list emailEntry) (email : string) : string :=
  match emails with
  | [] => email
  | e :: rest => if Primary e && Verified e then e_Email e else range_emails rest email
  end.

(** [homehandlers.getEmailAndNameFromGitHub] *)
Definition getEmailAndNameFromGitHub (token : string) : Go (string * string * error) :=
  let* (body, err) := http_Get GitHub token "https://api.github.com/user" in
  match err with
  | Some e => ret ("", "", Some e)
  | None =>
      let (userInfo, err) := Decode_userInfo body in
      match err with
      | Some e => ret ("", "", Some e)
      | None =>
          if String.eqb (Email userInfo) "" then
            let* (emailBody, err) := http_Get GitHub token "https://api.github.com/user/emails" in
            match err with
            | Some e => ret ("", "", Some e)
            | None =>
                let (emails, err) := Decode_emails emailBody in
                match err with
                | Some e => ret ("", "", Some e)
                | None => ret (range_emails emails (Email userInfo), Name_ userInfo, None)
                end
            end
          else ret (Email userInfo, Name_ userInfo, None)
      end
  end.

(** ** Starting a provider login *)

(** [homehandlers.HandleGoogleLogin] *)
Definition HandleGoogleLogin (r : Request) : Go unit :=
  modify (set_registering false) ;;
  let* nonce := generateNonce in
  modify (set_oauthStateStringGoogle nonce) ;;
  let* state := gets oauthStateStringGoogle in
  write (Redirect (AuthCodeURL Google state) StatusTemporaryRedirect).

(** [homehandlers.HandleGoogleRegister] *)
Definition HandleGoogleRegister (r : Request) : Go unit :=
  modify (set_registering true) ;;
  let* nonce := generateNonce in
  modify (set_oauthStateStringGoogle nonce) ;;
  let* state := gets oauthStateStringGoogle in
  write (Redirect (AuthCodeURL Google state) StatusTemporaryRedirect).

(** [homehandlers.HandleGitHubLogin]; it uses the Google configuration and
    the Google state variable. *)
Definition HandleGitHubLogin (r : Request) : Go unit :=
  modify (set_registering false) ;;
  let* nonce := generateNonce in
  modify (set_oauthStateStringGoogle nonce) ;;
  let* state := gets oauthStateStringGoogle in
  write (Redirect (AuthCodeURL Google state) StatusTemporaryRedirect).

(** ** Provider callbacks *)

Definition callback_cookie (sessionToken : string) : HttpCookie :=
  {| Name := "session_token"; Value := sessionToken; Path := "/"; Expires := None;
     HttpOnly := true; Secure := false |}.

Definition email_taken : gmap string string := {[ "Email" := "Bu Email zaten kayıtlı." ]}.

(** The two branches the Google and GitHub callbacks share, once e-mail and
    user name are known. *)
Definition register_or_login (email username : string) : Go unit :=
  let* reg := gets registering in
  if reg then
    let* (user, _) := getUserByEmail email in
    match user with
    | Some _ =>
        write (ExecuteTemplate "templates/register.html" (RegisterTemplateData email_taken email ""))
    | None =>
        let* (userId, _) := getOrCreateUser email username in
        let* (sessionToken, _) := createSession userId in
        write (SetCookie (callback_cookie sessionToken)) ;;
        write (Redirect "/myprofil" StatusTemporaryRedirect)
    end
  else
    let* (userID, err) := select_user_id_by_email email in
    match err with
    | Some e =>
        if decide (e = ErrNoRows)
        then write (HandleErr e "Kullanıcı bulunamadı. Lütfen önce kaydolun." StatusUnauthorized)
        else write (HandleErr e "Internal server error" StatusInternalServerError)
    | None =>
        let* (sessionToken, err) := createSession userID in
        match err with
        | Some _ => write (http_Error "Oturum oluşturulamadı." StatusInternalServerError)
        | None =>
            write (SetCookie (callback_cookie sessionToken)) ;;
            write (Redirect "/" StatusSeeOther)
        end
    end.

(** [homehandlers.HandleGitHubCallback] *)
Definition HandleGitHubCallback (r : Request) : Go unit :=
  let code := Query_Get r "code" in
  let* (token, err) := oauth_Exchange GitHub code in
  match err with
  | Some _ => write (http_Error "Failed to exchange token" StatusInternalServerError)
  | None =>
      let* (email, name, err) := getEmailAndNameFromGitHub token in
      match err with
      | Some _ => write (http_Error "Failed to get user info from GitHub" StatusInternalServerError)
      | None =>
          let* tag := generateRandomString 5 in
          let username := username_of name tag in
          register_or_login email username
      end
  end.

(** [homehandlers.HandleGoogleCallback] *)
Definition HandleGoogleCallback (r : Request) : Go unit :=
  let* state := gets oauthStateStringGoogle in
  if negb (String.eqb (FormValue r "state") state) then
    write (Redirect "/" StatusTemporaryRedirect)
  else
    let code := Query_Get r "code" in
    let* (token, err) := oauth_Exchange Google code in
    match err with
    | Some _ => write (http_Error "Token değişimi başarısız oldu." StatusInternalServerError)
    | None =>
        let* (email, name, err) := getEmailAndNameFromGoogle token in
        match err with
        | Some _ =>
            write (http_Error "Google'dan kullanıcı bilgileri alınamadı." StatusInternalServerError)
        | None =>
            let username := ToLower (ReplaceAll name " "%char "") in
            register_or_login email username
        end
    end.

(** [homehandlers.HandleFacebookCallback] *)
Definition HandleFacebookCallback (r : Request) : Go unit :=
  let code := Query_Get r "code" in
  let* (token, err) := oauth_Exchange Facebook code in
  match err with
  | Some _ => write (http_Error "Failed to exchange token" StatusInternalServerError)
  | None =>
      let* (email, name, err) := getEmailAndNameFromFacebook token in
      match err with
      | Some _ => write (http_Error "Failed to get user info from Facebook" StatusInternalServerError)
      | None =>
          let* tag := generateRandomString 5 in
          let username := username_of name tag in
          let* (userID, err) := getOrCreateUser email username in
          match err with
          | Some e =>
              write (http_Error ("Failed to save user info: " +:+ Error e) StatusInternalServerError)
          | None =>
              let* (sessionToken, err) := createSession userID in
              match err with
              | Some _ => write (http_Error "Failed to create session" StatusInternalServerError)
              | None =>
                  write (SetCookie (callback_cookie sessionToken)) ;;
                  write (Redirect "/myprofil" StatusTemporaryRedirect)
              end
          end
      end
  end.

(** ** The home page *)

(** [homehandlers.HomeHandler] *)
Definition HomeHandler (r : Request) : Go unit :=
  let* (session, err) := GetSession r in
  match err with
  | Some e => write (HandleErr e "Internal server error" StatusInternalServerError)
  | None =>
      let searchQuery := Query_Get r "search" in
      let category := Query_Get r "category" in
      let filter := Query_Get r "filter" in
      DB_deref ;;
      let (posts, err) := getFilteredPosts searchQuery category filter in
      match err with
      | Some e => write (HandleErr e "Internal server error" StatusInternalServerError)
      | None =>
          let* (isAdmin, err) :=
            match session with
            | Some s => CheckIfAdmin (UserID s)
            | None => ret (false, None)
            end in
          match err with
          | Some e => write (HandleErr e "Internal server error" StatusInternalServerError)
          | None =>
              write (ExecuteTemplate "templates/index.html"
                       (AdminTemplateData posts (bool_decide (is_Some session)) isAdmin))
          end
      end
  end.

(** ** Local registration *)

(** [homehandlers.registerError] *)
Definition registerError (r : Request) (s : string) : Go unit :=
  panic "unimplemented".

(** The tail of [registerUser]: save the user, open a session, set the
    cookie and redirect.  [saveUser] does not read the new id back, so the
    session is opened for [user.ID], which is still zero. *)
Definition registerUser_save (email username : string) (password : option string) : Go error :=
  let user_ID := 0%Z in
  let* err := saveUser email username password in
  match err with
  | Some e => ret (Some e)
  | None =>
      let* (sessionToken, err) := createSession user_ID in
      match err with
      | Some e => ret (Some e)
      | None =>
          write (SetCookie {| Name := "session_token"; Value := sessionToken; Path := "/";
                              Expires := None; HttpOnly := true; Secure := true |}) ;;
          write (Redirect "/myprofil" StatusSeeOther) ;;
          ret None
      end
  end.

(** [homehandlers.registerUser] *)
Definition registerUser (r : Request) : Go error :=
  let email := FormValue r "email" in
  let googleOAuth := FormValue r "google_oauth" in
  let* _ := select_user_id_by_email email in
  let* (existingUser, _) := getUserByEmail email in
  match existingUser with
  | Some _ => ret (Some (Errorf "user already exists"))
  | None =>
      if String.eqb googleOAuth "true" then
        let code := FormValue r "code" in
        let* (token, err) := oauth_Exchange Google code in
        match err with
        | Some e => ret (Some e)
        | None =>
            let* (email, name, err) := getEmailAndNameFromGoogle token in
            match err with
            | Some e => ret (Some e)
            | None =>
                let* tag := generateRandomString 5 in
                let username := username_of name tag in
                registerUser_save email username None
            end
        end
      else
        let username := FormValue r "username" in
        let password := FormValue r "password" in
        let* (count, err) := count_users_by_username username in
        match err with
        | Some e => ret (Some e)
        | None =>
            if (0 <? count)%Z then
              registerError r "username already exists" ;;
              ret (Some (Errorf "username already exists"))
            else
              match validate_Var_password password with
              | Some e => ret (Some e)
              | None =>
                  emit (EvGenerateFromPassword password) ;;
                  let (hashedPassword, err) := GenerateFromPassword password in
                  match err with
                  | Some e => ret (Some e)
                  | None => registerUser_save email username (Some hashedPassword)
                  end
              end
        end
  end.

(** [homehandlers.renderRegisterTemplate] *)
Definition renderRegisterTemplate (data : TemplateData Post) : Go unit :=
  write (ExecuteTemplate "templates/register.html" data).

(** [homehandlers.RegisterHandler] *)
Definition RegisterHandler (r : Request) : Go unit :=
  let* (session, err) := GetSession r in
  if bool_decide (err = None) && bool_decide (is_Some session) then
    write (Redirect "/" StatusSeeOther)
  else
    let errorMessages : gmap string string := ∅ in
    let email := FormValue r "email" in
    let email := if String.eqb email "" then Query_Get r "email" else email in
    let* errorMessages :=
      if negb (String.eqb email "") then
        let* (existingUser, _) := getUserByEmail email in
        match existingUser with
        | Some _ => ret (<["Email" := "Bu Email zaten kayıtlı."]> errorMessages)
        | None => ret errorMessages
        end
      else ret errorMessages in
    if String.eqb (Method r) "POST" then
      let* err := registerUser r in
      match err with
      | Some e =>
          let errorMessages :=
            if String.eqb (Error e) "user already exists" then
              <["Email" := "Bu Email zaten kayıtlı."]> errorMessages
            else if String.eqb (Error e) "username already exists" then
              <["Username" := "Bu kullanıcı adı zaten alınmış."]> errorMessages
            else <["Email" := Error e]> errorMessages in
          renderRegisterTemplate (RegisterTemplateData errorMessages "" "")
      | None => ret tt
      end
    else
      write (ExecuteTemplate "templates/register.html" (RegisterTemplateData errorMessages email "")).

(** ** Local login and logout *)

Definition login_page (Error_ : string) : Action Post :=
  ExecuteTemplate "templates/login.html" (LoginData Error_).

(** [homehandlers.LoginHandler] *)
Definition LoginHandler (r : Request) : Go unit :=
  let* (session, err) := GetSession r in
  if bool_decide (err = None) && bool_decide (is_Some session) then
    write (Redirect "/" StatusSeeOther)
  else
    if String.eqb (Method r) "POST" then
      let email := FormValue r "email" in
      let password := FormValue r "password" in
      let googleOAuth := FormValue r "google_oauth" in
      let* (banned, err) := checkIfBanned email in
      match err with
      | Some e => write (HandleErr e "Internal server error" StatusInternalServerError)
      | None =>
          if banned then write (login_page "Bu kullanıcı banlanmış.")
          else if String.eqb googleOAuth "true" then
            let code := FormValue r "code" in
            let* (token, err) := oauth_Exchange Google code in
            match err with
            | Some _ => write (http_Error "Failed to exchange token" StatusInternalServerError)
            | None =>
                let* (email, _, err) := getEmailAndNameFromGoogle token in
                match err with
                | Some _ =>
                    write (http_Error "Failed to get user info from Google" StatusInternalServerError)
                | None =>
                    let* (userID, err) := getGoogleUserByEmail email in
                    match err with
                    | Some e =>
                        if decide (e = ErrNoRows)
                        then write (HandleErr e "User not found. Please register first." StatusUnauthorized)
                        else write (HandleErr e "Internal server error" StatusInternalServerError)
                    | None =>
                        let* (sessionToken, err) := createSession userID in
                        match err with
                        | Some _ =>
                            write (http_Error "Failed to create session" StatusInternalServerError)
                        | None =>
                            write (SetCookie (callback_cookie sessionToken)) ;;
                            write (Redirect "/myprofil" StatusSeeOther)
                        end
                    end
                end
            end
          else
            let* (id, hashedPassword, err) := select_id_password_by_email email in
            match err with
            | Some e =>
                (if decide (e = ErrNoRows)
                 then write (login_page "Geçersiz e-posta veya şifre")
                 else write (HandleErr e "Internal server error" StatusInternalServerError) ;;
                      write (login_page ""))
            | None =>
                emit (EvCompareHashAndPassword hashedPassword password) ;;
                match CompareHashAndPassword hashedPassword password with
                | Some _ => write (login_page "Geçersiz e-posta veya şifre")
                | None =>
                    let* sessionToken := uuid_New in
                    let* now := time_Now in
                    let expiresAt := Add now (10 * Minute) in
                    let* err := insert_session sessionToken id expiresAt in
                    match err with
                    | Some e => write (HandleErr e "Session creation failed" StatusInternalServerError)
                    | None =>
                        write (SetCookie {| Name := "session_token"; Value := sessionToken;
                                            Path := ""; Expires := Some expiresAt;
                                            HttpOnly := true; Secure := true |}) ;;
                        write (Redirect "/" StatusSeeOther)
                    end
                end
            end
      end
    else
      let errorMessage := Query_Get r "error" in
      write (login_page errorMessage).

(** [homehandlers.LogoutHandler] *)
Definition LogoutHandler (r : Request) : Go unit :=
  match Cookie r "session_token" with
  | None => write (Redirect "/" StatusSeeOther)
  | Some sessionToken =>
      let* err := delete_session sessionToken in
      match err with
      | Some e => write (HandleErr e "Internal server error" StatusInternalServerError)
      | None =>
          let* now := time_Now in
          write (SetCookie {| Name := "session_token"; Value := ""; Path := "";
                              Expires := Some (Add now (- 1000000000)); HttpOnly := false;
                              Secure := false |}) ;;
          write (Redirect "/" StatusSeeOther)
      end
  end.

End Program.

(** * The vocabulary of the properties *)

Section Vocabulary.

Context `{Ext : Externals}.

(** The world [createSession] leaves when the insertion succeeds: two
    clock readings, one new row. *)
Definition createSession_world (userID : Z) (w : World) : World :=
  set_sessions
    (insert (sessionToken_of userID (clock (ticks w)))
            {| user_id := userID; expiry := Add (clock (S (ticks w))) (10 * Minute) |})
    (set_ticks (S (S (ticks w))) w).

(** The world a successful validation leaves: two clock readings, the
    sibling sessions deleted, the expiry of the validated row moved. *)
Definition GetSession_world (tok : string) (row : SessionRow) (w : World) : World :=
  set_sessions
    (fun m => alter (fun row' => {| user_id := user_id row';
                                    expiry := Add (clock (S (ticks w))) (10 * Minute) |})
                    tok (filter (keeps (user_id row) tok) m))
    (set_ticks (S (S (ticks w))) w).

(** The same request without its cookies. *)
Definition anonymous (r : Request) : Request :=
  {| Method := Method r; URL_Query := URL_Query r; PostForm := PostForm r; Cookies := [] |}.

Definition github_user_url : string := "https://api.github.com/user".
Definition github_emails_url : string := "https://api.github.com/user/emails".

Definition primary_verified (e : emailEntry) : bool := Primary e && Verified e.

(** Whether the request comes with a live session: [GetSession] returns a
    session and no error. *)
Definition logged_in (r : Request) (w : World) : bool :=
  match fst (GetSession r w) with
  | Ret (Some _, None) => true
  | _ => false
  end.



(** The [n] bytes that [rand.Read] draws from position [pos] of the
    random stream. *)
Fixpoint drawn_bytes (n pos : nat) : list nat :=
  match n with
  | O => []
  | S n' => (rand_src pos `mod` 256)%nat :: drawn_bytes n' (S pos)
  end.

(** The URL each provider's profile is read from. *)
Definition userinfo_url (p : Provider) : string :=
  match p with
  | Google => "https://www.googleapis.com/oauth2/v2/userinfo"
  | GitHub => "https://api.github.com/user"
  | Facebook => "https://graph.facebook.com/me?fields=id,name,email"
  end.


End Vocabulary.

(** * A concrete environment and concrete inputs *)

Module Inputs.

Definition lower_ascii (c : ascii) : ascii :=
  let n := nat_of_ascii c in
  if (65 <=? n)%nat && (n <=? 90)%nat then ascii_of_nat (n + 32) else c.

(** [strings.ToLower] on ASCII text. *)
Fixpoint lower (s : string) : string :=
  match s with
  | EmptyString => EmptyString
  | String c s' => String (lower_ascii c) (lower s')
  end.

(** The display name [Ada<TAB>L]. *)
Definition name_with_tab : string := "Ada" +:+ String "009"%char "L".

Definition decode_userInfo (body : string) : userInfo * error :=
  if String.eqb body "noemail" then ({| Email := ""; Name_ := "Ada L" |}, None)
  else if String.eqb body "tab" then ({| Email := "tab@x.com"; Name_ := name_with_tab |}, None)
  else ({| Email := body +:+ "@x.com"; Name_ := "Ada L" |}, None).

Definition email_list : list emailEntry :=
  [ {| e_Email := "old@x.com"; Primary := false; Verified := true |};
    {| e_Email := "new@x.com"; Primary := true; Verified := false |};
    {| e_Email := "ada@x.com"; Primary := true; Verified := true |};
    {| e_Email := "last@x.com"; Primary := true; Verified := true |} ].

(** A clock that advances by a nanosecond per reading from instant 1000, a
    random stream 0, 1, 2, ..., providers that answer every code but
    [denied] with the code as token and every request with the token as
    body, and a password hash that is the password behind a prefix. *)
#[local] Instance env : Externals := {|
  Post := unit;
  clock k := (1000 + Z.of_nat k)%Z;
  rand_src k := k;
  uuid_src k := "uuid-" +:+ Sprintf_d (Z.of_nat k);
  ToLower := lower;
  EncodeToString l := "nonce-" +:+ Sprintf_d (Z.of_nat (List.fold_right Nat.add 0%nat l));
  AuthCodeURL p state := "https://provider.example/auth?state=" +:+ state;
  Exchange p code :=
    if String.eqb code "denied" then ("", Some (ErrLib "oauth2: cannot fetch token"))
    else (code, None);
  client_Get p token url := (token, None);
  Decode_userInfo := decode_userInfo;
  Decode_emails body := (email_list, None);
  CompareHashAndPassword hash password :=
    if String.eqb hash ("hash:" +:+ password) then None
    else Some (ErrLib "crypto/bcrypt: hashedPassword is not the hash of the given password");
  GenerateFromPassword password := ("hash:" +:+ password, None);
  validate_Var_password password :=
    if (6 <=? String.length password)%nat then None else Some (ErrLib "validation failed on min");
  getFilteredPosts searchQuery category filter := ([], None)
|}.

Definition alice : UserRow :=
  {| u_id := 1; u_email := "alice@x.com"; u_username := "alice";
     u_password := Some "hash:secret1"; u_role := "user" |}.

(** An empty store. *)
Definition empty_world : World :=
  {| DB_nil := false; sessions := ∅; users := []; users_seq := 0; user_inserts := [];
     banned_users := [];
     registering := false; oauthStateStringGoogle := ""; ticks := 0; rand_pos := 0;
     uuid_pos := 0; calls := []; written := [] |}.

(** A store with one user, who is banned, two sessions of hers and a
    session of someone else; a nonce is pending. *)
Definition world : World :=
  {| DB_nil := false;
     sessions := {[ "t-live" := {| user_id := 1; expiry := 5000 |};
                    "t-edge" := {| user_id := 1; expiry := 1000 |};
                    "t-old" := {| user_id := 3; expiry := 999 |};
                    "t-other" := {| user_id := 2; expiry := 7000 |} ]};
     users := [alice]; users_seq := 1; user_inserts := [];
     banned_users := ["alice@x.com"];
     registering := true; oauthStateStringGoogle := "nonce-1"; ticks := 0; rand_pos := 0;
     uuid_pos := 0; calls := []; written := [] |}.

Definition with_cookie (tok : string) : Request :=
  {| Method := "GET"; URL_Query := []; PostForm := [];
     Cookies := [("session_token", tok)] |}.

Definition callback (state code : string) : Request :=
  {| Method := "GET"; URL_Query := [("state", state); ("code", code)]; PostForm := [];
     Cookies := [] |}.

Definition post (form : list (string * string)) : Request :=
  {| Method := "POST"; URL_Query := []; PostForm := form; Cookies := [] |}.

Definition alice_login : Request :=
  post [("email", "alice@x.com"); ("password", "secret1")].

(** The same login, sent with the cookie of a session. *)
Definition alice_login_with (tok : string) : Request :=
  {| Method := "POST"; URL_Query := [];
     PostForm := [("email", "alice@x.com"); ("password", "secret1")];
     Cookies := [("session_token", tok)] |}.


End Inputs.

(** * More of the program: administration, start-up, queries *)

Section Administration.

Context `{Ext : Externals}.

Local Open Scope go_scope.

Definition set_banned_users (f : list string -> list string) (w : World) : World :=
  {| DB_nil := DB_nil w; sessions := sessions w; users := users w;
     users_seq := users_seq w; user_inserts := user_inserts w;
     banned_users := f (banned_users w); registering := registering w;
     oauthStateStringGoogle := oauthStateStringGoogle w; ticks := ticks w;
     rand_pos := rand_pos w; uuid_pos := uuid_pos w; calls := calls w;
     written := written w |}.

(** ** Library functions on strings *)

(** [strings.TrimPrefix(s, prefix)] *)
Definition TrimPrefix (s prefix : string) : string :=
  if String.prefix prefix s
  then String.substring (String.length prefix) (String.length s - String.length prefix) s
  else s.

(** [strings.Join(elems, sep)] *)
Fixpoint Join (elems : list string) (sep : string) : string :=
  match elems with
  | [] => ""
  | [x] => x
  | x :: rest => x +:+ sep +:+ Join rest sep
  end.

Definition digit_of (c : ascii) : option Z :=
  let n := nat_of_ascii c in
  if (48 <=? n)%nat && (n <=? 57)%nat then Some (Z.of_nat (n - 48)) else None.

Fixpoint parse_digits (s : string) (acc : Z) : option Z :=
  match s with
  | EmptyString => Some acc
  | String c s' =>
      match digit_of c with
      | Some d => parse_digits s' (10 * acc + d)%Z
      | None => None
      end
  end.

(** [strconv.Atoi(s)] for a 64-bit [int]: an optional sign and decimal
    digits, at least one; the value has to fit.  The messages of its errors
    name the input as it is. *)
Definition Atoi (s : string) : Z * error :=
  let syntax := Some (ErrLib ("strconv.Atoi: parsing " +:+ s +:+ ": invalid syntax")) in
  let range := Some (ErrLib ("strconv.Atoi: parsing " +:+ s +:+ ": value out of range")) in
  let neg := match s with String "-"%char _ => true | _ => false end in
  let digits :=
    match s with
    | String "+"%char s' => s'
    | String "-"%char s' => s'
    | _ => s
    end in
  match digits with
  | EmptyString => (0%Z, syntax)
  | _ =>
      match parse_digits digits 0 with
      | None => (0%Z, syntax)
      | Some n =>
          let v := if neg then (- n)%Z else n in
          if (v <? - 2 ^ 63)%Z then ((- 2 ^ 63)%Z, range)
          else if (2 ^ 63 - 1 <? v)%Z then ((2 ^ 63 - 1)%Z, range)
          else (v, None)
      end
  end.

(** ** Deleting and banning a user *)

(** [homehandlers.getUserByID]; the password is not selected. *)
Definition getUserByID (userID : Z) : Go (option UserRow * error) :=
  DB_deref ;;
  let* row := gets (fun w => find_user_by_id userID (users w)) in
  match row with
  | Some u => ret (Some {| u_id := u_id u; u_email := u_email u; u_username := u_username u;
                           u_password := None; u_role := u_role u |}, None)
  | None => ret (None, Some (Errorf ("user with ID " +:+ Sprintf_d userID +:+ " not found")))
  end.

Definition StatusBadRequest : Z := 400.
Definition StatusNotFound : Z := 404.

(** [homehandlers.DeleteUserHandler], for a request to [path].  The two
    statements run in one transaction, which is committed when both have
    succeeded; in this store neither can fail.  Table [banned_users] is
    declared outside the sources at hand and is taken without constraints.
    The deletion leaves [users_seq] as it is: the id of the deleted row is
    not given to a later one. *)
Definition DeleteUserHandler (path : string) (r : Request) : Go unit :=
  let userIDStr := TrimPrefix path "/users/delete/" in
  let (userID, err) := Atoi userIDStr in
  match err with
  | Some e => write (HandleErr e "Invalid user ID" StatusBadRequest)
  | None =>
      let* (user, err) := getUserByID userID in
      match err with
      | Some e => write (HandleErr e "User not found" StatusNotFound)
      | None =>
          match user with
          | None => panic "invalid memory address or nil pointer dereference"
          | Some user =>
              DB_deref ;;
              modify (set_users (List.filter (fun u => negb (Z.eqb (u_id u) userID)))) ;;
              modify (set_banned_users (fun l => (l ++ [u_email user])%list)) ;;
              write (Redirect "/admin" StatusSeeOther)
          end
      end
  end.

(** ** The administrator created at start-up *)

(** [INSERT INTO users (email, username, password, role) VALUES (?, ?, ?, ?)] *)
Definition insert_user_with_role (email username password role : string) : Go (Z * error) :=
  DB_deref ;;
  let* l := gets users in
  if List.existsb (fun u => String.eqb (u_email u) email) l
  then ret (0%Z, Some (ErrConstraint "users.email"))
  else if List.existsb (fun u => String.eqb (u_username u) username) l
  then ret (0%Z, Some (ErrConstraint "users.username"))
  else
    let* seq := gets users_seq in
    let id := next_user_id seq l in
    modify (set_users (fun l => (l ++ [{| u_id := id; u_email := email; u_username := username;
                                         u_password := Some password; u_role := role |}])%list)) ;;
    modify (set_users_seq id) ;;
    ret (id, None).

(** [datahandlers.createAdminUserIfNotExists]; the line it prints to the
    standard output is not part of the state. *)
Definition createAdminUserIfNotExists : Go error :=
  DB_deref ;;
  let* count := gets (fun w =>
    List.length (List.filter (fun u => String.eqb (u_role u) "admin") (users w))) in
  if (count =? 0)%nat then
    let email := "admin@example.com" in
    let username := "admin" in
    let password := "securepassword" in
    let role := "admin" in
    emit (EvGenerateFromPassword password) ;;
    let (hashedPassword, err) := GenerateFromPassword password in
    match err with
    | Some e => ret (Some (Errorf ("error hashing password: " +:+ Error e)))
    | None =>
        let* (_, err) := insert_user_with_role email username hashedPassword role in
        match err with
        | Some e => ret (Some (Errorf ("error creating admin user: " +:+ Error e)))
        | None => ret None
        end
    end
  else ret None.

(** ** Simple pages and redirects *)

(** [homehandlers.loginError] *)
Definition loginError (r : Request) (message : string) : Go unit :=
  let redirectURL := "/login?error=" +:+ message in
  write (Redirect redirectURL StatusSeeOther).

(** [homehandlers.HandleFacebookLogin] *)
Definition HandleFacebookLogin (r : Request) : Go unit :=
  write (Redirect (AuthCodeURL Facebook "state-token") StatusTemporaryRedirect).

End Administration.

(** ** The query of the post listing *)

(** An argument bound to a [?] of a statement. *)
Inductive SqlArg : Type :=
| ArgString (s : string)
| ArgInt (n : Z).

Definition posts_select : string :=
"SELECT posts.id, posts.user_id, posts.title, posts.content, posts.categories, posts.created_at, users.username,
                     COALESCE(SUM(CASE WHEN votes.vote_type = 1 THEN 1 ELSE 0 END), 0) AS like_count,
                     COALESCE(SUM(CASE WHEN votes.vote_type = -1 THEN 1 ELSE 0 END), 0) AS dislike_count,
                     (SELECT COUNT(*) FROM comments WHERE comments.post_id = posts.id AND comments.deleted = 0) AS comment_count
              FROM posts
              JOIN users ON posts.user_id = users.id
              LEFT JOIN votes ON votes.post_id = posts.id
              WHERE posts.deleted = 0".

(** The statement and the arguments [homehandlers.getFilteredPosts] hands to
    [DB.Query]: the part of the function before the query is run. *)
Definition getFilteredPosts_query (searchQuery category filter : string) (userID : option Z)
  : string * list SqlArg :=
  let query := posts_select in
  let args : list SqlArg := [] in
  let conditions : list string := [] in
  let '(conditions, args) :=
    if negb (String.eqb searchQuery "") then
      let searchTerm := "%" +:+ searchQuery +:+ "%" in
      ((conditions ++ ["(posts.title LIKE ? OR posts.content LIKE ?)"])%list,
       (args ++ [ArgString searchTerm; ArgString searchTerm])%list)
    else (conditions, args) in
  let '(conditions, args) :=
    if negb (String.eqb category "") then
      let categoryTerm := "%" +:+ category +:+ "%" in
      ((conditions ++ ["posts.categories LIKE ?"])%list, (args ++ [ArgString categoryTerm])%list)
    else (conditions, args) in
  let '(conditions, args) :=
    match userID with
    | Some id =>
        ((conditions
          ++ ["(posts.user_id = ? OR posts.id IN (SELECT post_id FROM likes WHERE user_id = ?))"])%list,
         (args ++ [ArgInt id; ArgInt id])%list)
    | None => (conditions, args)
    end in
  let query :=
    if (0 <? List.length conditions)%nat
    then query +:+ " AND " +:+ Join conditions " AND "
    else query in
  let query := query +:+ " GROUP BY posts.id" in
  let query :=
    if String.eqb filter "most_liked" then query +:+ " ORDER BY like_count DESC"
    else if String.eqb filter "most_commented" then query +:+ " ORDER BY comment_count DESC"
    else query +:+ " ORDER BY posts.created_at DESC" in
  (query, args).

(** The number of [?] in a statement. *)
Fixpoint placeholders (s : string) : nat :=
  match s with
  | EmptyString => 0
  | String c s' => (if Ascii.eqb c "?"%char then 1 else 0) + placeholders s'
  end.

(** ** More vocabulary *)

(** The single-session invariant: no two rows of [sessions] belong to the
    same user. *)
Definition single_session (m : gmap string SessionRow) : Prop :=
  forall t1 t2 r1 r2,
    m !! t1 = Some r1 -> m !! t2 = Some r2 -> user_id r1 = user_id r2 -> t1 = t2.

(** The uniqueness constraints of table [users], and its key. *)
Definition users_unique (l : list UserRow) : Prop :=
  NoDup (List.map u_id l) /\ NoDup (List.map u_email l) /\ NoDup (List.map u_username l).

(** No character of the text is a minus sign. *)
Definition no_dash (s : string) : Prop :=
  forall c, In c (list_ascii_of_string s) -> c <> "-"%char.

(** Some row of the table has the role ['admin']. *)
Definition has_admin (l : list UserRow) : Prop :=
  exists u, In u l /\ u_role u = "admin".

Section MoreVocabulary.

Context `{Ext : Externals}.

(** The Google callback passes the state check on [r], and the provider
    answers the code of [r] with a token and the profile [info]. *)
Definition google_profile (r : Request) (w : World) (info : userInfo) : Prop :=
  FormValue r "state" = oauthStateStringGoogle w /\
  exists token body,
    Exchange Google (Query_Get r "code") = (token, None) /\
    client_Get Google token (userinfo_url Google) = (body, None) /\
    Decode_userInfo body = (info, None).

(** The calls the Google callback makes to obtain a profile. *)
Definition google_calls (r : Request) : list Event :=
  [EvExchange Google (Query_Get r "code"); EvGet Google (userinfo_url Google)].

(** The user name the Google callback derives: no tag. *)
Definition google_username (info : userInfo) : string :=
  ToLower (ReplaceAll (Name_ info) " "%char "").

End MoreVocabulary.

(** ** More concrete inputs *)

Module MoreInputs.

Import Inputs.

(** The environment of [Inputs] with a clock that stands still and an
    e-mail list without a verified primary entry. *)
Definition frozen : Externals := {|
  Post := unit;
  clock k := 1000%Z;
  rand_src := @rand_src env;
  uuid_src := @uuid_src env;
  ToLower := @ToLower env;
  EncodeToString := @EncodeToString env;
  AuthCodeURL := @AuthCodeURL env;
  Exchange := @Exchange env;
  client_Get := @client_Get env;
  Decode_userInfo := @Decode_userInfo env;
  Decode_emails body :=
    ([ {| e_Email := "old@x.com"; Primary := false; Verified := true |};
       {| e_Email := "new@x.com"; Primary := true; Verified := false |} ], None);
  CompareHashAndPassword := @CompareHashAndPassword env;
  GenerateFromPassword := @GenerateFromPassword env;
  validate_Var_password := @validate_Var_password env;
  getFilteredPosts searchQuery category filter := ([], None)
|}.

Definition frozen_world : @World frozen :=
  {| DB_nil := false; sessions := ∅; users := []; users_seq := 0; user_inserts := [];
     banned_users := [];
     registering := false; oauthStateStringGoogle := ""; ticks := 0; rand_pos := 0;
     uuid_pos := 0; calls := []; written := [] |}.

(** A second local account; its user name is the one the Google callback
    derives from the display name [Ada L]. *)
Definition ada : UserRow :=
  {| u_id := 2; u_email := "ada@x.com"; u_username := "adal";
     u_password := Some "hash:adapass"; u_role := "user" |}.

(** A forum with two users and one session, in login mode. *)
Definition forum : @World env :=
  {| DB_nil := false;
     sessions := {[ "a" := {| user_id := 1; expiry := 5000 |} ]};
     users := [alice; ada]; users_seq := 2; user_inserts := [];
     banned_users := ["troll@x.com"];
     registering := false; oauthStateStringGoogle := "nonce-1"; ticks := 0; rand_pos := 0;
     uuid_pos := 0; calls := []; written := [] |}.

(** The same forum in registration mode. *)
Definition forum_registering : @World env :=
  {| DB_nil := false;
     sessions := {[ "a" := {| user_id := 1; expiry := 5000 |} ]};
     users := [alice; ada]; users_seq := 2; user_inserts := [];
     banned_users := ["troll@x.com"];
     registering := true; oauthStateStringGoogle := "nonce-1"; ticks := 0; rand_pos := 0;
     uuid_pos := 0; calls := []; written := [] |}.

(** A store without administrator in which an ordinary user is called
    [admin]. *)
Definition squatted : @World env :=
  {| DB_nil := false; sessions := ∅;
     users := [{| u_id := 1; u_email := "eve@x.com"; u_username := "admin";
                  u_password := Some "hash:evepass"; u_role := "user" |}];
     users_seq := 1; user_inserts := [];
     banned_users := [];
     registering := false; oauthStateStringGoogle := ""; ticks := 0; rand_pos := 0;
     uuid_pos := 0; calls := []; written := [] |}.

(** A forum in which three users hold one session each. *)
Definition busy : @World env :=
  {| DB_nil := false;
     sessions := {[ "a" := {| user_id := 1; expiry := 5000 |};
                    "b" := {| user_id := 2; expiry := 6000 |};
                    "c" := {| user_id := 3; expiry := 7000 |} ]};
     users := [alice; ada]; users_seq := 3; user_inserts := [];
     banned_users := ["troll@x.com"];
     registering := false; oauthStateStringGoogle := "nonce-1"; ticks := 0; rand_pos := 0;
     uuid_pos := 0; calls := []; written := [] |}.

(** A forum whose user with the largest id, 2, has been deleted. *)
Definition after_deletion : @World env :=
  {| DB_nil := false;
     sessions := {[ "a" := {| user_id := 1; expiry := 5000 |} ]};
     users := [alice]; users_seq := 2; user_inserts := [];
     banned_users := ["troll@x.com"; "ada@x.com"];
     registering := false; oauthStateStringGoogle := "nonce-1"; ticks := 0; rand_pos := 0;
     uuid_pos := 0; calls := []; written := [] |}.

(** A callback that carries a code and no state. *)
Definition callback_without_state (code : string) : Request :=
  {| Method := "GET"; URL_Query := [("code", code)]; PostForm := []; Cookies := [] |}.

Definition profile_of (code : string) : userInfo :=
  {| Email := code +:+ "@x.com"; Name_ := "Ada L" |}.

End MoreInputs.

(** * Properties *)

(** Running a handler symbolically: unfold the monad and the primitives,
    then reduce the projections of the updated worlds. *)
Ltac go_unfold :=
  cbv beta iota zeta delta
    [bind ret gets modify panic time_Now rand_Intn uuid_New DB_deref write emit].

Ltac go_fields :=
  cbn [fst snd DB_nil sessions users users_seq user_inserts banned_users registering
       oauthStateStringGoogle ticks rand_pos uuid_pos calls written
       set_sessions set_users set_users_seq add_user_insert set_registering
       set_oauthStateStringGoogle set_ticks set_rand_pos set_uuid_pos add_call
       add_written] in *.

Ltac go_run := go_unfold; go_fields.

(** Closing the routine conjuncts of a frame statement. *)
Ltac frame_done :=
  repeat match goal with
         | |- _ /\ _ => split
         | |- _ <-> _ => split
         | |- _ -> _ => intro
         | |- forall _, _ => intro
         | H : _ /\ _ |- _ => destruct H
         | H : is_Some None |- _ => destruct H as [? H]; discriminate H
         | H : Some _ = None |- _ => discriminate H
         | H : true = false |- _ => discriminate H
         | H : false = true |- _ => discriminate H
         end;
  try reflexivity; try assumption; eauto.

(** Deciding a closed statement by evaluation. *)
Ltac by_evaluation :=
  vm_compute; first [reflexivity | discriminate | intros H; discriminate H | tauto].

Section SessionManager.

Context `{Ext : Externals}.

Local Open Scope go_scope.

(** ** Session tokens *)

Lemma Sprintf_d_inj (n m : Z) : Sprintf_d n = Sprintf_d m -> n = m.
Proof.
  unfold Sprintf_d. intros H.
  apply DecimalZ.to_int_inj.
  apply (f_equal NilEmpty.int_of_string) in H.
  rewrite !NilEmpty.isi in H. congruence.
Qed.

Lemma append_inj_l (p s t : string) : p +:+ s = p +:+ t -> s = t.
Proof. induction p as [|c p IH]; simpl; intros H; [exact H | injection H; auto]. Qed.

Lemma sessionToken_of_inj (userID n m : Z) :
  sessionToken_of userID n = sessionToken_of userID m -> n = m.
Proof.
  unfold sessionToken_of. intros H.
  do 3 apply append_inj_l in H. now apply Sprintf_d_inj.
Qed.

(** ** [createSession] on a fresh token *)

Lemma createSession_fresh (userID : Z) (w : World) :
  DB_nil w = false ->
  sessions w !! sessionToken_of userID (clock (ticks w)) = None ->
  createSession userID w
  = (Ret (sessionToken_of userID (clock (ticks w)), None), createSession_world userID w).
Proof.
  intros HDB Hfresh.
  unfold createSession, insert_session. go_run.
  rewrite HDB. go_run. rewrite Hfresh. reflexivity.
Qed.

Lemma createSession_taken (userID : Z) (w : World) :
  DB_nil w = false ->
  is_Some (sessions w !! sessionToken_of userID (clock (ticks w))) ->
  createSession userID w
  = (Ret ("", Some (ErrConstraint "sessions.id")), set_ticks (S (S (ticks w))) w).
Proof.
  intros HDB [row Hrow].
  unfold createSession, insert_session. go_run.
  rewrite HDB. go_run. rewrite Hrow. reflexivity.
Qed.

(** ** [GetSession], case by case *)

Lemma GetSession_no_cookie (r : Request) (w : World) :
  DB_nil w = false ->
  Cookie r "session_token" = None ->
  GetSession r w = (Ret (None, None), w).
Proof.
  intros HDB Hc. unfold GetSession. go_run. rewrite HDB, Hc. reflexivity.
Qed.

Lemma GetSession_unknown (r : Request) (w : World) (tok : string) :
  DB_nil w = false ->
  Cookie r "session_token" = Some tok ->
  sessions w !! tok = None ->
  GetSession r w = (Ret (None, Some ErrNoRows), w).
Proof.
  intros HDB Hc Hrow. unfold GetSession, select_session. go_run.
  rewrite HDB, Hc. go_run. rewrite HDB. go_run. rewrite Hrow. reflexivity.
Qed.

Lemma GetSession_expired (r : Request) (w : World) (tok : string) (row : SessionRow) :
  DB_nil w = false ->
  Cookie r "session_token" = Some tok ->
  sessions w !! tok = Some row ->
  (expiry row < clock (ticks w))%Z ->
  GetSession r w = (Ret (None, Some (Errorf "session expired")), set_ticks (S (ticks w)) w).
Proof.
  intros HDB Hc Hrow Hexp. unfold GetSession, select_session. go_run.
  rewrite HDB, Hc. go_run. rewrite HDB. go_run. rewrite Hrow. go_run.
  unfold Before. cbn [Expiry].
  destruct (Z.ltb_spec (expiry row) (clock (ticks w))) as [_|Hge]; [reflexivity | lia].
Qed.

Lemma GetSession_live (r : Request) (w : World) (tok : string) (row : SessionRow) :
  DB_nil w = false ->
  Cookie r "session_token" = Some tok ->
  sessions w !! tok = Some row ->
  (clock (ticks w) <= expiry row)%Z ->
  GetSession r w
  = (Ret (Some {| ID := tok; UserID := user_id row;
                  Expiry := Add (clock (S (ticks w))) (10 * Minute) |}, None),
     GetSession_world tok row w).
Proof.
  intros HDB Hc Hrow Hexp. unfold GetSession, select_session. go_run.
  rewrite HDB, Hc. go_run. rewrite HDB. go_run. rewrite Hrow. go_run.
  unfold Before. cbn [Expiry].
  destruct (Z.ltb_spec (expiry row) (clock (ticks w))) as [Hlt|_]; [lia |].
  unfold delete_other_sessions, update_session_expiry. go_run.
  rewrite HDB. go_run. rewrite HDB. reflexivity.
Qed.

Lemma keeps_self (uid : Z) (tok : string) (row : SessionRow) : keeps uid tok (tok, row).
Proof.
  unfold keeps. cbn [fst snd]. rewrite String.eqb_refl.
  now rewrite andb_false_r.
Qed.

Lemma keeps_sibling (uid : Z) (tok t : string) (row : SessionRow) :
  keeps uid tok (t, row) -> user_id row = uid -> t = tok.
Proof.
  unfold keeps. cbn [fst snd]. intros Hk Hu.
  rewrite (bool_decide_eq_true_2 _ Hu) in Hk. cbn [andb] in Hk.
  apply negb_true_iff, negb_false_iff in Hk. now apply String.eqb_eq.
Qed.

Lemma keeps_other (uid : Z) (tok t : string) (row : SessionRow) :
  user_id row <> uid -> keeps uid tok (t, row).
Proof.
  unfold keeps. cbn [fst snd]. intros Hu.
  now rewrite (bool_decide_eq_false_2 _ Hu).
Qed.

(** After a successful validation the validated row carries the new expiry. *)
Lemma GetSession_world_self (tok : string) (row : SessionRow) (w : World) :
  sessions w !! tok = Some row ->
  sessions (GetSession_world tok row w) !! tok
  = Some {| user_id := user_id row; expiry := Add (clock (S (ticks w))) (10 * Minute) |}.
Proof.
  intros Hrow. unfold GetSession_world. go_fields.
  rewrite lookup_alter_eq.
  rewrite (map_lookup_filter_Some_2 _ _ tok row Hrow (keeps_self _ _ _)).
  reflexivity.
Qed.

(** ... and it is the only row left for its user. *)
Lemma GetSession_world_single (tok : string) (row : SessionRow) (w : World)
      (t : string) (row' : SessionRow) :
  sessions (GetSession_world tok row w) !! t = Some row' ->
  user_id row' = user_id row ->
  t = tok.
Proof.
  unfold GetSession_world. go_fields. intros Hl Hu.
  destruct (decide (t = tok)) as [|Hne]; [assumption |].
  rewrite lookup_alter_ne in Hl by congruence.
  apply map_lookup_filter_Some in Hl as [_ Hk].
  exact (keeps_sibling _ _ _ _ Hk Hu).
Qed.

(** The rows of other users are left as they were. *)
Lemma GetSession_world_others (tok : string) (row : SessionRow) (w : World)
      (t : string) (row' : SessionRow) :
  sessions w !! tok = Some row ->
  user_id row' <> user_id row ->
  sessions (GetSession_world tok row w) !! t = Some row' <-> sessions w !! t = Some row'.
Proof.
  intros Hrow Hu. unfold GetSession_world. go_fields.
  destruct (decide (t = tok)) as [->|Hne].
  - rewrite lookup_alter_eq.
    rewrite (map_lookup_filter_Some_2 _ _ tok row Hrow (keeps_self _ _ _)).
    cbn. rewrite Hrow. split; intros H; injection H as <-; cbn in Hu; congruence.
  - rewrite lookup_alter_ne by congruence.
    rewrite map_lookup_filter_Some. split; [tauto |].
    intros H. split; [assumption | now apply keeps_other].
Qed.

(** A validation creates no session. *)
Lemma GetSession_world_dom (tok : string) (row : SessionRow) (w : World) (t : string) :
  is_Some (sessions (GetSession_world tok row w) !! t) -> is_Some (sessions w !! t).
Proof.
  unfold GetSession_world. go_fields. intros H.
  apply lookup_alter_is_Some in H. destruct H as [x Hx].
  apply map_lookup_filter_Some in Hx as [Hx _]. eauto.
Qed.

(** ** What the callers make of [GetSession] *)

Lemma GetSession_anonymous (r : Request) (w : World) :
  DB_nil w = false -> GetSession (anonymous r) w = (Ret (None, None), w).
Proof. intros HDB. now apply GetSession_no_cookie. Qed.

(** [HomeHandler] answers 500 to whatever error [GetSession] reports. *)
Lemma HomeHandler_on_error (r : Request) (w w1 : World) (e : error_value) :
  GetSession r w = (Ret (None, Some e), w1) ->
  HomeHandler r w
  = (Ret tt, add_written (HandleErr e "Internal server error" StatusInternalServerError) w1).
Proof. intros HG. unfold HomeHandler. go_unfold. rewrite HG. reflexivity. Qed.

(** [LoginHandler] and [RegisterHandler] go on as for a request without a
    cookie when [GetSession] reports an error. *)
Lemma LoginHandler_on_error (r : Request) (w w1 : World) (e : error_value) :
  DB_nil w1 = false ->
  GetSession r w = (Ret (None, Some e), w1) ->
  LoginHandler r w = LoginHandler (anonymous r) w1.
Proof.
  intros HDB HG. unfold LoginHandler. go_unfold.
  rewrite HG, (GetSession_anonymous r w1 HDB). reflexivity.
Qed.

Lemma RegisterHandler_on_error (r : Request) (w w1 : World) (e : error_value) :
  DB_nil w1 = false ->
  GetSession r w = (Ret (None, Some e), w1) ->
  RegisterHandler r w = RegisterHandler (anonymous r) w1.
Proof.
  intros HDB HG. unfold RegisterHandler. go_unfold.
  rewrite HG, (GetSession_anonymous r w1 HDB). reflexivity.
Qed.

(** ** The claims on the session manager *)

(** C1, as amended.  [createSession] inserts the new session and removes
    none; the other sessions of the user go when one of the user's live
    tokens is next validated.  After two calls of [createSession u] (at
    distinct clock readings, on fresh tokens) both sessions are in the store;
    once [GetSession] has validated the second token within its ten minutes,
    exactly one session is left for [u], and it owns the token of the second
    call. *)
Theorem createSession_twice_then_GetSession (u : Z) (w : World) (r : Request) :
  let tok1 := sessionToken_of u (clock (ticks w)) in
  let tok2 := sessionToken_of u (clock (S (S (ticks w)))) in
  DB_nil w = false ->
  sessions w !! tok1 = None ->
  sessions w !! tok2 = None ->
  clock (ticks w) <> clock (S (S (ticks w))) ->
  Cookie r "session_token" = Some tok2 ->
  (clock (4 + ticks w)%nat <= clock (3 + ticks w)%nat + 10 * Minute)%Z ->
  exists (w1 w2 w3 : World) (s : Session),
    createSession u w = (Ret (tok1, None), w1) /\
    createSession u w1 = (Ret (tok2, None), w2) /\
    (forall t row, sessions w !! t = Some row -> sessions w2 !! t = Some row) /\
    tok1 <> tok2 /\
    user_id <$> sessions w2 !! tok1 = Some u /\
    user_id <$> sessions w2 !! tok2 = Some u /\
    GetSession r w2 = (Ret (Some s, None), w3) /\
    ID s = tok2 /\ UserID s = u /\
    is_Some (sessions w3 !! tok2) /\
    (forall t row, sessions w3 !! t = Some row -> user_id row = u -> t = tok2).
Proof.
  intros tok1 tok2 HDB H1 H2 Hclk Hc Hlive.
  assert (Hne : tok1 <> tok2).
  { intros E. apply Hclk. exact (sessionToken_of_inj _ _ _ E). }
  pose (w1 := createSession_world u w).
  pose (w2 := createSession_world u w1).
  pose (row2 := {| user_id := u; expiry := Add (clock (S (ticks w1))) (10 * Minute) |}).
  assert (E1 : createSession u w = (Ret (tok1, None), w1)) by now apply createSession_fresh.
  assert (Hfresh2 : sessions w1 !! tok2 = None).
  { unfold w1, createSession_world. go_fields. rewrite lookup_insert_ne; assumption. }
  assert (E2 : createSession u w1 = (Ret (tok2, None), w2)).
  { apply (createSession_fresh u w1); [exact HDB | exact Hfresh2]. }
  assert (Hrow2 : sessions w2 !! tok2 = Some row2).
  { unfold w2, createSession_world. go_fields. apply lookup_insert_eq. }
  assert (Hrow1 : user_id <$> sessions w2 !! tok1 = Some u).
  { unfold w2, w1, createSession_world. go_fields.
    rewrite lookup_insert_ne by (intros E; apply Hne; symmetry; exact E).
    now rewrite lookup_insert_eq. }
  exists w1, w2, (GetSession_world tok2 row2 w2),
    {| ID := tok2; UserID := u; Expiry := Add (clock (S (ticks w2))) (10 * Minute) |}.
  split; [exact E1 |]. split; [exact E2 |]. split.
  { intros t row Ht.
    assert (Ht1 : tok1 <> t) by (intros <-; rewrite H1 in Ht; discriminate).
    assert (Ht2 : tok2 <> t) by (intros <-; rewrite H2 in Ht; discriminate).
    unfold w2, w1, createSession_world. go_fields.
    rewrite lookup_insert_ne by exact Ht2. rewrite lookup_insert_ne by exact Ht1.
    exact Ht. }
  split; [exact Hne |]. split; [exact Hrow1 |]. split; [now rewrite Hrow2 |]. split.
  { apply (GetSession_live r w2 tok2 row2); [exact HDB | exact Hc | exact Hrow2 |].
    unfold row2, Add. cbn [expiry]. exact Hlive. }
  split; [reflexivity |]. split; [reflexivity |]. split.
  { rewrite (GetSession_world_self tok2 row2 w2 Hrow2). eauto. }
  intros t row Ht Hu. exact (GetSession_world_single tok2 row2 w2 t row Ht Hu).
Qed.

(** C2.  A token whose stored expiry is strictly in the future is validated:
    [GetSession] returns its session with the expiry moved to ten minutes
    after the clock reading taken for the refresh, the store holds that
    expiry too, and the validated row is the only session row left for its
    user. *)
Theorem GetSession_refreshes_live_session
        (r : Request) (w : World) (tok : string) (row : SessionRow) :
  DB_nil w = false ->
  Cookie r "session_token" = Some tok ->
  sessions w !! tok = Some row ->
  (clock (ticks w) < expiry row)%Z ->
  exists w' : World,
    GetSession r w
    = (Ret (Some {| ID := tok; UserID := user_id row;
                    Expiry := (clock (S (ticks w)) + 10 * Minute)%Z |}, None), w') /\
    sessions w' !! tok
    = Some {| user_id := user_id row; expiry := (clock (S (ticks w)) + 10 * Minute)%Z |} /\
    (forall t row', sessions w' !! t = Some row' -> user_id row' = user_id row -> t = tok).
Proof.
  intros HDB Hc Hrow Hexp. exists (GetSession_world tok row w). split.
  { apply GetSession_live; [assumption | assumption | assumption | lia]. }
  split.
  { now apply GetSession_world_self. }
  intros t row'. apply GetSession_world_single.
Qed.

(** C4, as amended.  A token whose stored expiry is strictly before the clock
    reading is reported as expired: the error is neither the absence result
    nor the error of an unknown token, and no session is touched.
    [LoginHandler] and [RegisterHandler] then serve the request as they serve
    the same request without a cookie. *)
Theorem GetSession_reports_expired
        (r : Request) (w : World) (tok : string) (row : SessionRow) :
  DB_nil w = false ->
  Cookie r "session_token" = Some tok ->
  sessions w !! tok = Some row ->
  (expiry row < clock (ticks w))%Z ->
  exists w' : World,
    GetSession r w = (Ret (None, Some (Errorf "session expired")), w') /\
    sessions w' = sessions w /\
    Errorf "session expired" <> ErrNoRows /\
    LoginHandler r w = LoginHandler (anonymous r) w' /\
    RegisterHandler r w = RegisterHandler (anonymous r) w'.
Proof.
  intros HDB Hc Hrow Hexp. exists (set_ticks (S (ticks w)) w).
  pose proof (GetSession_expired r w tok row HDB Hc Hrow Hexp) as HG.
  split; [exact HG |]. split; [reflexivity |]. split; [discriminate |]. split.
  - exact (LoginHandler_on_error r w (set_ticks (S (ticks w)) w) _ HDB HG).
  - exact (RegisterHandler_on_error r w (set_ticks (S (ticks w)) w) _ HDB HG).
Qed.

(** Whenever [createSession] succeeds, its token is [sessionToken_of] the
    user id and the first clock reading of the call. *)
Lemma createSession_token (userID : Z) (w w' : World) (tok : string) :
  createSession userID w = (Ret (tok, None), w') ->
  tok = sessionToken_of userID (clock (ticks w)).
Proof.
  intros H. destruct (DB_nil w) eqn:HDB.
  - unfold createSession, insert_session in H. revert H. go_run. rewrite HDB. discriminate.
  - destruct (sessions w !! sessionToken_of userID (clock (ticks w))) as [row|] eqn:Hrow.
    + rewrite createSession_taken in H by eauto. discriminate.
    + rewrite createSession_fresh in H by assumption. now injection H as <- _.
Qed.

(** [HomeHandler] answers 500 to a request whose token is unknown or
    expired. *)
Lemma HomeHandler_unknown_500 (r : Request) (w : World) (tok : string) :
  DB_nil w = false ->
  Cookie r "session_token" = Some tok ->
  sessions w !! tok = None ->
  HomeHandler r w
  = (Ret tt, add_written (HandleErr ErrNoRows "Internal server error" StatusInternalServerError) w).
Proof.
  intros HDB Hc Hrow. apply HomeHandler_on_error. now apply (GetSession_unknown r w tok).
Qed.

Lemma HomeHandler_expired_500 (r : Request) (w : World) (tok : string) (row : SessionRow) :
  DB_nil w = false ->
  Cookie r "session_token" = Some tok ->
  sessions w !! tok = Some row ->
  (expiry row < clock (ticks w))%Z ->
  HomeHandler r w
  = (Ret tt, add_written (HandleErr (Errorf "session expired") "Internal server error"
                                    StatusInternalServerError)
                         (set_ticks (S (ticks w)) w)).
Proof.
  intros HDB Hc Hrow Hexp. apply HomeHandler_on_error.
  now apply (GetSession_expired r w tok row).
Qed.

(** C6, as amended.  The token [createSession] returns is the text
    ["session-<userID>-<UnixNano>"]: it is computed from the user id and the
    clock reading of the call, and from nothing else. *)
Theorem createSession_token_is_formatted (userID : Z) (w w' : World) (tok : string) :
  createSession userID w = (Ret (tok, None), w') ->
  tok = "session-" +:+ Sprintf_d userID +:+ "-" +:+ Sprintf_d (clock (ticks w)).
Proof. intros H. exact (createSession_token userID w w' tok H). Qed.

End SessionManager.

Section Identity.

Context `{Ext : Externals}.

Local Open Scope go_scope.

(** ** The pending nonce *)

Lemma rand_Read_ret (n : nat) (w : World) :
  exists l, rand_Read n w = (Ret l, set_rand_pos (n + rand_pos w) w).
Proof.
  revert w. induction n as [|n IH]; intros w.
  - exists []. destruct w. reflexivity.
  - cbn [rand_Read]. go_run.
    destruct (IH (set_rand_pos (S (rand_pos w)) w)) as [l Hl]. rewrite Hl.
    eexists. go_fields. rewrite Nat.add_succ_r. reflexivity.
Qed.

(** Each of the three handlers that start a provider login stores the nonce
    it puts in the redirect in [oauthStateStringGoogle]: the variable holds
    the most recently issued nonce. *)
Lemma issued_nonce_is_pending (h : Request -> Go unit) (r : Request) (w : World) :
  h = HandleGoogleLogin \/ h = HandleGoogleRegister \/ h = HandleGitHubLogin ->
  exists (nonce : string) (w' : World),
    h r w = (Ret tt, w') /\
    oauthStateStringGoogle w' = nonce /\
    written w' = (written w ++ [Redirect (AuthCodeURL Google nonce) StatusTemporaryRedirect])%list.
Proof.
  intros [-> | [-> | ->]];
    unfold HandleGoogleLogin, HandleGoogleRegister, HandleGitHubLogin, generateNonce;
    go_run;
    match goal with
    | |- context [rand_Read 32 ?w0] => destruct (rand_Read_ret 32 w0) as [l Hl]; rewrite Hl
    end;
    go_fields; eexists _, _; (split; [reflexivity |]); split; reflexivity.
Qed.

(** C5.  A Google callback whose [state] parameter differs from the pending
    nonce is rejected at once: the handler redirects to the home page and
    does nothing else.  No code is exchanged and no provider is called (the
    record of outbound calls is unchanged), and no session or user is
    created. *)
Theorem HandleGoogleCallback_state_mismatch (r : Request) (w : World) :
  FormValue r "state" <> oauthStateStringGoogle w ->
  exists w' : World,
    HandleGoogleCallback r w = (Ret tt, w') /\
    calls w' = calls w /\
    sessions w' = sessions w /\
    users w' = users w /\
    written w' = (written w ++ [Redirect "/" StatusTemporaryRedirect])%list.
Proof.
  intros Hne. unfold HandleGoogleCallback. go_run.
  destruct (String.eqb_spec (FormValue r "state") (oauthStateStringGoogle w)) as [E|_];
    [contradiction |].
  cbn [negb]. eexists. split; [reflexivity |]. go_fields. repeat split.
Qed.

(** ** The GitHub profile calls *)

Lemma range_emails_find (emails : list emailEntry) (email : string) :
  range_emails emails email
  = match List.find primary_verified emails with
    | Some e => e_Email e
    | None => email
    end.
Proof.
  induction emails as [|e rest IH]; [reflexivity |].
  cbn [range_emails List.find]. unfold primary_verified at 1.
  destruct (Primary e && Verified e); [reflexivity | exact IH].
Qed.

(** C10.  When the profile response carries no e-mail,
    [getEmailAndNameFromGitHub] makes exactly one more call, to the e-mail
    list, and takes the e-mail of the first entry that is primary and
    verified; when the profile response carries an e-mail, that e-mail is
    returned and the profile call is the only call. *)
Theorem getEmailAndNameFromGitHub_calls
        (token body : string) (info : userInfo) (w : World) :
  client_Get GitHub token github_user_url = (body, None) ->
  Decode_userInfo body = (info, None) ->
  (Email info = "" ->
     calls (snd (getEmailAndNameFromGitHub token w))
     = (calls w ++ [EvGet GitHub github_user_url; EvGet GitHub github_emails_url])%list /\
     forall (emailBody : string) (emails : list emailEntry) (e : emailEntry),
       client_Get GitHub token github_emails_url = (emailBody, None) ->
       Decode_emails emailBody = (emails, None) ->
       List.find primary_verified emails = Some e ->
       fst (getEmailAndNameFromGitHub token w) = Ret (e_Email e, Name_ info, None)) /\
  (Email info <> "" ->
     calls (snd (getEmailAndNameFromGitHub token w))
     = (calls w ++ [EvGet GitHub github_user_url])%list /\
     fst (getEmailAndNameFromGitHub token w) = Ret (Email info, Name_ info, None)).
Proof.
  intros Hget Hdec. unfold getEmailAndNameFromGitHub, http_Get. go_run.
  fold github_user_url github_emails_url. rewrite Hget, Hdec.
  split; intros Hemail.
  - rewrite Hemail. cbn [String.eqb]. go_run. split.
    + destruct (client_Get GitHub token github_emails_url) as [emailBody [e|]];
        [go_fields; now rewrite <- app_assoc |].
      destruct (Decode_emails emailBody) as [emails [e|]];
        go_fields; now rewrite <- app_assoc.
    + intros emailBody emails e Hget2 Hdec2 Hfind.
      rewrite Hget2, Hdec2. go_fields.
      now rewrite range_emails_find, Hfind.
  - destruct (String.eqb_spec (Email info) "") as [E|_]; [contradiction |].
    go_fields. split; reflexivity.
Qed.

(** ** Local login of a banned e-mail *)

Lemma existsb_eqb_In (x : string) (l : list string) :
  In x l -> List.existsb (String.eqb x) l = true.
Proof.
  intros H. apply List.existsb_exists. exists x. split; [exact H | apply String.eqb_refl].
Qed.

(** The cases of [GetSession] as far as the store is concerned: it returns
    without a panic, makes no outbound call, writes nothing, creates no
    session, leaves the other tables alone; and unless it returns a live
    session it leaves the sessions alone as well. *)
Lemma GetSession_frame (r : Request) (w : World) :
  exists (s : option Session) (err : error) (w' : World),
    GetSession r w = (Ret (s, err), w') /\
    DB_nil w' = DB_nil w /\ calls w' = calls w /\ written w' = written w /\
    users w' = users w /\ banned_users w' = banned_users w /\
    (forall t, is_Some (sessions w' !! t) -> is_Some (sessions w !! t)) /\
    (logged_in r w = false -> sessions w' = sessions w) /\
    (logged_in r w = true <-> is_Some s /\ err = None).
Proof.
  unfold logged_in.
  destruct (DB_nil w) eqn:HDB.
  { unfold GetSession. go_run. rewrite HDB. go_fields.
    eexists _, _, _. split; [reflexivity |]. frame_done. }
  destruct (Cookie r "session_token") as [tok|] eqn:Hc.
  2:{ rewrite (GetSession_no_cookie r w HDB Hc). go_fields.
      eexists _, _, _. split; [reflexivity |]. frame_done. }
  destruct (sessions w !! tok) as [row|] eqn:Hrow.
  2:{ rewrite (GetSession_unknown r w tok HDB Hc Hrow). go_fields.
      eexists _, _, _. split; [reflexivity |]. frame_done. }
  destruct (Z_lt_le_dec (expiry row) (clock (ticks w))) as [Hlt|Hle].
  - rewrite (GetSession_expired r w tok row HDB Hc Hrow Hlt). go_fields.
    eexists _, _, _. split; [reflexivity |]. frame_done.
  - rewrite (GetSession_live r w tok row HDB Hc Hrow Hle). go_fields.
    eexists _, _, _. split; [reflexivity |]. frame_done.
    now apply GetSession_world_dom in H.
Qed.

(** C8, as amended.  A POST to the login handler with a banned e-mail
    makes no credential check and no outbound call and creates no session,
    whatever the password.  The caller who presents no live session gets
    the login page with the ban message, the sessions being left as they
    were; the caller who presents a live session is redirected to the home
    page, the ban not being looked at. *)
Theorem LoginHandler_banned (r : Request) (w : World) :
  DB_nil w = false ->
  Method r = "POST" ->
  In (FormValue r "email") (banned_users w) ->
  exists w' : World,
    LoginHandler r w = (Ret tt, w') /\
    calls w' = calls w /\
    (forall t, is_Some (sessions w' !! t) -> is_Some (sessions w !! t)) /\
    (logged_in r w = false ->
       sessions w' = sessions w /\
       written w'
       = (written w
          ++ [ExecuteTemplate "templates/login.html" (LoginData "Bu kullanıcı banlanmış.")])%list) /\
    (logged_in r w = true ->
       written w' = (written w ++ [Redirect "/" StatusSeeOther])%list).
Proof.
  intros HDB Hpost Hban.
  destruct (GetSession_frame r w)
    as (s & err & w1 & HG & HDB1 & Hcalls & Hwr & _ & Hb & Hdom & Hsame & Hlog).
  unfold LoginHandler. go_unfold. rewrite HG.
  destruct (logged_in r w) eqn:Hl.
  - destruct Hlog as [Hlog _]. destruct (Hlog eq_refl) as [[s' ->] ->].
    cbn [bool_decide decide_rel andb]. rewrite !bool_decide_eq_true_2 by eauto.
    cbn [andb]. eexists. split; [reflexivity |]. go_fields.
    split; [exact Hcalls |]. split; [exact Hdom |].
    split; [discriminate | intros _; now rewrite Hwr].
  - assert (Hgate : bool_decide (err = None) && bool_decide (is_Some s) = false).
    { apply andb_false_iff. destruct err as [e|].
      - left. now apply bool_decide_eq_false_2.
      - right. apply bool_decide_eq_false_2. intros Hs.
        destruct Hlog as [_ Hlog].
        assert (Ht : false = true) by (apply Hlog; split; [exact Hs | reflexivity]).
        discriminate Ht. }
    rewrite Hgate, Hpost. cbn [String.eqb Ascii.eqb Bool.eqb].
    unfold checkIfBanned, login_page. go_run. rewrite HDB1, HDB. go_fields.
    rewrite Hb, (existsb_eqb_In _ _ Hban).
    eexists. split; [reflexivity |]. go_fields.
    split; [exact Hcalls |]. split; [exact Hdom |].
    split; [| discriminate]. intros _.
    split; [now apply Hsame | now rewrite Hwr].
Qed.

(** ** Local registration with a taken user name *)

(** [registerUser] panics in [registerError] when the e-mail is new and the
    user name is taken: the error it was about to return is never
    returned. *)
Lemma registerUser_username_taken (r : Request) (w : World) :
  DB_nil w = false ->
  find_user_by_email (FormValue r "email") (users w) = None ->
  String.eqb (FormValue r "google_oauth") "true" = false ->
  (exists u, In u (users w) /\ u_username u = FormValue r "username") ->
  registerUser r w = (Panic "unimplemented", w).
Proof.
  intros HDB Hemail Hg (u & Hin & Hname).
  unfold registerUser, select_user_id_by_email, getUserByEmail, count_users_by_username,
    registerError.
  go_run. rewrite HDB. go_run. rewrite Hemail. go_run. rewrite HDB. go_run.
  rewrite Hemail, Hg. go_run. rewrite HDB. go_run.
  assert (Hcount : (0 <? Z.of_nat (List.length
            (List.filter (fun u => String.eqb (u_username u) (FormValue r "username"))
                         (users w))))%Z = true).
  { apply Z.ltb_lt.
    assert (Hf : In u (List.filter (fun u => String.eqb (u_username u) (FormValue r "username"))
                                   (users w))).
    { apply List.filter_In. split; [exact Hin |]. rewrite Hname. apply String.eqb_refl. }
    destruct (List.filter _ (users w)); [destruct Hf | cbn [List.length]; lia]. }
  rewrite Hcount. destruct w. reflexivity.
Qed.

(** ... and so does [RegisterHandler], for a caller who is not logged in. *)
Lemma RegisterHandler_username_taken (r : Request) (w : World) :
  DB_nil w = false ->
  Cookie r "session_token" = None ->
  Method r = "POST" ->
  FormValue r "email" <> "" ->
  find_user_by_email (FormValue r "email") (users w) = None ->
  String.eqb (FormValue r "google_oauth") "true" = false ->
  (exists u, In u (users w) /\ u_username u = FormValue r "username") ->
  RegisterHandler r w = (Panic "unimplemented", w).
Proof.
  intros HDB Hc Hpost Hne Hemail Hg Htaken.
  unfold RegisterHandler. go_unfold.
  rewrite (GetSession_no_cookie r w HDB Hc).
  cbn [bool_decide decide_rel andb].
  replace (bool_decide (is_Some (@None Session))) with false
    by (symmetry; apply bool_decide_eq_false_2; intros [? [=]]).
  rewrite andb_false_r.
  apply String.eqb_neq in Hne. rewrite ?Hne.
  cbn [negb]. unfold getUserByEmail. go_run. rewrite HDB. go_run. rewrite Hemail, Hpost.
  cbn [String.eqb Ascii.eqb Bool.eqb].
  now rewrite (registerUser_username_taken r w HDB Hemail Hg Htaken).
Qed.

(** ** User names of federated accounts *)











End Identity.

(** * The claims at concrete inputs *)

Module Scenario.

Import Inputs.
#[local] Existing Instance env.

(** ** Sessions *)

(** C1, counterexample.  After two calls of [createSession 7] on the empty
    store the session of the first call is still there, next to that of
    the second: the second call has not removed it. *)
Lemma createSession_twice_keeps_both :
  exists w1 w2 : World,
    createSession 7 empty_world = (Ret ("session-7-1000", None), w1) /\
    createSession 7 w1 = (Ret ("session-7-1002", None), w2) /\
    sessions w2 !! "session-7-1000" = Some {| user_id := 7; expiry := 600000001001 |} /\
    sessions w2 !! "session-7-1002" = Some {| user_id := 7; expiry := 600000001003 |} /\
    ~ (forall t row, sessions w2 !! t = Some row -> user_id row = 7%Z -> t = "session-7-1002").
Proof.
  eexists _, _. split; [vm_compute; reflexivity |]. split; [vm_compute; reflexivity |].
  split; [vm_compute; reflexivity |]. split; [vm_compute; reflexivity |].
  intros H.
  specialize (H "session-7-1000" {| user_id := 7; expiry := 600000001001 |}).
  discriminate H; vm_compute; reflexivity.
Qed.

Lemma createSession_twice_then_GetSession_witness :
  exists (w1 w2 w3 : World) (s : Session),
    createSession 7 empty_world = (Ret ("session-7-1000", None), w1) /\
    createSession 7 w1 = (Ret ("session-7-1002", None), w2) /\
    (forall t row, sessions empty_world !! t = Some row -> sessions w2 !! t = Some row) /\
    "session-7-1000" <> "session-7-1002" /\
    user_id <$> sessions w2 !! "session-7-1000" = Some 7%Z /\
    user_id <$> sessions w2 !! "session-7-1002" = Some 7%Z /\
    GetSession (with_cookie "session-7-1002") w2 = (Ret (Some s, None), w3) /\
    ID s = "session-7-1002" /\ UserID s = 7%Z /\
    is_Some (sessions w3 !! "session-7-1002") /\
    (forall t row, sessions w3 !! t = Some row -> user_id row = 7%Z -> t = "session-7-1002").
Proof.
  apply (createSession_twice_then_GetSession 7 empty_world (with_cookie "session-7-1002"));
    by_evaluation.
Defined.

Lemma GetSession_refreshes_live_session_witness :
  (clock (ticks world) < 5000)%Z /\
  exists w' : World,
    GetSession (with_cookie "t-live") world
    = (Ret (Some {| ID := "t-live"; UserID := 1; Expiry := 600000001001 |}, None), w') /\
    sessions w' !! "t-live" = Some {| user_id := 1; expiry := 600000001001 |} /\
    (forall t row', sessions w' !! t = Some row' -> user_id row' = 1%Z -> t = "t-live").
Proof.
  split; [by_evaluation |].
  apply (GetSession_refreshes_live_session (with_cookie "t-live") world "t-live"
           {| user_id := 1; expiry := 5000 |}); by_evaluation.
Defined.

(** C3, at the failing input.  A request whose cookie names no session row
    gets [sql.ErrNoRows] from [GetSession], an error and not the absence
    result of a request without a cookie; [HomeHandler] answers it with 500. *)
Theorem GetSession_unknown_token_is_an_error :
  GetSession (with_cookie "ghost") world = (Ret (None, Some ErrNoRows), world) /\
  GetSession (anonymous (with_cookie "ghost")) world = (Ret (None, None), world) /\
  written (snd (HomeHandler (with_cookie "ghost") world))
  = [HandleErr ErrNoRows "Internal server error" 500].
Proof. repeat split; vm_compute; reflexivity. Qed.

(** C4, counterexample.  A session whose stored expiry equals the clock
    reading is not reported as expired: it is validated and refreshed. *)
Lemma GetSession_expiry_now_is_live :
  (expiry {| user_id := 1; expiry := 1000 |} <= clock (ticks world))%Z /\
  sessions world !! "t-edge" = Some {| user_id := 1; expiry := 1000 |} /\
  fst (GetSession (with_cookie "t-edge") world)
  = Ret (Some {| ID := "t-edge"; UserID := 1; Expiry := 600000001001 |}, None).
Proof. repeat split; by_evaluation. Qed.

Lemma GetSession_reports_expired_witness :
  (999 < clock (ticks world))%Z /\
  exists w' : World,
    GetSession (with_cookie "t-old") world = (Ret (None, Some (Errorf "session expired")), w') /\
    sessions w' = sessions world /\
    Errorf "session expired" <> ErrNoRows /\
    LoginHandler (with_cookie "t-old") world = LoginHandler (anonymous (with_cookie "t-old")) w' /\
    RegisterHandler (with_cookie "t-old") world
    = RegisterHandler (anonymous (with_cookie "t-old")) w'.
Proof.
  split; [by_evaluation |].
  apply (GetSession_reports_expired (with_cookie "t-old") world "t-old"
           {| user_id := 3; expiry := 999 |}); by_evaluation.
Defined.

(** C6, counterexample.  The token is a function of the user id and of the
    time of the request: for user 7 at instant 1000 it is
    ["session-7-1000"], and one function computes the token of every
    successful call from these two values. *)
Lemma createSession_token_is_predictable :
  exists predict : Z -> Z -> string,
    predict 7%Z 1000%Z = "session-7-1000" /\
    fst (createSession 7 empty_world) = Ret ("session-7-1000", None) /\
    fst (createSession 7 world) = Ret ("session-7-1000", None) /\
    (forall (userID : Z) (w w' : World) (tok : string),
        createSession userID w = (Ret (tok, None), w') ->
        tok = predict userID (clock (ticks w))).
Proof.
  exists sessionToken_of. split; [vm_compute; reflexivity |].
  split; [vm_compute; reflexivity |]. split; [vm_compute; reflexivity |].
  intros userID w w' tok H. exact (createSession_token userID w w' tok H).
Qed.

Lemma createSession_token_is_formatted_witness :
  exists w' : World,
    createSession 7 empty_world = (Ret ("session-7-1000", None), w') /\
    "session-7-1000" = "session-" +:+ Sprintf_d 7 +:+ "-" +:+ Sprintf_d (clock (ticks empty_world)).
Proof.
  eexists. split; [vm_compute; reflexivity |].
  eapply (createSession_token_is_formatted 7 empty_world).
  vm_compute. reflexivity.
Defined.

(** ** Identity *)

Lemma HandleGoogleCallback_state_mismatch_witness :
  FormValue (callback "forged" "ada") "state" <> oauthStateStringGoogle world /\
  exists w' : World,
    HandleGoogleCallback (callback "forged" "ada") world = (Ret tt, w') /\
    calls w' = calls world /\
    sessions w' = sessions world /\
    users w' = users world /\
    written w' = (written world ++ [Redirect "/" StatusTemporaryRedirect])%list.
Proof.
  split; [by_evaluation |].
  apply (HandleGoogleCallback_state_mismatch (callback "forged" "ada") world). by_evaluation.
Defined.

(** C7, at the failing input.  Registering the new e-mail [bob@x.com] under
    the user name [alice], which is taken, ends in the panic of
    [registerError]: no page with a message is written, and the error
    [username already exists] is never returned to [RegisterHandler]. *)
Theorem RegisterHandler_username_taken_panics :
  RegisterHandler
    (post [("email", "bob@x.com"); ("username", "alice"); ("password", "secret2")]) world
  = (Panic "unimplemented", world).
Proof. vm_compute. reflexivity. Qed.

(** C8, counterexample.  Alice is banned.  She posts her e-mail and her
    password with the cookie of her live session: the answer is the
    redirect to the home page and not the login page with the ban message,
    her session has been refreshed and her other session deleted. *)
Lemma banned_caller_with_live_session_is_redirected :
  In (FormValue (alice_login_with "t-live") "email") (banned_users world) /\
  exists w' : World,
    LoginHandler (alice_login_with "t-live") world = (Ret tt, w') /\
    written w' = [Redirect "/" StatusSeeOther] /\
    ~ In (ExecuteTemplate "templates/login.html" (LoginData "Bu kullanıcı banlanmış."))
         (written w') /\
    sessions world !! "t-live" = Some {| user_id := 1; expiry := 5000 |} /\
    sessions w' !! "t-live" = Some {| user_id := 1; expiry := 600000001001 |} /\
    sessions world !! "t-edge" = Some {| user_id := 1; expiry := 1000 |} /\
    sessions w' !! "t-edge" = None.
Proof.
  split; [vm_compute; left; reflexivity |].
  eexists. split; [vm_compute; reflexivity |].
  cbn [written sessions]. split; [reflexivity |].
  split; [intros [H | []]; discriminate H |].
  repeat split; vm_compute; reflexivity.
Qed.

Lemma LoginHandler_banned_witness :
  CompareHashAndPassword "hash:secret1" (FormValue alice_login "password") = None /\
  logged_in alice_login world = false /\
  logged_in (alice_login_with "t-live") world = true /\
  (exists w' : World,
    LoginHandler alice_login world = (Ret tt, w') /\
    calls w' = calls world /\
    (forall t, is_Some (sessions w' !! t) -> is_Some (sessions world !! t)) /\
    (logged_in alice_login world = false ->
       sessions w' = sessions world /\
       written w'
       = (written world
          ++ [ExecuteTemplate "templates/login.html" (LoginData "Bu kullanıcı banlanmış.")])%list) /\
    (logged_in alice_login world = true ->
       written w' = (written world ++ [Redirect "/" StatusSeeOther])%list)) /\
  (exists w' : World,
    LoginHandler (alice_login_with "t-live") world = (Ret tt, w') /\
    calls w' = calls world /\
    (forall t, is_Some (sessions w' !! t) -> is_Some (sessions world !! t)) /\
    (logged_in (alice_login_with "t-live") world = false ->
       sessions w' = sessions world /\
       written w'
       = (written world
          ++ [ExecuteTemplate "templates/login.html" (LoginData "Bu kullanıcı banlanmış.")])%list) /\
    (logged_in (alice_login_with "t-live") world = true ->
       written w' = (written world ++ [Redirect "/" StatusSeeOther])%list)).
Proof.
  split; [by_evaluation |]. split; [by_evaluation |]. split; [by_evaluation |]. split.
  - apply (LoginHandler_banned alice_login world);
      first [vm_compute; reflexivity | vm_compute; left; reflexivity].
  - apply (LoginHandler_banned (alice_login_with "t-live") world);
      first [vm_compute; reflexivity | vm_compute; left; reflexivity].
Defined.



Lemma getEmailAndNameFromGitHub_calls_witness :
  List.find primary_verified email_list
  = Some {| e_Email := "ada@x.com"; Primary := true; Verified := true |} /\
  calls (snd (getEmailAndNameFromGitHub "noemail" world))
  = [EvGet GitHub github_user_url; EvGet GitHub github_emails_url] /\
  fst (getEmailAndNameFromGitHub "noemail" world) = Ret ("ada@x.com", "Ada L", None) /\
  calls (snd (getEmailAndNameFromGitHub "bea" world)) = [EvGet GitHub github_user_url] /\
  fst (getEmailAndNameFromGitHub "bea" world) = Ret ("bea@x.com", "Ada L", None).
Proof.
  destruct (getEmailAndNameFromGitHub_calls "noemail" "noemail"
              {| Email := ""; Name_ := "Ada L" |} world eq_refl eq_refl) as [Hempty _].
  destruct (Hempty eq_refl) as [Hcalls Hselect].
  destruct (getEmailAndNameFromGitHub_calls "bea" "bea"
              {| Email := "bea@x.com"; Name_ := "Ada L" |} world eq_refl eq_refl) as [_ Hfull].
  destruct Hfull as [Hcalls' Hret]; [discriminate |].
  split; [reflexivity |]. split; [exact Hcalls |]. split.
  - exact (Hselect "noemail" email_list
             {| e_Email := "ada@x.com"; Primary := true; Verified := true |}
             eq_refl eq_refl eq_refl).
  - split; [exact Hcalls' | exact Hret].
Defined.

End Scenario.

(** * Further properties of the session manager *)

Section SessionLaws.

Context `{Ext : Externals}.

Local Open Scope go_scope.

(** [GetSession] either leaves the sessions alone or validates the row of
    the cookie's token. *)
Lemma GetSession_sessions_cases (r : Request) (w : World) :
  sessions (snd (GetSession r w)) = sessions w \/
  exists tok row,
    Cookie r "session_token" = Some tok /\ sessions w !! tok = Some row /\
    snd (GetSession r w) = GetSession_world tok row w.
Proof.
  destruct (DB_nil w) eqn:HDB.
  { left. unfold GetSession. go_run. now rewrite HDB. }
  destruct (Cookie r "session_token") as [tok|] eqn:Hc.
  2:{ left. now rewrite (GetSession_no_cookie r w HDB Hc). }
  destruct (sessions w !! tok) as [row|] eqn:Hrow.
  2:{ left. now rewrite (GetSession_unknown r w tok HDB Hc Hrow). }
  destruct (Z_lt_le_dec (expiry row) (clock (ticks w))) as [Hlt|Hle].
  - left. now rewrite (GetSession_expired r w tok row HDB Hc Hrow Hlt).
  - right. exists tok, row. rewrite (GetSession_live r w tok row HDB Hc Hrow Hle). auto.
Qed.

(** Every row a validation leaves was there before, for the same user. *)
Lemma GetSession_world_lookup (tok : string) (row : SessionRow) (w : World)
      (t : string) (r' : SessionRow) :
  sessions (GetSession_world tok row w) !! t = Some r' ->
  exists r0, sessions w !! t = Some r0 /\ user_id r0 = user_id r'.
Proof.
  unfold GetSession_world. go_fields. intros H.
  destruct (decide (t = tok)) as [->|Hne].
  - rewrite lookup_alter_eq in H.
    destruct (filter _ (sessions w) !! tok) as [r0|] eqn:Hf; [| discriminate].
    apply map_lookup_filter_Some in Hf as [Hf _]. cbn in H. injection H as <-.
    exists r0. split; [exact Hf | reflexivity].
  - rewrite lookup_alter_ne in H by congruence.
    apply map_lookup_filter_Some in H as [H _]. eauto.
Qed.

(** X1.  [GetSession] always returns: it never panics.  It makes no
    outbound call, writes nothing to the response, leaves the users and the
    banned e-mails alone and creates no session; and whenever it does not
    return a live session, the sessions are exactly as they were. *)
Theorem GetSession_returns_and_creates_nothing (r : Request) (w : World) :
  exists (s : option Session) (err : error) (w' : World),
    GetSession r w = (Ret (s, err), w') /\
    calls w' = calls w /\ written w' = written w /\
    users w' = users w /\ banned_users w' = banned_users w /\
    (forall t, is_Some (sessions w' !! t) -> is_Some (sessions w !! t)) /\
    (~ (is_Some s /\ err = None) -> sessions w' = sessions w).
Proof.
  destruct (GetSession_frame r w)
    as (s & err & w' & HG & _ & Hcalls & Hwr & Hu & Hb & Hdom & Hsame & Hlog).
  exists s, err, w'. repeat split; try assumption.
  intros Hnot. apply Hsame. destruct (logged_in r w); [| reflexivity].
  exfalso. apply Hnot. now apply Hlog.
Qed.

(** X2.  A successful validation deletes and changes sessions of the
    validated user only: the rows of every other user are exactly as
    before. *)
Theorem GetSession_other_users_untouched
        (r : Request) (w : World) (tok : string) (row : SessionRow)
        (t : string) (row' : SessionRow) :
  DB_nil w = false ->
  Cookie r "session_token" = Some tok ->
  sessions w !! tok = Some row ->
  (clock (ticks w) <= expiry row)%Z ->
  user_id row' <> user_id row ->
  sessions (snd (GetSession r w)) !! t = Some row' <-> sessions w !! t = Some row'.
Proof.
  intros HDB Hc Hrow Hle Hu.
  rewrite (GetSession_live r w tok row HDB Hc Hrow Hle). cbn [snd].
  now apply GetSession_world_others.
Qed.

(** X3.  [GetSession] keeps the single-session invariant: if no two rows of
    the store belong to the same user before the call, none do after it,
    whatever the request and whatever the outcome. *)
Theorem GetSession_keeps_single_session (r : Request) (w : World) :
  single_session (sessions w) ->
  single_session (sessions (snd (GetSession r w))).
Proof.
  intros Hinv.
  destruct (GetSession_sessions_cases r w) as [-> | (tok & row & _ & _ & ->)];
    [exact Hinv |].
  intros t1 t2 r1 r2 H1 H2 Hu.
  apply GetSession_world_lookup in H1 as (a1 & Ha1 & Hu1).
  apply GetSession_world_lookup in H2 as (a2 & Ha2 & Hu2).
  apply (Hinv t1 t2 a1 a2 Ha1 Ha2). congruence.
Qed.

(** X4.  The expiry slides: a token that has just been validated is
    validated again by the next call, provided the clock has not advanced by
    more than ten minutes since the refresh; the second call moves the
    expiry once more and changes no other row. *)
Theorem GetSession_again (r : Request) (w : World) (tok : string) (row : SessionRow) :
  DB_nil w = false ->
  Cookie r "session_token" = Some tok ->
  sessions w !! tok = Some row ->
  (clock (ticks w) <= expiry row)%Z ->
  (clock (2 + ticks w)%nat <= clock (1 + ticks w)%nat + 10 * Minute)%Z ->
  let w1 := snd (GetSession r w) in
  exists w2 : World,
    GetSession r w1
    = (Ret (Some {| ID := tok; UserID := user_id row;
                    Expiry := (clock (3 + ticks w)%nat + 10 * Minute)%Z |}, None), w2) /\
    sessions w2 !! tok
    = Some {| user_id := user_id row; expiry := (clock (3 + ticks w)%nat + 10 * Minute)%Z |} /\
    (forall t, t <> tok -> sessions w2 !! t = sessions w1 !! t).
Proof.
  intros HDB Hc Hrow Hle Hslide w1. subst w1.
  rewrite (GetSession_live r w tok row HDB Hc Hrow Hle). cbn [snd].
  set (w1 := GetSession_world tok row w).
  set (row1 := {| user_id := user_id row; expiry := Add (clock (S (ticks w))) (10 * Minute) |}).
  assert (Hrow1 : sessions w1 !! tok = Some row1) by now apply GetSession_world_self.
  assert (HDB1 : DB_nil w1 = false) by exact HDB.
  assert (Hle1 : (clock (ticks w1) <= expiry row1)%Z) by exact Hslide.
  exists (GetSession_world tok row1 w1). split.
  { exact (GetSession_live r w1 tok row1 HDB1 Hc Hrow1 Hle1). }
  split.
  { exact (GetSession_world_self tok row1 w1 Hrow1). }
  intros t Hne. unfold GetSession_world at 1. go_fields.
  rewrite lookup_alter_ne by congruence.
  destruct (sessions w1 !! t) as [r'|] eqn:Ht.
  - apply map_lookup_filter_Some. split; [exact Ht |].
    apply keeps_other. intros Hu. apply Hne.
    exact (GetSession_world_single tok row w t r' Ht Hu).
  - apply map_lookup_filter_None. left. exact Ht.
Qed.

(** X5.  Two calls of [createSession] for the same user that read the same
    instant from the clock build the same token: the second insertion is
    refused by the primary key, the call returns the empty token with the
    error, and the sessions stay as the first call left them. *)
Theorem createSession_same_instant (userID : Z) (w : World) :
  DB_nil w = false ->
  sessions w !! sessionToken_of userID (clock (ticks w)) = None ->
  clock (2 + ticks w)%nat = clock (ticks w) ->
  let w1 := snd (createSession userID w) in
  fst (createSession userID w1) = Ret ("", Some (ErrConstraint "sessions.id")) /\
  sessions (snd (createSession userID w1)) = sessions w1.
Proof.
  intros HDB Hfresh Hclk w1. subst w1.
  rewrite (createSession_fresh userID w HDB Hfresh). cbn [snd].
  assert (Htaken : is_Some (sessions (createSession_world userID w)
                              !! sessionToken_of userID (clock (ticks (createSession_world userID w))))).
  { unfold createSession_world. go_fields. cbn [Nat.add] in Hclk. rewrite Hclk.
    rewrite lookup_insert_eq. eauto. }
  rewrite (createSession_taken userID (createSession_world userID w) HDB Htaken).
  split; reflexivity.
Qed.

(** ** Tokens name their user and their instant *)

Lemma string_of_uint_no_dash (d : Decimal.uint) : no_dash (NilEmpty.string_of_uint d).
Proof.
  induction d; cbn [NilEmpty.string_of_uint list_ascii_of_string];
    intros c Hc; try (destruct Hc as [<- | Hc]; [discriminate | now apply IHd]).
  destruct Hc.
Qed.

Lemma dash_split (x x' y y' : string) :
  no_dash x -> no_dash x' ->
  x +:+ String "-" y = x' +:+ String "-" y' ->
  x = x' /\ y = y'.
Proof.
  revert x'. induction x as [|c x IH]; intros [|c' x'] Hx Hx'; cbn [String.append].
  - intros [= ->]. auto.
  - intros [= <- _]. exfalso. apply (Hx' "-"%char); [now left | reflexivity].
  - intros [= -> _]. exfalso. apply (Hx "-"%char); [now left | reflexivity].
  - intros [= -> H]. destruct (IH x') as [-> ->].
    + intros a Ha. apply Hx. now right.
    + intros a Ha. apply Hx'. now right.
    + exact H.
    + auto.
Qed.

Lemma to_int_uint_nonnil (n : Z) (d : Decimal.uint) :
  Z.to_int n = Decimal.Pos d \/ Z.to_int n = Decimal.Neg d -> d <> Decimal.Nil.
Proof.
  destruct n as [|p|p]; cbn [Z.to_int]; intros [[= <-] | [= <-]];
    try discriminate; apply DecimalPos.Unsigned.to_uint_nonnil.
Qed.

Lemma string_of_uint_head (d : Decimal.uint) :
  d <> Decimal.Nil ->
  exists c rest, NilEmpty.string_of_uint d = String c rest /\ c <> "-"%char.
Proof.
  intros Hd. pose proof (string_of_uint_no_dash d) as Hno.
  destruct d; try contradiction; cbn [NilEmpty.string_of_uint] in *;
    eexists _, _; (split; [reflexivity |]); discriminate.
Qed.

Lemma Sprintf_d_dash_split (u u' : Z) (y y' : string) :
  Sprintf_d u +:+ String "-" y = Sprintf_d u' +:+ String "-" y' ->
  u = u' /\ y = y'.
Proof.
  unfold Sprintf_d. intros H.
  assert (Hs : NilEmpty.string_of_int (Z.to_int u) = NilEmpty.string_of_int (Z.to_int u')
               /\ y = y').
  { destruct (Z.to_int u) as [d|d] eqn:Eu, (Z.to_int u') as [d'|d'] eqn:Eu';
      cbn [NilEmpty.string_of_int String.append] in *.
    - apply dash_split in H; [exact H | apply string_of_uint_no_dash ..].
    - exfalso.
      destruct (string_of_uint_head d) as (c & rest & Hc & Hnd);
        [apply (to_int_uint_nonnil u); auto |].
      rewrite Hc in H. cbn [String.append] in H. injection H as -> _. now apply Hnd.
    - exfalso.
      destruct (string_of_uint_head d') as (c & rest & Hc & Hnd);
        [apply (to_int_uint_nonnil u'); auto |].
      rewrite Hc in H. cbn [String.append] in H. injection H as <- _. now apply Hnd.
    - injection H as H.
      apply dash_split in H; [| apply string_of_uint_no_dash ..].
      destruct H as [-> ->]. auto. }
  destruct Hs as [Hs ->]. split; [| reflexivity].
  now apply Sprintf_d_inj.
Qed.

(** X6.  A token of [createSession] names its user and its instant: the
    tokens built for two users, or for one user from two clock readings, are
    different texts, also where the digits of the two numbers put together
    are the same. *)
Theorem sessionToken_of_names_user_and_instant (u u' n n' : Z) :
  u <> u' \/ n <> n' -> sessionToken_of u n <> sessionToken_of u' n'.
Proof.
  unfold sessionToken_of. intros Hne H. apply append_inj_l in H.
  change ("-" +:+ Sprintf_d n) with (String "-" (Sprintf_d n)) in H.
  change ("-" +:+ Sprintf_d n') with (String "-" (Sprintf_d n')) in H.
  apply Sprintf_d_dash_split in H as [Hu H].
  apply Sprintf_d_inj in H. destruct Hne as [Hne | Hne]; contradiction.
Qed.

(** ** Logging out *)

(** X7.  [LogoutHandler] with a session cookie deletes the row of that
    token and no other row, whether or not the row exists, answers with a
    cookie that has already expired and a redirect to the home page; from
    then on [GetSession] finds no row for the token. *)
Theorem LogoutHandler_invalidates (r : Request) (w : World) (tok : string) :
  DB_nil w = false ->
  Cookie r "session_token" = Some tok ->
  exists w' : World,
    LogoutHandler r w = (Ret tt, w') /\
    sessions w' !! tok = None /\
    (forall t, t <> tok -> sessions w' !! t = sessions w !! t) /\
    written w'
    = (written w
       ++ [SetCookie {| Name := "session_token"; Value := ""; Path := "";
                        Expires := Some (clock (ticks w) - 1000000000)%Z;
                        HttpOnly := false; Secure := false |};
           Redirect "/" StatusSeeOther])%list /\
    fst (GetSession r w') = Ret (None, Some ErrNoRows) /\
    sessions (snd (LogoutHandler r w')) = sessions w'.
Proof.
  intros HDB Hc. unfold LogoutHandler, delete_session. rewrite Hc. go_run.
  rewrite HDB. go_run. eexists. split; [reflexivity |]. go_fields.
  split; [apply lookup_delete_eq |]. split.
  { intros t Hne. apply lookup_delete_ne. congruence. }
  split; [now rewrite <- app_assoc |]. split.
  - erewrite GetSession_unknown; [reflexivity | exact HDB | exact Hc |].
    go_fields. apply lookup_delete_eq.
  - rewrite HDB. go_fields. apply delete_id. apply lookup_delete_eq.
Qed.

End SessionLaws.

(** * Further properties of login and registration *)

Section LoginLaws.

Context `{Ext : Externals}.

Local Open Scope go_scope.

Lemma existsb_eqb_not_In (x : string) (l : list string) :
  ~ In x l -> List.existsb (String.eqb x) l = false.
Proof.
  intros H. destruct (List.existsb (String.eqb x) l) eqn:E; [| reflexivity].
  exfalso. apply H. apply List.existsb_exists in E as (y & Hy & Heq).
  apply String.eqb_eq in Heq. now subst.
Qed.

Lemma not_logged_in_gate (err : error) :
  bool_decide (err = None) && bool_decide (is_Some (@None Session)) = false.
Proof.
  apply andb_false_iff. right. apply bool_decide_eq_false_2. intros [? [=]].
Qed.

(** What is left of [LoginHandler] for a POST without a session cookie
    whose e-mail is not banned: the branch on [google_oauth]. *)
Ltac login_post HDB Hc Hpost Hnb :=
  unfold LoginHandler; go_unfold;
  rewrite (GetSession_no_cookie _ _ HDB Hc); go_run;
  rewrite not_logged_in_gate, Hpost;
  cbn [String.eqb Ascii.eqb Bool.eqb];
  unfold checkIfBanned; go_run; rewrite HDB; go_run;
  rewrite (existsb_eqb_not_In _ _ Hnb).

(** X8.  A local login with the right password opens a session: for a POST
    without a session cookie, an e-mail that is not banned and belongs to a
    user with a password hash that [bcrypt] accepts, [LoginHandler] makes one
    comparison, inserts one row under a new UUID for that user, expiring ten
    minutes after the clock reading, keeps every other session, sets a
    cookie with that token and that same expiry and redirects to the home
    page. *)
Theorem LoginHandler_local_success
        (r : Request) (w : World) (u : UserRow) (hash : string) :
  DB_nil w = false ->
  Cookie r "session_token" = None ->
  Method r = "POST" ->
  ~ In (FormValue r "email") (banned_users w) ->
  String.eqb (FormValue r "google_oauth") "true" = false ->
  find_user_by_email (FormValue r "email") (users w) = Some u ->
  u_password u = Some hash ->
  CompareHashAndPassword hash (FormValue r "password") = None ->
  sessions w !! uuid_src (uuid_pos w) = None ->
  let tok := uuid_src (uuid_pos w) in
  let expiresAt := (clock (ticks w) + 10 * Minute)%Z in
  exists w' : World,
    LoginHandler r w = (Ret tt, w') /\
    sessions w' = <[tok := {| user_id := u_id u; expiry := expiresAt |}]> (sessions w) /\
    users w' = users w /\
    calls w' = (calls w ++ [EvCompareHashAndPassword hash (FormValue r "password")])%list /\
    written w'
    = (written w
       ++ [SetCookie {| Name := "session_token"; Value := tok; Path := "";
                        Expires := Some expiresAt; HttpOnly := true; Secure := true |};
           Redirect "/" StatusSeeOther])%list.
Proof.
  intros HDB Hc Hpost Hnb Hg Hu Hp Hcmp Hfresh tok expiresAt.
  login_post HDB Hc Hpost Hnb. rewrite Hg.
  unfold select_id_password_by_email. go_run. rewrite HDB. go_run. rewrite Hu, Hp. go_run.
  rewrite Hcmp. unfold insert_session. go_run. rewrite HDB. go_run. rewrite Hfresh.
  eexists. split; [reflexivity |]. go_fields. repeat split.
  now rewrite <- app_assoc.
Qed.

(** X9.  An unknown e-mail and a wrong password get the same answer: for a
    POST without a session cookie and an e-mail that is not banned,
    [LoginHandler] writes the login page with the one message for both, and
    the sessions and the users are untouched. *)
Theorem LoginHandler_bad_credentials (r : Request) (w : World) :
  DB_nil w = false ->
  Cookie r "session_token" = None ->
  Method r = "POST" ->
  ~ In (FormValue r "email") (banned_users w) ->
  String.eqb (FormValue r "google_oauth") "true" = false ->
  (find_user_by_email (FormValue r "email") (users w) = None \/
   exists u hash,
     find_user_by_email (FormValue r "email") (users w) = Some u /\
     u_password u = Some hash /\
     is_Some (CompareHashAndPassword hash (FormValue r "password"))) ->
  exists w' : World,
    LoginHandler r w = (Ret tt, w') /\
    sessions w' = sessions w /\
    users w' = users w /\
    written w' = (written w ++ [login_page "Geçersiz e-posta veya şifre"])%list.
Proof.
  intros HDB Hc Hpost Hnb Hg Hcase.
  login_post HDB Hc Hpost Hnb. rewrite Hg.
  unfold select_id_password_by_email. go_run. rewrite HDB. go_run.
  destruct Hcase as [Hu | (u & hash & Hu & Hp & [e He])].
  - rewrite Hu. go_run. destruct (decide (ErrNoRows = ErrNoRows)) as [_|N]; [| contradiction].
    eexists. split; [reflexivity |]. go_fields. repeat split.
  - rewrite Hu, Hp. go_run. rewrite He.
    eexists. split; [reflexivity |]. go_fields. repeat split.
Qed.

Lemma find_none_intro {A : Type} (f : A -> bool) (l : list A) :
  (forall x, In x l -> f x = false) -> List.find f l = None.
Proof.
  intros H. destruct (List.find f l) as [x|] eqn:E; [| reflexivity].
  apply List.find_some in E as [Hin Hf]. rewrite (H x Hin) in Hf. discriminate.
Qed.

Lemma existsb_false_intro {A : Type} (f : A -> bool) (l : list A) :
  (forall x, In x l -> f x = false) -> List.existsb f l = false.
Proof.
  intros H. destruct (List.existsb f l) eqn:E; [| reflexivity].
  apply List.existsb_exists in E as (x & Hin & Hf). rewrite (H x Hin) in Hf. discriminate.
Qed.

Lemma filter_false_nil {A : Type} (f : A -> bool) (l : list A) :
  (forall x, In x l -> f x = false) -> List.filter f l = [].
Proof.
  induction l as [|a l IH]; intros H; [reflexivity |].
  cbn [List.filter]. rewrite (H a) by now left. apply IH. intros x Hx. apply H. now right.
Qed.

Lemma find_user_by_email_None (email : string) (l : list UserRow) :
  find_user_by_email email l = None ->
  forall u, In u l -> String.eqb (u_email u) email = false.
Proof. intros H u Hin. exact (List.find_none _ _ H u Hin). Qed.

(** X11.  The Google branch of [LoginHandler] never answers "user not
    found": [getGoogleUserByEmail] reports a missing account as id 0 without
    an error, so for a profile e-mail that no password-less account has, the
    handler opens a session owned by user id 0, sets its cookie and
    redirects to the profile page. *)
Theorem LoginHandler_google_missing_account
        (r : Request) (w : World) (token body : string) (info : userInfo) :
  DB_nil w = false ->
  Cookie r "session_token" = None ->
  Method r = "POST" ->
  ~ In (FormValue r "email") (banned_users w) ->
  FormValue r "google_oauth" = "true" ->
  Exchange Google (FormValue r "code") = (token, None) ->
  client_Get Google token (userinfo_url Google) = (body, None) ->
  Decode_userInfo body = (info, None) ->
  (forall u, In u (users w) -> u_email u = Email info -> is_Some (u_password u)) ->
  sessions w !! sessionToken_of 0 (clock (ticks w)) = None ->
  let tok := sessionToken_of 0 (clock (ticks w)) in
  exists w' : World,
    LoginHandler r w = (Ret tt, w') /\
    sessions w'
    = <[tok := {| user_id := 0; expiry := (clock (S (ticks w)) + 10 * Minute)%Z |}]> (sessions w) /\
    written w'
    = (written w ++ [SetCookie (callback_cookie tok); Redirect "/myprofil" StatusSeeOther])%list.
Proof.
  intros HDB Hc Hpost Hnb Hg Hex Hget Hdec Hnone Hfresh tok.
  login_post HDB Hc Hpost Hnb. rewrite Hg. cbn [String.eqb Ascii.eqb Bool.eqb].
  unfold oauth_Exchange, getEmailAndNameFromGoogle, http_Get. go_run.
  rewrite Hex. go_run. unfold userinfo_url in Hget. rewrite Hget, Hdec. go_run.
  unfold getGoogleUserByEmail, select_passwordless_id_by_email. go_run. rewrite HDB. go_run.
  rewrite find_none_intro.
  2:{ intros u Hin. destruct (String.eqb_spec (u_email u) (Email info)) as [E|_]; [| reflexivity].
      cbn [andb]. rewrite (bool_decide_eq_true_2 _ (Hnone u Hin E)). reflexivity. }
  go_run. destruct (decide (ErrNoRows = ErrNoRows)) as [_|N]; [| contradiction]. go_run.
  pose proof (createSession_fresh 0 (add_call (EvGet Google "https://www.googleapis.com/oauth2/v2/userinfo")
                 (add_call (EvExchange Google (FormValue r "code")) w)) HDB Hfresh) as HC.
  go_fields. rewrite HC. unfold createSession_world. go_run.
  eexists. split; [reflexivity |]. go_fields. split; [reflexivity |].
  now rewrite <- app_assoc.
Qed.

(** ** Registration *)

(** What is left of [RegisterHandler] for a POST without a session cookie:
    the look-up of the e-mail and the call of [registerUser]. *)
Ltac register_post HDB Hc Hpost :=
  unfold RegisterHandler; go_unfold;
  rewrite (GetSession_no_cookie _ _ HDB Hc); go_run;
  rewrite not_logged_in_gate, Hpost;
  cbn [String.eqb Ascii.eqb Bool.eqb].

(** X12.  Registering an e-mail that is already in the store fails before
    anything else is looked at: [RegisterHandler] writes the registration
    page with the message under [Email]; no user and no session is created
    and no password is hashed. *)
Theorem RegisterHandler_email_taken (r : Request) (w : World) (u : UserRow) :
  DB_nil w = false ->
  Cookie r "session_token" = None ->
  Method r = "POST" ->
  FormValue r "email" <> "" ->
  find_user_by_email (FormValue r "email") (users w) = Some u ->
  exists w' : World,
    RegisterHandler r w = (Ret tt, w') /\
    users w' = users w /\ sessions w' = sessions w /\ calls w' = calls w /\
    written w'
    = (written w
       ++ [ExecuteTemplate "templates/register.html" (RegisterTemplateData email_taken "" "")])%list.
Proof.
  intros HDB Hc Hpost Hne Hu. apply String.eqb_neq in Hne.
  register_post HDB Hc Hpost. rewrite ?Hne. cbn [negb].
  unfold registerUser, renderRegisterTemplate. unfold getUserByEmail, select_user_id_by_email.
  go_run. rewrite ?HDB. go_run. rewrite ?Hu. go_run. rewrite ?HDB. go_run. rewrite ?Hu. go_run.
  rewrite ?HDB. go_run. rewrite ?Hu. go_run. cbn [Error String.eqb Ascii.eqb Bool.eqb].
  eexists. split; [reflexivity |]. go_fields. repeat split.
Qed.

Lemma getUserByEmail_ret (email : string) (w : World) :
  DB_nil w = false ->
  exists o, getUserByEmail email w = (Ret (o, None), w).
Proof.
  intros HDB. unfold getUserByEmail. go_run. rewrite HDB. go_run.
  destruct (find_user_by_email email (users w)); eexists; reflexivity.
Qed.

(** [registerUser] on a new e-mail and a new user name, with a password
    that passes. *)
Lemma registerUser_success (r : Request) (w : World) (hash : string) :
  DB_nil w = false ->
  find_user_by_email (FormValue r "email") (users w) = None ->
  String.eqb (FormValue r "google_oauth") "true" = false ->
  (forall u, In u (users w) -> u_username u <> FormValue r "username") ->
  validate_Var_password (FormValue r "password") = None ->
  GenerateFromPassword (FormValue r "password") = (hash, None) ->
  sessions w !! sessionToken_of 0 (clock (ticks w)) = None ->
  exists w' : World,
    registerUser r w = (Ret None, w') /\
    users w'
    = (users w ++ [{| u_id := next_user_id (users_seq w) (users w);
                      u_email := FormValue r "email";
                      u_username := FormValue r "username"; u_password := Some hash;
                      u_role := "user" |}])%list /\
    users_seq w' = next_user_id (users_seq w) (users w) /\
    sessions w'
    = <[sessionToken_of 0 (clock (ticks w))
        := {| user_id := 0; expiry := (clock (S (ticks w)) + 10 * Minute)%Z |}]> (sessions w) /\
    calls w' = (calls w ++ [EvGenerateFromPassword (FormValue r "password")])%list /\
    written w'
    = (written w
       ++ [SetCookie {| Name := "session_token"; Value := sessionToken_of 0 (clock (ticks w));
                        Path := "/"; Expires := None; HttpOnly := true; Secure := true |};
           Redirect "/myprofil" StatusSeeOther])%list.
Proof.
  intros HDB Hu Hg Hname Hval Hhash Hfresh.
  pose proof (find_user_by_email_None _ _ Hu) as Hemail.
  assert (Hname' : forall u, In u (users w) ->
                     String.eqb (u_username u) (FormValue r "username") = false).
  { intros u Hin. apply String.eqb_neq. now apply Hname. }
  unfold registerUser, registerUser_save, saveUser.
  unfold getUserByEmail, select_user_id_by_email, count_users_by_username, insert_user.
  repeat (go_run; progress rewrite ?HDB, ?Hu, ?Hg). go_run.
  rewrite (filter_false_nil _ _ Hname'). cbn [List.length].
  change (0 <? Z.of_nat 0)%Z with false. cbv iota.
  rewrite Hval. go_run. rewrite Hhash. go_run. rewrite ?HDB. go_run.
  rewrite (existsb_false_intro _ _ Hemail), (existsb_false_intro _ _ Hname'). go_run.
  match goal with
  | |- context [createSession 0 ?w0] => rewrite (createSession_fresh 0 w0 HDB Hfresh)
  end.
  unfold createSession_world. go_run.
  eexists. split; [reflexivity |]. go_fields.
  split; [reflexivity |]. split; [reflexivity |]. split; [reflexivity |].
  split; [reflexivity |].
  now rewrite <- app_assoc.
Qed.

(** X13.  A successful local registration stores the new user with the
    hash [bcrypt] returned as password and the role [user], under an id
    that is one more than the largest the table has ever held, and sets a
    cookie and redirects to the profile page; but the session it opens is
    owned by user id 0, not by the new user, because the id of the inserted
    row is never read back. *)
Theorem RegisterHandler_success (r : Request) (w : World) (hash : string) :
  DB_nil w = false ->
  Cookie r "session_token" = None ->
  Method r = "POST" ->
  find_user_by_email (FormValue r "email") (users w) = None ->
  String.eqb (FormValue r "google_oauth") "true" = false ->
  (forall u, In u (users w) -> u_username u <> FormValue r "username") ->
  validate_Var_password (FormValue r "password") = None ->
  GenerateFromPassword (FormValue r "password") = (hash, None) ->
  sessions w !! sessionToken_of 0 (clock (ticks w)) = None ->
  let tok := sessionToken_of 0 (clock (ticks w)) in
  exists w' : World,
    RegisterHandler r w = (Ret tt, w') /\
    users w'
    = (users w ++ [{| u_id := next_user_id (users_seq w) (users w);
                      u_email := FormValue r "email";
                      u_username := FormValue r "username"; u_password := Some hash;
                      u_role := "user" |}])%list /\
    users_seq w' = next_user_id (users_seq w) (users w) /\
    sessions w'
    = <[tok := {| user_id := 0; expiry := (clock (S (ticks w)) + 10 * Minute)%Z |}]> (sessions w) /\
    calls w' = (calls w ++ [EvGenerateFromPassword (FormValue r "password")])%list /\
    written w'
    = (written w
       ++ [SetCookie {| Name := "session_token"; Value := tok; Path := "/"; Expires := None;
                        HttpOnly := true; Secure := true |};
           Redirect "/myprofil" StatusSeeOther])%list.
Proof.
  intros HDB Hc Hpost Hu Hg Hname Hval Hhash Hfresh tok.
  destruct (registerUser_success r w hash HDB Hu Hg Hname Hval Hhash Hfresh)
    as (w' & Hreg & Hrest).
  exists w'. split; [| exact Hrest].
  register_post HDB Hc Hpost.
  match goal with
  | |- context [negb ?c] => destruct (negb c)
  end.
  - match goal with
    | |- context [getUserByEmail ?e w] =>
        destruct (getUserByEmail_ret e w HDB) as [o Ho]; rewrite Ho
    end.
    destruct o; now rewrite Hreg.
  - now rewrite Hreg.
Qed.

End LoginLaws.

(** * Further properties of the provider callbacks *)

Section CallbackLaws.

Context `{Ext : Externals}.

Local Open Scope go_scope.

(** ** The pending nonce *)

(** [rand.Read] returns the bytes the stream holds at the position it
    is read from. *)
Lemma rand_Read_spec (n : nat) (w : World) :
  rand_Read n w = (Ret (drawn_bytes n (rand_pos w)), set_rand_pos (n + rand_pos w) w).
Proof.
  revert w. induction n as [|n IH]; intros w.
  - destruct w. reflexivity.
  - cbn [rand_Read drawn_bytes]. go_run.
    rewrite (IH (set_rand_pos (S (rand_pos w)) w)).
    go_fields. rewrite Nat.add_succ_r. reflexivity.
Qed.

(** X14.  Each handler that starts a provider login draws 32 random bytes,
    stores their encoding as the pending nonce in place of the one that was
    pending, records the intent (login or registration) and redirects to
    the Google authorisation URL carrying that nonce; this holds for
    [HandleGitHubLogin] too, which uses the Google configuration.  No
    session and no user is touched. *)
Theorem login_start_issues_nonce (h : Request -> Go unit) (intent : bool)
        (r : Request) (w : World) :
  (h = HandleGoogleLogin /\ intent = false) \/
  (h = HandleGoogleRegister /\ intent = true) \/
  (h = HandleGitHubLogin /\ intent = false) ->
  let nonce := EncodeToString (drawn_bytes 32 (rand_pos w)) in
  exists w' : World,
    h r w = (Ret tt, w') /\
    oauthStateStringGoogle w' = nonce /\
    registering w' = intent /\
    rand_pos w' = (32 + rand_pos w)%nat /\
    sessions w' = sessions w /\ users w' = users w /\
    written w' = (written w ++ [Redirect (AuthCodeURL Google nonce) StatusTemporaryRedirect])%list.
Proof.
  intros [[-> ->] | [[-> ->] | [-> ->]]] nonce; subst nonce;
    unfold HandleGoogleLogin, HandleGoogleRegister, HandleGitHubLogin, generateNonce;
    go_run;
    match goal with
    | |- context [rand_Read 32 ?w0] => rewrite (rand_Read_spec 32 w0)
    end;
    go_fields; eexists; (split; [reflexivity |]); repeat split.
Qed.

(** X15.  Only one nonce is pending: when a second login is started, a
    callback that presents the nonce of the first one is turned away with the
    redirect to the home page, unless the two nonces happen to be equal. *)
Theorem second_start_invalidates_first_nonce (r1 r2 r : Request) (w : World) :
  let w1 := snd (HandleGoogleLogin r1 w) in
  let w2 := snd (HandleGoogleRegister r2 w1) in
  FormValue r "state" = oauthStateStringGoogle w1 ->
  oauthStateStringGoogle w1 <> oauthStateStringGoogle w2 ->
  HandleGoogleCallback r w2 = (Ret tt, add_written (Redirect "/" StatusTemporaryRedirect) w2).
Proof.
  intros w1 w2 Hstate Hne. unfold HandleGoogleCallback. go_run.
  destruct (String.eqb_spec (FormValue r "state") (oauthStateStringGoogle w2)) as [E|_];
    [| reflexivity].
  exfalso. apply Hne. congruence.
Qed.

(** With a matching state and a profile delivered, the Google callback is
    the registration-or-login step on the profile's e-mail and the derived
    user name, after the two calls. *)
Lemma HandleGoogleCallback_profile (r : Request) (w : World) (info : userInfo) :
  google_profile r w info ->
  HandleGoogleCallback r w
  = register_or_login (Email info) (google_username info)
      (add_call (EvGet Google (userinfo_url Google))
         (add_call (EvExchange Google (Query_Get r "code")) w)).
Proof.
  intros (Hstate & token & body & Hex & Hget & Hdec).
  unfold HandleGoogleCallback, oauth_Exchange, getEmailAndNameFromGoogle, http_Get. go_run.
  rewrite Hstate, String.eqb_refl. cbn [negb]. rewrite Hex. go_run.
  unfold userinfo_url in Hget. rewrite Hget, Hdec. reflexivity.
Qed.

(** X16.  Before any login has been started the pending nonce is the empty
    text, and a Google callback without a [state] parameter passes the
    check: the code of the request is exchanged. *)
Theorem HandleGoogleCallback_without_nonce (r : Request) (w : World) :
  oauthStateStringGoogle w = "" ->
  assoc_first "state" (PostForm r ++ URL_Query r) = None ->
  exists rest,
    calls (snd (HandleGoogleCallback r w))
    = (calls w ++ EvExchange Google (Query_Get r "code") :: rest)%list.
Proof.
  intros Hnone Hstate.
  unfold HandleGoogleCallback, oauth_Exchange, getEmailAndNameFromGoogle, http_Get, FormValue.
  go_run. rewrite Hnone, Hstate. cbn [default String.eqb negb].
  destruct (Exchange Google (Query_Get r "code")) as [token [e|]]; go_fields;
    [exists []; reflexivity |].
  destruct (client_Get Google token _) as [body [e|]]; go_fields;
    [eexists; rewrite <- app_assoc; reflexivity |].
  destruct (Decode_userInfo body) as [info [e|]]; go_fields;
    [eexists; rewrite <- app_assoc; reflexivity |].
  assert (Hcalls : forall email username w0,
             calls (snd (register_or_login email username w0)) = calls w0).
  { intros email username w0. unfold register_or_login. go_run. destruct (registering w0).
    - unfold getUserByEmail. go_run. destruct (DB_nil w0) eqn:HDB; [reflexivity |]. go_run.
      destruct (find_user_by_email email (users w0)); go_run; [reflexivity |].
      unfold getOrCreateUser, select_user_id_by_email, insert_user. go_run.
      rewrite HDB. go_run.
      destruct (find_user_by_email email (users w0)) as [u|]; go_run.
      + unfold createSession, insert_session. go_run. rewrite HDB. go_run.
        destruct (sessions w0 !! _); reflexivity.
      + destruct (decide (ErrNoRows = ErrNoRows)) as [_|N]; [| contradiction].
        rewrite HDB. go_run.
        unfold createSession, insert_session; go_run; rewrite HDB; go_run.
        destruct (sessions w0 !! _); reflexivity.
    - unfold select_user_id_by_email. go_run. destruct (DB_nil w0) eqn:HDB; [reflexivity |].
      go_run. destruct (find_user_by_email email (users w0)) as [u|]; go_run.
      + unfold createSession, insert_session. go_run. rewrite HDB. go_run.
        destruct (sessions w0 !! _); reflexivity.
      + destruct (decide (ErrNoRows = ErrNoRows)); reflexivity. }
  rewrite Hcalls. go_fields. eexists. rewrite <- app_assoc. reflexivity.
Qed.

(** ** The Google callback, mode by mode *)

Ltac callback_run HDB :=
  repeat (go_run; progress rewrite ?HDB); go_run.

(** X17.  Login through Google for a known e-mail: with the intent "login",
    a matching state and a delivered profile whose e-mail is in the store,
    the callback opens a session owned by that user, expiring ten minutes
    after the clock reading, keeps every other session, sets the cookie and
    redirects to the home page. *)
Theorem HandleGoogleCallback_login_known
        (r : Request) (w : World) (info : userInfo) (u : UserRow) :
  DB_nil w = false ->
  registering w = false ->
  google_profile r w info ->
  find_user_by_email (Email info) (users w) = Some u ->
  sessions w !! sessionToken_of (u_id u) (clock (ticks w)) = None ->
  let tok := sessionToken_of (u_id u) (clock (ticks w)) in
  exists w' : World,
    HandleGoogleCallback r w = (Ret tt, w') /\
    sessions w'
    = <[tok := {| user_id := u_id u; expiry := (clock (S (ticks w)) + 10 * Minute)%Z |}]>
        (sessions w) /\
    users w' = users w /\
    calls w' = (calls w ++ google_calls r)%list /\
    written w'
    = (written w ++ [SetCookie (callback_cookie tok); Redirect "/" StatusSeeOther])%list.
Proof.
  intros HDB Hreg Hprof Hu Hfresh tok.
  rewrite (HandleGoogleCallback_profile r w info Hprof).
  unfold register_or_login, select_user_id_by_email. go_run. rewrite Hreg.
  callback_run HDB. rewrite Hu. go_run.
  match goal with
  | |- context [createSession ?i ?w0] => rewrite (createSession_fresh i w0 HDB Hfresh)
  end.
  unfold createSession_world. go_run.
  eexists. split; [reflexivity |]. go_fields. unfold google_calls.
  repeat split; now rewrite <- app_assoc.
Qed.

(** X18.  Login through Google for an unknown e-mail: the callback answers
    401 with the request to register first; no session and no user is
    created. *)
Theorem HandleGoogleCallback_login_unknown (r : Request) (w : World) (info : userInfo) :
  DB_nil w = false ->
  registering w = false ->
  google_profile r w info ->
  find_user_by_email (Email info) (users w) = None ->
  exists w' : World,
    HandleGoogleCallback r w = (Ret tt, w') /\
    sessions w' = sessions w /\
    users w' = users w /\
    written w'
    = (written w ++ [HandleErr ErrNoRows "Kullanıcı bulunamadı. Lütfen önce kaydolun."
                               StatusUnauthorized])%list.
Proof.
  intros HDB Hreg Hprof Hu.
  rewrite (HandleGoogleCallback_profile r w info Hprof).
  unfold register_or_login, select_user_id_by_email. go_run. rewrite Hreg.
  callback_run HDB. rewrite Hu. go_run.
  destruct (decide (ErrNoRows = ErrNoRows)) as [_|N]; [| contradiction].
  eexists. split; [reflexivity |]. go_fields. repeat split.
Qed.

(** X19.  Registration through Google with an e-mail that is already in the
    store: the callback writes the registration page with the message under
    [Email] and the e-mail filled in, and creates no user and no session. *)
Theorem HandleGoogleCallback_register_email_taken
        (r : Request) (w : World) (info : userInfo) (u : UserRow) :
  DB_nil w = false ->
  registering w = true ->
  google_profile r w info ->
  find_user_by_email (Email info) (users w) = Some u ->
  exists w' : World,
    HandleGoogleCallback r w = (Ret tt, w') /\
    sessions w' = sessions w /\
    users w' = users w /\
    written w'
    = (written w
       ++ [ExecuteTemplate "templates/register.html"
             (RegisterTemplateData email_taken (Email info) "")])%list.
Proof.
  intros HDB Hreg Hprof Hu.
  rewrite (HandleGoogleCallback_profile r w info Hprof).
  unfold register_or_login, getUserByEmail. go_run. rewrite Hreg.
  callback_run HDB. rewrite Hu. go_run.
  eexists. split; [reflexivity |]. go_fields. repeat split.
Qed.

(** In registration mode, for a profile whose e-mail is new, the Google
    callback sends an INSERT without password, which the store refuses;
    the error is dropped and a session is opened for the id [getOrCreateUser]
    returned with it, 0. *)
Lemma HandleGoogleCallback_register_refused (r : Request) (w : World) (info : userInfo) :
  DB_nil w = false ->
  registering w = true ->
  google_profile r w info ->
  find_user_by_email (Email info) (users w) = None ->
  sessions w !! sessionToken_of 0 (clock (ticks w)) = None ->
  exists w' : World,
    HandleGoogleCallback r w = (Ret tt, w') /\
    user_inserts w'
    = (user_inserts w ++ [{| i_email := Email info; i_username := google_username info;
                             i_password := None |}])%list /\
    users w' = users w /\
    users_seq w' = users_seq w /\
    sessions w'
    = <[sessionToken_of 0 (clock (ticks w))
        := {| user_id := 0; expiry := (clock (S (ticks w)) + 10 * Minute)%Z |}]> (sessions w) /\
    written w'
    = (written w ++ [SetCookie (callback_cookie (sessionToken_of 0 (clock (ticks w))));
                     Redirect "/myprofil" StatusTemporaryRedirect])%list.
Proof.
  intros HDB Hreg Hprof Hu Hfresh.
  rewrite (HandleGoogleCallback_profile r w info Hprof).
  unfold register_or_login, getUserByEmail, getOrCreateUser, select_user_id_by_email, insert_user.
  go_run. rewrite Hreg. repeat (go_run; progress rewrite ?HDB, ?Hu). go_run.
  destruct (decide (ErrNoRows = ErrNoRows)) as [_|N]; [| contradiction].
  callback_run HDB.
  match goal with
  | |- context [createSession ?i ?w0] => rewrite (createSession_fresh i w0 HDB Hfresh)
  end.
  unfold createSession_world. go_run.
  eexists. split; [reflexivity |]. go_fields.
  split; [reflexivity |]. split; [reflexivity |]. split; [reflexivity |].
  split; [reflexivity |]. now rewrite <- app_assoc.
Qed.

(** X20.  Registration through Google with a new e-mail stores no user.
    The callback sends an INSERT that binds the e-mail, the display name
    lower-cased without spaces and without tag as user name, and no
    password; the store refuses it, [password] being NOT NULL; the callback
    ignores the error and opens a session owned by user id 0, for which it
    sets the cookie and redirects to the profile page. *)
Theorem HandleGoogleCallback_register_new (r : Request) (w : World) (info : userInfo) :
  DB_nil w = false ->
  registering w = true ->
  google_profile r w info ->
  find_user_by_email (Email info) (users w) = None ->
  sessions w !! sessionToken_of 0 (clock (ticks w)) = None ->
  let tok := sessionToken_of 0 (clock (ticks w)) in
  exists w' : World,
    HandleGoogleCallback r w = (Ret tt, w') /\
    user_inserts w'
    = (user_inserts w ++ [{| i_email := Email info; i_username := google_username info;
                             i_password := None |}])%list /\
    users w' = users w /\
    users_seq w' = users_seq w /\
    sessions w'
    = <[tok := {| user_id := 0; expiry := (clock (S (ticks w)) + 10 * Minute)%Z |}]> (sessions w) /\
    written w'
    = (written w ++ [SetCookie (callback_cookie tok);
                     Redirect "/myprofil" StatusTemporaryRedirect])%list.
Proof.
  intros HDB Hreg Hprof Hu Hfresh tok.
  exact (HandleGoogleCallback_register_refused r w info HDB Hreg Hprof Hu Hfresh).
Qed.

(** X21.  Registration through Google when the derived user name is taken:
    the insertion is refused (it names no password, and the user name is
    not free either), the callback ignores the error, and it opens a session
    owned by user id 0 although no user has been stored. *)
Theorem HandleGoogleCallback_register_name_taken
        (r : Request) (w : World) (info : userInfo) (u : UserRow) :
  DB_nil w = false ->
  registering w = true ->
  google_profile r w info ->
  find_user_by_email (Email info) (users w) = None ->
  In u (users w) -> u_username u = google_username info ->
  sessions w !! sessionToken_of 0 (clock (ticks w)) = None ->
  let tok := sessionToken_of 0 (clock (ticks w)) in
  exists w' : World,
    HandleGoogleCallback r w = (Ret tt, w') /\
    users w' = users w /\
    sessions w'
    = <[tok := {| user_id := 0; expiry := (clock (S (ticks w)) + 10 * Minute)%Z |}]> (sessions w) /\
    written w'
    = (written w ++ [SetCookie (callback_cookie tok);
                     Redirect "/myprofil" StatusTemporaryRedirect])%list.
Proof.
  intros HDB Hreg Hprof Hu Hin Hname Hfresh tok.
  destruct (HandleGoogleCallback_register_refused r w info HDB Hreg Hprof Hu Hfresh)
    as (w' & Hrun & _ & Husers & _ & Hsess & Hwr).
  exists w'. repeat split; assumption.
Qed.

(** ** Failures of the provider *)

(** X22.  When the provider refuses the code, each of the three callbacks
    (the Google one after its state check) answers 500 and does nothing
    else: the exchange is the only outbound call, and no user and no session
    is created. *)
Theorem callback_failed_exchange
        (h : Request -> Go unit) (p : Provider) (r : Request) (w : World)
        (token : string) (e : error_value) :
  (h = HandleGoogleCallback /\ p = Google /\ FormValue r "state" = oauthStateStringGoogle w) \/
  (h = HandleGitHubCallback /\ p = GitHub) \/
  (h = HandleFacebookCallback /\ p = Facebook) ->
  Exchange p (Query_Get r "code") = (token, Some e) ->
  exists (msg : string) (w' : World),
    h r w = (Ret tt, w') /\
    calls w' = (calls w ++ [EvExchange p (Query_Get r "code")])%list /\
    users w' = users w /\ sessions w' = sessions w /\
    written w' = (written w ++ [http_Error msg StatusInternalServerError])%list.
Proof.
  intros [(-> & -> & Hstate) | [(-> & ->) | (-> & ->)]] Hex;
    unfold HandleGoogleCallback, HandleGitHubCallback, HandleFacebookCallback, oauth_Exchange;
    go_run; rewrite ?Hstate, ?String.eqb_refl; cbn [negb]; rewrite Hex; go_run;
    eexists _, _; (split; [reflexivity |]); go_fields; repeat split.
Qed.

(** X23.  When the GitHub profile has no e-mail and no entry of the e-mail
    list is both primary and verified, [getEmailAndNameFromGitHub] does not
    fail: it returns the empty e-mail with the display name and no error. *)
Theorem getEmailAndNameFromGitHub_no_verified_primary
        (token body emailBody : string) (info : userInfo) (emails : list emailEntry)
        (w : World) :
  client_Get GitHub token github_user_url = (body, None) ->
  Decode_userInfo body = (info, None) ->
  Email info = "" ->
  client_Get GitHub token github_emails_url = (emailBody, None) ->
  Decode_emails emailBody = (emails, None) ->
  (forall e, In e emails -> Primary e && Verified e = false) ->
  fst (getEmailAndNameFromGitHub token w) = Ret ("", Name_ info, None).
Proof.
  intros Hget Hdec Hemail Hget2 Hdec2 Hnone.
  unfold getEmailAndNameFromGitHub, http_Get. go_run.
  fold github_user_url github_emails_url. rewrite Hget, Hdec, Hemail.
  cbn [String.eqb]. go_run. rewrite Hget2, Hdec2. go_fields.
  rewrite range_emails_find, (find_none_intro primary_verified emails Hnone). reflexivity.
Qed.

End CallbackLaws.

(** * Further properties of the user store *)

Section UserLaws.

Context `{Ext : Externals}.

Local Open Scope go_scope.

Lemma next_user_id_above (seq : Z) (l : list UserRow) (u : UserRow) :
  In u l -> (u_id u < next_user_id seq l)%Z.
Proof.
  unfold next_user_id. induction l as [|a l IH]; intros Hin; [destruct Hin |].
  cbn [List.fold_right]. destruct Hin as [-> | Hin]; [lia |].
  specialize (IH Hin). lia.
Qed.

Lemma next_user_id_above_seq (seq : Z) (l : list UserRow) : (seq < next_user_id seq l)%Z.
Proof. unfold next_user_id. lia. Qed.

Lemma find_app_new {A : Type} (f : A -> bool) (l : list A) (row : A) :
  List.existsb f l = false -> f row = true -> List.find f (l ++ [row]) = Some row.
Proof.
  intros Hnone Hrow.
  induction l as [|a l IH]; cbn [List.app List.find List.existsb] in *.
  - now rewrite Hrow.
  - apply orb_false_iff in Hnone as [Ha Hl]. rewrite Ha. now apply IH.
Qed.

Lemma existsb_id_next (seq : Z) (l : list UserRow) :
  List.existsb (fun u => Z.eqb (u_id u) (next_user_id seq l)) l = false.
Proof.
  apply existsb_false_intro. intros u Hin. apply Z.eqb_neq.
  pose proof (next_user_id_above seq l u Hin). lia.
Qed.

(** What [insert_user] does, case by case: the statement is refused and
    nothing is stored, or a password is given, e-mail and user name are
    new, and the row is stored under the next id. *)
Lemma insert_user_cases (email username : string) (password : option string) (w : World) :
  DB_nil w = false ->
  let w1 := add_user_insert {| i_email := email; i_username := username;
                               i_password := password |} w in
  let id := next_user_id (users_seq w) (users w) in
  (exists e, insert_user email username password w = (Ret (0%Z, Some e), w1)) \/
  (is_Some password /\
   List.existsb (fun u => String.eqb (u_email u) email) (users w) = false /\
   List.existsb (fun u => String.eqb (u_username u) username) (users w) = false /\
   insert_user email username password w
   = (Ret (id, None),
      set_users_seq id
        (set_users (fun l => (l ++ [{| u_id := id; u_email := email;
                                       u_username := username; u_password := password;
                                       u_role := "user" |}])%list) w1))).
Proof.
  intros HDB w1 id. subst w1 id. unfold insert_user. go_run. rewrite HDB. go_run.
  destruct password as [h|]; [| left; eexists; reflexivity].
  go_run.
  destruct (List.existsb (fun u => String.eqb (u_email u) email) (users w)) eqn:He;
    [left; eexists; reflexivity |].
  destruct (List.existsb (fun u => String.eqb (u_username u) username) (users w)) eqn:Hn;
    [left; eexists; reflexivity |].
  right. auto.
Qed.

Lemma NoDup_map_app_new {A B : Type} (f : A -> B) (l : list A) (x : A) :
  NoDup (List.map f l) -> ~ In (f x) (List.map f l) -> NoDup (List.map f (l ++ [x])).
Proof.
  intros Hnd Hnew. rewrite List.map_app. cbn [List.map].
  apply NoDup_app. split; [exact Hnd |]. split.
  - intros y Hy [<- | []]%list_elem_of_In. apply Hnew. now apply list_elem_of_In.
  - apply NoDup_singleton.
Qed.

Lemma existsb_false_not_in_map (g : UserRow -> string) (key : string) (l : list UserRow) :
  List.existsb (fun u => String.eqb (g u) key) l = false -> ~ In key (List.map g l).
Proof.
  intros H Hin. apply List.in_map_iff in Hin as (u & Hu & Hin).
  assert (Ht : List.existsb (fun u => String.eqb (g u) key) l = true).
  { apply List.existsb_exists. exists u. split; [exact Hin |]. rewrite Hu. apply String.eqb_refl. }
  congruence.
Qed.

Lemma users_unique_app_new (seq : Z) (l : list UserRow) (email username : string)
      (password : option string) (role : string) :
  users_unique l ->
  List.existsb (fun u => String.eqb (u_email u) email) l = false ->
  List.existsb (fun u => String.eqb (u_username u) username) l = false ->
  users_unique (l ++ [{| u_id := next_user_id seq l; u_email := email; u_username := username;
                         u_password := password; u_role := role |}]).
Proof.
  intros (Hid & Hem & Hun) He Hn. repeat split.
  - apply NoDup_map_app_new; [exact Hid |]. cbn [u_id].
    intros Hin. apply List.in_map_iff in Hin as (u & Hu & Hin).
    pose proof (next_user_id_above seq l u Hin). lia.
  - apply NoDup_map_app_new; [exact Hem |]. now apply existsb_false_not_in_map.
  - apply NoDup_map_app_new; [exact Hun |]. now apply existsb_false_not_in_map.
Qed.

(** What [getOrCreateUser] does, case by case: the e-mail is found, or the
    INSERT it sends, which names no password, is refused. *)
Lemma getOrCreateUser_cases (email username : string) (w : World) :
  DB_nil w = false ->
  (exists u, find_user_by_email email (users w) = Some u /\
             getOrCreateUser email username w = (Ret (u_id u, None), w)) \/
  (find_user_by_email email (users w) = None /\
   getOrCreateUser email username w
   = (Ret (0%Z, Some (ErrNotNull "users.password")),
      add_user_insert {| i_email := email; i_username := username; i_password := None |} w)).
Proof.
  intros HDB. unfold getOrCreateUser, select_user_id_by_email, insert_user.
  go_run. rewrite HDB. go_run.
  destruct (find_user_by_email email (users w)) as [u|] eqn:Hu; go_run.
  { left. exists u. auto. }
  right. destruct (decide (ErrNoRows = ErrNoRows)) as [_|N]; [| contradiction].
  rewrite HDB. go_run. auto.
Qed.

(** X24.  [getOrCreateUser] looks up and never creates.  For an e-mail that
    is in the store it returns the id of the first row that has it and
    changes nothing, the user name given being ignored.  For an e-mail that
    is not, the INSERT it sends names no password and is refused: the call
    returns id 0 with the error of the NOT NULL constraint, and the table
    and the sequence of ids are as before. *)
Theorem getOrCreateUser_finds_or_fails (email username : string) (w : World) :
  DB_nil w = false ->
  (forall u, find_user_by_email email (users w) = Some u ->
             getOrCreateUser email username w = (Ret (u_id u, None), w)) /\
  (find_user_by_email email (users w) = None ->
   exists w' : World,
     getOrCreateUser email username w
     = (Ret (0%Z, Some (ErrNotNull "users.password")), w') /\
     users w' = users w /\ users_seq w' = users_seq w /\ sessions w' = sessions w /\
     user_inserts w'
     = (user_inserts w ++ [{| i_email := email; i_username := username;
                              i_password := None |}])%list).
Proof.
  intros HDB.
  destruct (getOrCreateUser_cases email username w HDB) as [(u & Hu & E) | (Hu & E)]; split.
  - intros u' Hu'. rewrite Hu in Hu'. injection Hu' as <-. exact E.
  - rewrite Hu. discriminate.
  - rewrite Hu. discriminate.
  - intros _. eexists. split; [exact E |]. go_fields. repeat split.
Qed.

(** X25.  The store keeps its keys: if ids, e-mails and user names are
    each without duplicates, they still are after [getOrCreateUser] and after
    [saveUser], whatever the arguments and the outcome. *)
Theorem users_stay_unique
        (email username : string) (password : option string) (w : World) :
  DB_nil w = false ->
  users_unique (users w) ->
  users_unique (users (snd (getOrCreateUser email username w))) /\
  users_unique (users (snd (saveUser email username password w))).
Proof.
  intros HDB Huniq. split.
  - destruct (getOrCreateUser_cases email username w HDB) as [(u & _ & E) | (_ & E)];
      rewrite E; cbn [snd]; exact Huniq.
  - unfold saveUser. go_unfold.
    destruct (insert_user_cases email username password w HDB)
      as [[e E] | (_ & Hem & Hun & E)];
      rewrite E; cbn [snd]; [exact Huniq |].
    go_fields. now apply users_unique_app_new.
Qed.

(** X26.  An account stored by [saveUser] is not an administrator: when the
    call succeeds, a password was given, the first row with the e-mail is
    the new one, with that password and the role [user], and
    [CheckIfAdmin] on its id answers false, without error. *)
Theorem saved_account_is_not_admin
        (email username : string) (password : option string) (w w' : World) :
  DB_nil w = false ->
  saveUser email username password w = (Ret None, w') ->
  exists u,
    find_user_by_email email (users w') = Some u /\
    ~ In u (users w) /\
    is_Some password /\ u_password u = password /\ u_username u = username /\
    u_role u = "user" /\
    CheckIfAdmin (u_id u) w' = (Ret (false, None), w').
Proof.
  intros HDB H. unfold saveUser, bind in H.
  destruct (insert_user_cases email username password w HDB)
    as [[e E] | (Hpw & Hem & Hun & E)];
    rewrite E in H; unfold ret in H; [discriminate H |].
  injection H as <-.
  exists {| u_id := next_user_id (users_seq w) (users w); u_email := email;
            u_username := username; u_password := password; u_role := "user" |}.
  go_fields. split.
  { unfold find_user_by_email. apply find_app_new; [exact Hem |].
    cbn [u_email]. apply String.eqb_refl. }
  split.
  { intros Hin. pose proof (next_user_id_above (users_seq w) (users w) _ Hin) as Hlt.
    cbn [u_id] in Hlt. lia. }
  do 4 (split; [first [exact Hpw | reflexivity] |]).
  unfold CheckIfAdmin, select_role_by_id. go_run. rewrite HDB. go_run.
  unfold find_user_by_id.
  rewrite (find_app_new _ (users w) _ (existsb_id_next (users_seq w) (users w)))
    by (cbn [u_id]; apply Z.eqb_refl).
  reflexivity.
Qed.

End UserLaws.

(** * Properties of the administration code *)

Section AdminLaws.

Context `{Ext : Externals}.

Local Open Scope go_scope.

Lemma admin_count_zero (l : list UserRow) :
  List.length (List.filter (fun u => String.eqb (u_role u) "admin") l) = 0%nat <-> ~ has_admin l.
Proof.
  split.
  - intros Hlen (u & Hin & Hrole).
    assert (Hf : In u (List.filter (fun u => String.eqb (u_role u) "admin") l)).
    { apply List.filter_In. split; [exact Hin |]. rewrite Hrole. apply String.eqb_refl. }
    destruct (List.filter _ l); [destruct Hf | discriminate Hlen].
  - intros Hno. rewrite filter_false_nil; [reflexivity |].
    intros u Hin. destruct (String.eqb_spec (u_role u) "admin") as [E|_]; [| reflexivity].
    exfalso. apply Hno. exists u. auto.
Qed.

(** X27.  [createAdminUserIfNotExists] makes sure there is an
    administrator: whenever it returns without error the store has a user
    with the role [admin]; and when there is one already it changes nothing,
    so that running it again is harmless. *)
Theorem createAdminUserIfNotExists_ensures_admin (w : World) :
  DB_nil w = false ->
  (fst (createAdminUserIfNotExists w) = Ret None ->
   has_admin (users (snd (createAdminUserIfNotExists w)))) /\
  (has_admin (users w) -> createAdminUserIfNotExists w = (Ret None, w)).
Proof.
  intros HDB. unfold createAdminUserIfNotExists, insert_user_with_role. go_run.
  rewrite HDB. go_run.
  destruct (List.length (List.filter (fun u => String.eqb (u_role u) "admin") (users w)))
    as [|n] eqn:Hcount; cbn [Nat.eqb].
  - split; [| intros Hadm; apply admin_count_zero in Hcount; contradiction].
    destruct (GenerateFromPassword "securepassword") as [hashed [e|]]; go_run;
      [discriminate |].
    rewrite HDB. go_run.
    destruct (List.existsb _ (users w)); go_run; [discriminate |].
    destruct (List.existsb _ (users w)); go_run; [discriminate |].
    intros _. eexists. split; [apply List.in_or_app; right; left; reflexivity | reflexivity].
  - split; [| reflexivity]. intros _. cbn [snd].
    destruct (List.filter (fun u => String.eqb (u_role u) "admin") (users w)) as [|a l] eqn:Hf;
      [discriminate Hcount |].
    assert (Ha : In a (List.filter (fun u => String.eqb (u_role u) "admin") (users w)))
      by (rewrite Hf; now left).
    apply List.filter_In in Ha as [Hin Hrole]. apply String.eqb_eq in Hrole.
    exists a. auto.
Qed.

(** X28.  The administrator cannot be created when its e-mail or its user
    name is taken by an ordinary user: with no administrator in the store
    and a user called [admin] or registered as [admin@example.com],
    [createAdminUserIfNotExists] returns the wrapped constraint error and
    stores nothing, so the store still has no administrator. *)
Theorem createAdminUserIfNotExists_name_taken (w : World) (u : UserRow) (hashed : string) :
  DB_nil w = false ->
  ~ has_admin (users w) ->
  GenerateFromPassword "securepassword" = (hashed, None) ->
  In u (users w) ->
  u_email u = "admin@example.com" \/ u_username u = "admin" ->
  exists e,
    fst (createAdminUserIfNotExists w)
    = Ret (Some (Errorf ("error creating admin user: " +:+ Error (ErrConstraint e)))) /\
    users (snd (createAdminUserIfNotExists w)) = users w.
Proof.
  intros HDB Hno Hhash Hin Hclash. apply admin_count_zero in Hno.
  unfold createAdminUserIfNotExists, insert_user_with_role. go_run.
  rewrite HDB. go_run. rewrite Hno. cbn [Nat.eqb]. rewrite Hhash. go_run. rewrite HDB. go_run.
  destruct (List.existsb (fun u => String.eqb (u_email u) "admin@example.com") (users w)) eqn:He;
    go_run; [eexists; split; reflexivity |].
  destruct (List.existsb (fun u => String.eqb (u_username u) "admin") (users w)) eqn:Hn;
    go_run; [eexists; split; reflexivity |].
  exfalso. destruct Hclash as [Hc | Hc].
  - pose proof (existsb_false_not_in_map u_email _ _ He) as Hnot. apply Hnot.
    rewrite <- Hc. now apply List.in_map.
  - pose proof (existsb_false_not_in_map u_username _ _ Hn) as Hnot. apply Hnot.
    rewrite <- Hc. now apply List.in_map.
Qed.

(** [LoginHandler] for a POST without a session cookie and a banned
    e-mail. *)
Lemma banned_login_without_cookie (r : Request) (w : World) :
  DB_nil w = false ->
  Cookie r "session_token" = None ->
  Method r = "POST" ->
  In (FormValue r "email") (banned_users w) ->
  LoginHandler r w = (Ret tt, add_written (login_page "Bu kullanıcı banlanmış.") w).
Proof.
  intros HDB Hc Hpost Hban. unfold LoginHandler. go_unfold.
  rewrite (GetSession_no_cookie _ _ HDB Hc). go_run.
  rewrite not_logged_in_gate, Hpost. cbn [String.eqb Ascii.eqb Bool.eqb].
  unfold checkIfBanned. go_run. rewrite HDB. go_run.
  now rewrite (existsb_eqb_In _ _ Hban).
Qed.

(** X29.  Deleting a user bans the e-mail: for a path that names the id of
    a stored user, [DeleteUserHandler] removes every row with that id from
    [users], appends the user's e-mail to [banned_users] and redirects to the
    admin page.  It asks for no session and leaves the sessions as they are,
    those of the deleted user included.  From then on a local login with that
    e-mail gets the ban page. *)
Theorem DeleteUserHandler_bans
        (path : string) (r : Request) (w : World) (id : Z) (u : UserRow) (login : Request) :
  DB_nil w = false ->
  Atoi (TrimPrefix path "/users/delete/") = (id, None) ->
  find_user_by_id id (users w) = Some u ->
  Cookie login "session_token" = None ->
  Method login = "POST" ->
  FormValue login "email" = u_email u ->
  exists w' : World,
    DeleteUserHandler path r w = (Ret tt, w') /\
    users w' = List.filter (fun v => negb (Z.eqb (u_id v) id)) (users w) /\
    (forall v, In v (users w') -> u_id v <> id) /\
    banned_users w' = (banned_users w ++ [u_email u])%list /\
    sessions w' = sessions w /\
    written w' = (written w ++ [Redirect "/admin" StatusSeeOther])%list /\
    LoginHandler login w' = (Ret tt, add_written (login_page "Bu kullanıcı banlanmış.") w').
Proof.
  intros HDB Hid Hu Hc Hpost Hemail.
  unfold DeleteUserHandler, getUserByID. rewrite Hid. go_run. rewrite HDB. go_run.
  rewrite Hu. go_run. rewrite HDB. go_run.
  eexists. split; [reflexivity |]. go_fields.
  split; [reflexivity |]. split.
  { intros v Hv. apply List.filter_In in Hv as [_ Hv].
    apply negb_true_iff, Z.eqb_neq in Hv. exact Hv. }
  split; [reflexivity |]. split; [reflexivity |]. split; [reflexivity |].
  apply banned_login_without_cookie; [exact HDB | exact Hc | exact Hpost |].
  go_fields. rewrite Hemail. apply List.in_or_app. right. now left.
Qed.

(** [DeleteUserHandler] leaves the handle and the sequence of ids alone. *)
Lemma DeleteUserHandler_keeps_seq (path : string) (r : Request) (w : World) :
  DB_nil (snd (DeleteUserHandler path r w)) = DB_nil w /\
  users_seq (snd (DeleteUserHandler path r w)) = users_seq w.
Proof.
  unfold DeleteUserHandler, getUserByID.
  destruct (Atoi (TrimPrefix path "/users/delete/")) as [userID [e|]]; go_run;
    [split; reflexivity |].
  destruct (DB_nil w) eqn:HDB; go_run; [now rewrite HDB |].
  destruct (find_user_by_id userID (users w)); go_run; rewrite ?HDB; go_run;
    split; first [reflexivity | exact HDB].
Qed.

(** X10.  The id of a deleted user is not given again.  Let [u] be a row
    whose id the sequence of ids has recorded, as it has that of every row
    the store was given.  Whatever [DeleteUserHandler] deletes, the id under
    which [insert_user] stores the next row is larger than that of [u], and
    the sequence moves on to it. *)
Theorem deleted_id_is_not_reused
        (path : string) (r : Request) (w w2 : World) (u : UserRow)
        (email username : string) (password : option string) (id : Z) :
  DB_nil w = false ->
  In u (users w) ->
  (u_id u <= users_seq w)%Z ->
  insert_user email username password (snd (DeleteUserHandler path r w)) = (Ret (id, None), w2) ->
  (u_id u < id)%Z /\ users_seq w2 = id /\
  exists v, In v (users w2) /\ u_id v = id /\ u_email v = email.
Proof.
  intros HDB _ Hseq H.
  destruct (DeleteUserHandler_keeps_seq path r w) as [HDB1 Hseq1].
  rewrite HDB in HDB1.
  destruct (insert_user_cases email username password _ HDB1) as [[e E] | (_ & _ & _ & E)];
    rewrite E in H; [discriminate H |].
  injection H as <- <-. go_fields. rewrite Hseq1.
  split; [| split; [reflexivity |]].
  - pose proof (next_user_id_above_seq (users_seq w)
                  (users (snd (DeleteUserHandler path r w)))). lia.
  - eexists. split; [apply List.in_or_app; right; left; reflexivity |].
    split; reflexivity.
Qed.

End AdminLaws.

(** * The statement of the post listing *)

(** X30.  The statement [getFilteredPosts] sends is built from fixed text
    only: the search text, the category and the user id never become part of
    it.  It depends on them through their being empty or nil alone, and on
    the filter through which of the three orders it selects; the inputs
    travel as arguments, one for each placeholder of the statement. *)
Theorem getFilteredPosts_query_is_parametrised
        (searchQuery category filter : string) (userID : option Z) :
  let q := getFilteredPosts_query searchQuery category filter userID in
  placeholders (fst q) = List.length (snd q) /\
  fst q
  = fst (getFilteredPosts_query
           (if String.eqb searchQuery "" then "" else "x")
           (if String.eqb category "" then "" else "x")
           (if String.eqb filter "most_liked" then "most_liked"
            else if String.eqb filter "most_commented" then "most_commented" else "")
           (option_map (fun _ => 0%Z) userID)).
Proof.
  unfold getFilteredPosts_query.
  destruct (String.eqb searchQuery ""), (String.eqb category ""), userID as [id|],
    (String.eqb filter "most_liked"), (String.eqb filter "most_commented");
    split; vm_compute; reflexivity.
Qed.

(** * The further properties at concrete inputs *)

Module MoreScenario.

Import Inputs MoreInputs.
#[local] Existing Instance env.

(** Settling a hypothesis at a concrete input. *)
Ltac settle :=
  first [by_evaluation | vm_compute; intuition (discriminate || congruence)].

(** ** Sessions *)

Lemma GetSession_other_users_untouched_witness :
  sessions (snd (GetSession (with_cookie "t-live") world)) !! "t-other"
  = Some {| user_id := 2; expiry := 7000 |}
  <-> sessions world !! "t-other" = Some {| user_id := 2; expiry := 7000 |}.
Proof.
  apply (GetSession_other_users_untouched (with_cookie "t-live") world "t-live"
           {| user_id := 1; expiry := 5000 |}); settle.
Defined.

Lemma busy_single_session : single_session (sessions busy).
Proof.
  assert (Hrow : forall t r, sessions busy !! t = Some r ->
            (t = "a" /\ user_id r = 1%Z) \/ (t = "b" /\ user_id r = 2%Z)
            \/ (t = "c" /\ user_id r = 3%Z)).
  { intros t r H. cbn [sessions busy] in H.
    apply lookup_insert_Some in H as [[<- <-] | [_ H]]; [auto |].
    apply lookup_insert_Some in H as [[<- <-] | [_ H]]; [auto |].
    apply lookup_singleton_Some in H as [<- <-]. auto. }
  intros t1 t2 r1 r2 H1 H2 Heq.
  destruct (Hrow _ _ H1) as [[-> E1] | [[-> E1] | [-> E1]]],
           (Hrow _ _ H2) as [[-> E2] | [[-> E2] | [-> E2]]];
    try reflexivity; rewrite E1, E2 in Heq; discriminate Heq.
Defined.

Lemma GetSession_keeps_single_session_witness :
  single_session (sessions busy) /\
  sessions (snd (GetSession (with_cookie "b") busy))
  = {[ "a" := {| user_id := 1; expiry := 5000 |};
       "b" := {| user_id := 2; expiry := 600000001001 |};
       "c" := {| user_id := 3; expiry := 7000 |} ]} /\
  single_session (sessions (snd (GetSession (with_cookie "b") busy))).
Proof.
  split; [exact busy_single_session |].
  split; [vm_compute; reflexivity |].
  apply (GetSession_keeps_single_session (with_cookie "b") busy). exact busy_single_session.
Defined.

Lemma GetSession_again_witness :
  exists w2 : World,
    GetSession (with_cookie "t-live") (snd (GetSession (with_cookie "t-live") world))
    = (Ret (Some {| ID := "t-live"; UserID := 1; Expiry := 600000001003 |}, None), w2) /\
    sessions w2 !! "t-live" = Some {| user_id := 1; expiry := 600000001003 |} /\
    (forall t, t <> "t-live" ->
               sessions w2 !! t
               = sessions (snd (GetSession (with_cookie "t-live") world)) !! t).
Proof.
  apply (GetSession_again (with_cookie "t-live") world "t-live"
           {| user_id := 1; expiry := 5000 |}); settle.
Defined.

Lemma createSession_same_instant_witness :
  fst (@createSession frozen 7 (snd (@createSession frozen 7 frozen_world)))
  = Ret ("", Some (ErrConstraint "sessions.id")) /\
  sessions (snd (@createSession frozen 7 (snd (@createSession frozen 7 frozen_world))))
  = sessions (snd (@createSession frozen 7 frozen_world)).
Proof.
  apply (@createSession_same_instant frozen 7 frozen_world); settle.
Defined.

Lemma sessionToken_of_names_user_and_instant_witness :
  sessionToken_of 1 23 = "session-1-23" /\
  sessionToken_of 12 3 = "session-12-3" /\
  sessionToken_of 1 23 <> sessionToken_of 12 3 /\
  sessionToken_of 7 1000 <> sessionToken_of 7 1002 /\
  sessionToken_of 7 1000 <> sessionToken_of 8 1000.
Proof.
  split; [by_evaluation |]. split; [by_evaluation |].
  split; [| split].
  - apply (sessionToken_of_names_user_and_instant 1 12 23 3). left. lia.
  - apply (sessionToken_of_names_user_and_instant 7 7 1000 1002). right. lia.
  - apply (sessionToken_of_names_user_and_instant 7 8 1000 1000). left. lia.
Defined.

Lemma LogoutHandler_invalidates_witness :
  exists w' : World,
    LogoutHandler (with_cookie "t-live") world = (Ret tt, w') /\
    sessions w' !! "t-live" = None /\
    (forall t, t <> "t-live" -> sessions w' !! t = sessions world !! t) /\
    written w'
    = [SetCookie {| Name := "session_token"; Value := ""; Path := "";
                    Expires := Some (-999999000)%Z; HttpOnly := false; Secure := false |};
       Redirect "/" StatusSeeOther] /\
    fst (GetSession (with_cookie "t-live") w') = Ret (None, Some ErrNoRows) /\
    sessions (snd (LogoutHandler (with_cookie "t-live") w')) = sessions w'.
Proof.
  apply (LogoutHandler_invalidates (with_cookie "t-live") world "t-live"); settle.
Defined.

(** ** Login and registration *)

Definition login_as (email password : string) : Request :=
  post [("email", email); ("password", password)].

Lemma LoginHandler_local_success_witness :
  exists w' : World,
    LoginHandler (login_as "alice@x.com" "secret1") forum = (Ret tt, w') /\
    sessions w' = <["uuid-0" := {| user_id := 1; expiry := 600000001000 |}]> (sessions forum) /\
    users w' = users forum /\
    calls w' = [EvCompareHashAndPassword "hash:secret1" "secret1"] /\
    written w'
    = [SetCookie {| Name := "session_token"; Value := "uuid-0"; Path := "";
                    Expires := Some 600000001000%Z; HttpOnly := true; Secure := true |};
       Redirect "/" StatusSeeOther].
Proof.
  apply (LoginHandler_local_success (login_as "alice@x.com" "secret1") forum alice "hash:secret1");
    settle.
Defined.

Lemma LoginHandler_bad_credentials_witness :
  (exists w' : World,
      LoginHandler (login_as "alice@x.com" "guess") forum = (Ret tt, w') /\
      sessions w' = sessions forum /\ users w' = users forum /\
      written w' = [login_page "Geçersiz e-posta veya şifre"]) /\
  (exists w' : World,
      LoginHandler (login_as "nobody@x.com" "secret1") forum = (Ret tt, w') /\
      sessions w' = sessions forum /\ users w' = users forum /\
      written w' = [login_page "Geçersiz e-posta veya şifre"]).
Proof.
  split.
  - apply (LoginHandler_bad_credentials (login_as "alice@x.com" "guess") forum);
      try settle.
    right. exists alice, "hash:secret1". repeat split; try (vm_compute; reflexivity).
    vm_compute. eauto.
  - apply (LoginHandler_bad_credentials (login_as "nobody@x.com" "secret1") forum);
      settle.
Defined.

Definition google_login (code : string) : Request :=
  post [("google_oauth", "true"); ("code", code)].

Lemma LoginHandler_google_missing_account_witness :
  exists w' : World,
    LoginHandler (google_login "zoe") forum = (Ret tt, w') /\
    sessions w'
    = <["session-0-1000" := {| user_id := 0; expiry := 600000001001 |}]> (sessions forum) /\
    written w'
    = [SetCookie (callback_cookie "session-0-1000"); Redirect "/myprofil" StatusSeeOther].
Proof.
  apply (LoginHandler_google_missing_account (google_login "zoe") forum "zoe" "zoe"
           (profile_of "zoe")); try settle.
  intros u [<- | [<- | []]]; vm_compute; intros H; discriminate H.
Defined.

Definition register_as (email username password : string) : Request :=
  post [("email", email); ("username", username); ("password", password)].

Lemma RegisterHandler_email_taken_witness :
  exists w' : World,
    RegisterHandler (register_as "alice@x.com" "alice2" "secret2") forum = (Ret tt, w') /\
    users w' = users forum /\ sessions w' = sessions forum /\ calls w' = calls forum /\
    written w'
    = [ExecuteTemplate "templates/register.html" (RegisterTemplateData email_taken "" "")].
Proof.
  apply (RegisterHandler_email_taken (register_as "alice@x.com" "alice2" "secret2") forum alice);
    settle.
Defined.

Lemma RegisterHandler_success_witness :
  users after_deletion = [alice] /\
  users_seq after_deletion = 2%Z /\
  exists w' : World,
    RegisterHandler (register_as "bob@x.com" "bob" "secret2") after_deletion = (Ret tt, w') /\
    users w'
    = [alice;
       {| u_id := 3; u_email := "bob@x.com"; u_username := "bob";
          u_password := Some "hash:secret2"; u_role := "user" |}] /\
    users_seq w' = 3%Z /\
    sessions w'
    = <["session-0-1000" := {| user_id := 0; expiry := 600000001001 |}]>
        (sessions after_deletion) /\
    calls w' = [EvGenerateFromPassword "secret2"] /\
    written w'
    = [SetCookie {| Name := "session_token"; Value := "session-0-1000"; Path := "/";
                    Expires := None; HttpOnly := true; Secure := true |};
       Redirect "/myprofil" StatusSeeOther].
Proof.
  split; [reflexivity |]. split; [reflexivity |].
  apply (RegisterHandler_success (register_as "bob@x.com" "bob" "secret2") after_deletion
           "hash:secret2");
    try settle.
  intros u [<- | []]; vm_compute; intros H; discriminate H.
Defined.

(** ** Provider callbacks *)

Lemma login_start_issues_nonce_witness :
  oauthStateStringGoogle forum = "nonce-1" /\
  registering forum = false /\
  EncodeToString (drawn_bytes 32 (rand_pos forum)) = "nonce-496" /\
  exists w' : World,
    HandleGoogleRegister (callback "" "") forum = (Ret tt, w') /\
    oauthStateStringGoogle w' = EncodeToString (drawn_bytes 32 (rand_pos forum)) /\
    registering w' = true /\
    rand_pos w' = 32%nat /\
    sessions w' = sessions forum /\ users w' = users forum /\
    written w'
    = [Redirect (AuthCodeURL Google (EncodeToString (drawn_bytes 32 (rand_pos forum))))
                StatusTemporaryRedirect].
Proof.
  split; [reflexivity |]. split; [reflexivity |]. split; [by_evaluation |].
  apply (login_start_issues_nonce HandleGoogleRegister true (callback "" "") forum).
  right. left. split; reflexivity.
Defined.

Lemma second_start_invalidates_first_nonce_witness :
  oauthStateStringGoogle (snd (HandleGoogleLogin (callback "" "") forum)) = "nonce-496" /\
  written (snd (HandleGoogleCallback (callback "nonce-496" "alice")
                  (snd (HandleGoogleRegister (callback "" "")
                          (snd (HandleGoogleLogin (callback "" "") forum))))))
  = [Redirect "https://provider.example/auth?state=nonce-496" StatusTemporaryRedirect;
     Redirect "https://provider.example/auth?state=nonce-1520" StatusTemporaryRedirect;
     Redirect "/" StatusTemporaryRedirect].
Proof.
  split; [settle |].
  rewrite (second_start_invalidates_first_nonce (callback "" "") (callback "" "")
             (callback "nonce-496" "alice") forum); settle.
Defined.

Lemma HandleGoogleCallback_without_nonce_witness :
  exists rest,
    calls (snd (HandleGoogleCallback (callback_without_state "alice") empty_world))
    = EvExchange Google "alice" :: rest.
Proof.
  apply (HandleGoogleCallback_without_nonce (callback_without_state "alice") empty_world);
    settle.
Defined.

Lemma google_profile_forum (code : string) :
  String.eqb code "denied" = false ->
  String.eqb code "noemail" = false ->
  String.eqb code "tab" = false ->
  forall w : World,
    oauthStateStringGoogle w = "nonce-1" ->
    google_profile (callback "nonce-1" code) w (profile_of code).
Proof.
  intros Hd Hn Ht w Hw. split; [rewrite Hw; reflexivity |].
  exists code, code. cbn. rewrite Hd. unfold decode_userInfo. rewrite Hn, Ht. auto.
Defined.

Lemma HandleGoogleCallback_login_known_witness :
  exists w' : World,
    HandleGoogleCallback (callback "nonce-1" "alice") forum = (Ret tt, w') /\
    sessions w'
    = <["session-1-1000" := {| user_id := 1; expiry := 600000001001 |}]> (sessions forum) /\
    users w' = users forum /\
    calls w' = google_calls (callback "nonce-1" "alice") /\
    written w' = [SetCookie (callback_cookie "session-1-1000"); Redirect "/" StatusSeeOther].
Proof.
  apply (HandleGoogleCallback_login_known (callback "nonce-1" "alice") forum
           (profile_of "alice") alice); try settle.
  apply google_profile_forum; reflexivity.
Defined.

Lemma HandleGoogleCallback_login_unknown_witness :
  exists w' : World,
    HandleGoogleCallback (callback "nonce-1" "zoe") forum = (Ret tt, w') /\
    sessions w' = sessions forum /\
    users w' = users forum /\
    written w'
    = [HandleErr ErrNoRows "Kullanıcı bulunamadı. Lütfen önce kaydolun." StatusUnauthorized].
Proof.
  apply (HandleGoogleCallback_login_unknown (callback "nonce-1" "zoe") forum (profile_of "zoe"));
    try settle.
  apply google_profile_forum; reflexivity.
Defined.

Lemma HandleGoogleCallback_register_email_taken_witness :
  exists w' : World,
    HandleGoogleCallback (callback "nonce-1" "alice") forum_registering = (Ret tt, w') /\
    sessions w' = sessions forum_registering /\
    users w' = users forum_registering /\
    written w'
    = [ExecuteTemplate "templates/register.html"
         (RegisterTemplateData email_taken "alice@x.com" "")].
Proof.
  apply (HandleGoogleCallback_register_email_taken (callback "nonce-1" "alice")
           forum_registering (profile_of "alice") alice); try settle.
  apply google_profile_forum; reflexivity.
Defined.

Lemma HandleGoogleCallback_register_new_witness :
  exists w' : World,
    HandleGoogleCallback (callback "nonce-1" "zoe") world = (Ret tt, w') /\
    user_inserts w'
    = [{| i_email := "zoe@x.com"; i_username := "adal"; i_password := None |}] /\
    users w' = [alice] /\
    users_seq w' = 1%Z /\
    sessions w'
    = <["session-0-1000" := {| user_id := 0; expiry := 600000001001 |}]> (sessions world) /\
    written w'
    = [SetCookie (callback_cookie "session-0-1000");
       Redirect "/myprofil" StatusTemporaryRedirect].
Proof.
  apply (HandleGoogleCallback_register_new (callback "nonce-1" "zoe") world (profile_of "zoe"));
    try settle.
  apply google_profile_forum; reflexivity.
Defined.

Lemma HandleGoogleCallback_register_name_taken_witness :
  exists w' : World,
    HandleGoogleCallback (callback "nonce-1" "zoe") forum_registering = (Ret tt, w') /\
    users w' = users forum_registering /\
    sessions w'
    = <["session-0-1000" := {| user_id := 0; expiry := 600000001001 |}]>
        (sessions forum_registering) /\
    written w'
    = [SetCookie (callback_cookie "session-0-1000");
       Redirect "/myprofil" StatusTemporaryRedirect].
Proof.
  apply (HandleGoogleCallback_register_name_taken (callback "nonce-1" "zoe") forum_registering
           (profile_of "zoe") ada); try settle.
  apply google_profile_forum; reflexivity.
Defined.

Lemma callback_failed_exchange_witness :
  exists (msg : string) (w' : World),
    HandleGitHubCallback (callback "" "denied") forum = (Ret tt, w') /\
    calls w' = [EvExchange GitHub "denied"] /\
    users w' = users forum /\ sessions w' = sessions forum /\
    written w' = [http_Error msg StatusInternalServerError].
Proof.
  apply (callback_failed_exchange HandleGitHubCallback GitHub (callback "" "denied") forum
           "" (ErrLib "oauth2: cannot fetch token")).
  - right. left. split; reflexivity.
  - reflexivity.
Defined.

Lemma getEmailAndNameFromGitHub_no_verified_primary_witness :
  fst (@getEmailAndNameFromGitHub frozen "noemail" frozen_world) = Ret ("", "Ada L", None).
Proof.
  apply (@getEmailAndNameFromGitHub_no_verified_primary frozen "noemail" "noemail" "noemail"
           {| Email := ""; Name_ := "Ada L" |}
           [ {| e_Email := "old@x.com"; Primary := false; Verified := true |};
             {| e_Email := "new@x.com"; Primary := true; Verified := false |} ]
           frozen_world); try reflexivity.
  intros e [<- | [<- | []]]; reflexivity.
Defined.

(** ** Users and administration *)

Lemma getOrCreateUser_finds_or_fails_witness :
  getOrCreateUser "alice@x.com" "alice_abcde" forum = (Ret (1%Z, None), forum) /\
  exists w' : World,
    getOrCreateUser "zoe@x.com" "zoe_abcde" forum
    = (Ret (0%Z, Some (ErrNotNull "users.password")), w') /\
    users w' = users forum /\ users_seq w' = users_seq forum /\
    sessions w' = sessions forum /\
    user_inserts w'
    = [{| i_email := "zoe@x.com"; i_username := "zoe_abcde"; i_password := None |}].
Proof.
  split.
  - apply (proj1 (getOrCreateUser_finds_or_fails "alice@x.com" "alice_abcde" forum eq_refl)
             alice).
    reflexivity.
  - apply (proj2 (getOrCreateUser_finds_or_fails "zoe@x.com" "zoe_abcde" forum eq_refl)).
    reflexivity.
Defined.

Lemma forum_users_unique : users_unique (users forum).
Proof.
  repeat split; apply (bool_decide_unpack _); vm_compute; exact I.
Defined.

Lemma users_stay_unique_witness :
  users_unique (users forum) /\
  users_unique (users (snd (getOrCreateUser "zoe@x.com" "zoe_abcde" forum))) /\
  users_unique (users (snd (saveUser "alice@x.com" "other" (Some "hash") forum))).
Proof.
  split; [exact forum_users_unique |].
  split.
  - apply (users_stay_unique "zoe@x.com" "zoe_abcde" None forum eq_refl forum_users_unique).
  - apply (users_stay_unique "alice@x.com" "other" (Some "hash") forum eq_refl
             forum_users_unique).
Defined.

Lemma saved_account_is_not_admin_witness :
  exists (w' : World) (u : UserRow),
    saveUser "bob@x.com" "bob" (Some "hash:secret2") forum = (Ret None, w') /\
    find_user_by_email "bob@x.com" (users w') = Some u /\
    ~ In u (users forum) /\
    is_Some (Some "hash:secret2") /\ u_password u = Some "hash:secret2" /\
    u_username u = "bob" /\ u_role u = "user" /\
    CheckIfAdmin (u_id u) w' = (Ret (false, None), w').
Proof.
  eexists.
  assert (Hrun : saveUser "bob@x.com" "bob" (Some "hash:secret2") forum
                 = (Ret None, snd (saveUser "bob@x.com" "bob" (Some "hash:secret2") forum)))
    by (vm_compute; reflexivity).
  destruct (saved_account_is_not_admin "bob@x.com" "bob" (Some "hash:secret2") forum _
              eq_refl Hrun) as (u & Hu).
  exists u. split; [exact Hrun | exact Hu].
Defined.

Lemma createAdminUserIfNotExists_ensures_admin_witness :
  has_admin (users (snd (createAdminUserIfNotExists empty_world))) /\
  createAdminUserIfNotExists (snd (createAdminUserIfNotExists empty_world))
  = (Ret None, snd (createAdminUserIfNotExists empty_world)).
Proof.
  destruct (createAdminUserIfNotExists_ensures_admin empty_world eq_refl) as [Hmake _].
  assert (Hadmin : has_admin (users (snd (createAdminUserIfNotExists empty_world))))
    by (apply Hmake; vm_compute; reflexivity).
  split; [exact Hadmin |].
  apply (createAdminUserIfNotExists_ensures_admin
           (snd (createAdminUserIfNotExists empty_world)) eq_refl).
  exact Hadmin.
Defined.

Lemma createAdminUserIfNotExists_name_taken_witness :
  exists e,
    fst (createAdminUserIfNotExists squatted)
    = Ret (Some (Errorf ("error creating admin user: " +:+ Error (ErrConstraint e)))) /\
    users (snd (createAdminUserIfNotExists squatted)) = users squatted.
Proof.
  apply (createAdminUserIfNotExists_name_taken squatted
           {| u_id := 1; u_email := "eve@x.com"; u_username := "admin";
              u_password := Some "hash:evepass"; u_role := "user" |}
           "hash:securepassword"); try settle.
  intros (u & [<- | []] & Hrole). discriminate Hrole.
Defined.

Lemma DeleteUserHandler_bans_witness :
  CompareHashAndPassword "hash:secret1" "secret1" = None /\
  exists w' : World,
    DeleteUserHandler "/users/delete/1" (callback "" "") forum = (Ret tt, w') /\
    users w' = [ada] /\
    (forall v, In v (users w') -> u_id v <> 1%Z) /\
    banned_users w' = ["troll@x.com"; "alice@x.com"] /\
    sessions w' = sessions forum /\
    written w' = [Redirect "/admin" StatusSeeOther] /\
    LoginHandler (login_as "alice@x.com" "secret1") w'
    = (Ret tt, add_written (login_page "Bu kullanıcı banlanmış.") w').
Proof.
  split; [settle |].
  apply (DeleteUserHandler_bans "/users/delete/1" (callback "" "") forum 1 alice
           (login_as "alice@x.com" "secret1")); settle.
Defined.

Lemma deleted_id_is_not_reused_witness :
  users (snd (DeleteUserHandler "/users/delete/2" (callback "" "") forum)) = [alice] /\
  exists w2 : World,
    insert_user "bob@x.com" "bob" (Some "hash:secret2")
      (snd (DeleteUserHandler "/users/delete/2" (callback "" "") forum))
    = (Ret (3%Z, None), w2) /\
    (u_id ada < 3)%Z /\ users_seq w2 = 3%Z /\
    exists v, In v (users w2) /\ u_id v = 3%Z /\ u_email v = "bob@x.com".
Proof.
  split; [vm_compute; reflexivity |].
  eexists. split; [vm_compute; reflexivity |].
  eapply (deleted_id_is_not_reused "/users/delete/2" (callback "" "") forum _ ada
            "bob@x.com" "bob" (Some "hash:secret2") 3);
    [reflexivity | right; left; reflexivity | vm_compute; discriminate | vm_compute; reflexivity].
Defined.

End MoreScenario.
